(** * Short-code allocation and redirect resolution of the URL shortener

  A shallow embedding of the Go service layer
  ([internal/services/url_service.go]), its models
  ([internal/models/url.go], [internal/models/user.go]), the error package
  ([internal/errors]), the SQL and Redis repositories behind the
  [URLRepository], [UserRepository] and [CacheRepository] interfaces, and the
  JSON error mapping of the HTTP handlers.

  Go strings are byte sequences and are modelled as [string]; Go [int] and
  instants ([time.Time]) as [Z]; a nilable pointer as [option]. *)

From Stdlib Require Import ZArith NArith Ascii String List Lia Bool DecimalString.
From stdpp Require Import gmap strings list fin_maps sorting.

Local Open Scope Z_scope.

(** ** Package [strings] (the functions the service calls) *)

Module strings.

Definition byte_val (c : ascii) : N := N_of_ascii c.

(** [asciiSpace] table of the Go library: tab, newline, vertical tab, form
    feed, carriage return and space. *)
Definition asciiSpace (c : ascii) : bool :=
  let n := byte_val c in
  ((9 <=? n) && (n <=? 13) || (n =? 32))%N.

(** The runes above U+007F for which [unicode.IsSpace] holds, by their UTF-8
    encoding: U+0085 and U+00A0 take two bytes, U+1680, U+2000..U+200A,
    U+2028, U+2029, U+202F, U+205F and U+3000 take three. *)
Definition space2 (c1 c2 : ascii) : bool :=
  let n1 := byte_val c1 in
  let n2 := byte_val c2 in
  ((n1 =? 0xC2) && ((n2 =? 0x85) || (n2 =? 0xA0)))%N.

Definition space3 (c1 c2 c3 : ascii) : bool :=
  let n1 := byte_val c1 in
  let n2 := byte_val c2 in
  let n3 := byte_val c3 in
  ((n1 =? 0xE1) && ((n2 =? 0x9A) && (n3 =? 0x80))
   || (n1 =? 0xE2) && ((n2 =? 0x80) &&
        ((0x80 <=? n3) && (n3 <=? 0x8A) || (n3 =? 0xA8) || (n3 =? 0xA9) || (n3 =? 0xAF)))
   || (n1 =? 0xE2) && ((n2 =? 0x81) && (n3 =? 0x9F))
   || (n1 =? 0xE3) && ((n2 =? 0x80) && (n3 =? 0x80)))%N.

(** Dropping white space rune by rune from one end of a byte sequence. A
    rune is white space exactly when the bytes at that end are one of the
    encodings above (an ill-formed sequence decodes to U+FFFD, which is not
    white space); [p1], [p2] and [p3] recognise the encodings of one, two and
    three bytes. *)
Section Trim.

Variable p1 : ascii -> bool.
Variable p2 : ascii -> ascii -> bool.
Variable p3 : ascii -> ascii -> ascii -> bool.

Fixpoint trim (l : list ascii) : list ascii :=
  match l with
  | c1 :: l1 =>
      if p1 c1 then trim l1
      else match l1 with
           | c2 :: l2 =>
               if p2 c1 c2 then trim l2
               else match l2 with
                    | c3 :: l3 => if p3 c1 c2 c3 then trim l3 else l
                    | [] => l
                    end
           | [] => l
           end
  | [] => l
  end.

(** The sequence begins with a white space rune. *)
Definition starts (l : list ascii) : bool :=
  match l with
  | c1 :: l1 =>
      p1 c1
      || match l1 with
         | c2 :: l2 =>
             p2 c1 c2
             || match l2 with
                | c3 :: _ => p3 c1 c2 c3
                | [] => false
                end
         | [] => false
         end
  | [] => false
  end.

End Trim.

(** Leading white space, decoding forwards. *)
Definition trimLeft : list ascii -> list ascii := trim asciiSpace space2 space3.

(** Trailing white space, decoding backwards from the end
    ([utf8.DecodeLastRuneInString]); the argument is the reversed string, so
    its head is the last byte. *)
Definition trimRightRev : list ascii -> list ascii :=
  trim asciiSpace (fun c1 c2 => space2 c2 c1) (fun c1 c2 c3 => space3 c3 c2 c1).

Definition trimRight (l : list ascii) : list ascii := rev (trimRightRev (rev l)).

(** [strings.TrimSpace]: all leading and trailing white space removed, as
    defined by Unicode. *)
Definition TrimSpace (s : string) : string :=
  string_of_list_ascii (trimRight (trimLeft (list_ascii_of_string s))).

(** [strings.HasPrefix s prefix]. *)
Definition HasPrefix (s p : string) : bool := String.prefix p s.

(** [strings.Contains s substr]. *)
Fixpoint Contains (s sub : string) : bool :=
  String.prefix sub s
  || match s with
     | String _ s' => Contains s' sub
     | EmptyString => false
     end.

End strings.

(** ** Package [errors] *)

Module errors.

Inductive ErrorCode : Set :=
| ErrCodeValidation | ErrCodeNotFound | ErrCodeInactive | ErrCodeExpired
| ErrCodeAlreadyExists | ErrCodeUnauthorized | ErrCodeForbidden
| ErrCodeRateLimit | ErrCodeBadRequest
| ErrCodeInternal | ErrCodeDatabase | ErrCodeRedis | ErrCodeExternal
| ErrCodeTimeout.

(** The string each [ErrorCode] constant stands for. *)
Definition code_string (c : ErrorCode) : string :=
  match c with
  | ErrCodeValidation => "VALIDATION_ERROR"
  | ErrCodeNotFound => "NOT_FOUND"
  | ErrCodeInactive => "URL_INACTIVE"
  | ErrCodeExpired => "URL_EXPIRED"
  | ErrCodeAlreadyExists => "ALREADY_EXISTS"
  | ErrCodeUnauthorized => "UNAUTHORIZED"
  | ErrCodeForbidden => "FORBIDDEN"
  | ErrCodeRateLimit => "RATE_LIMIT_EXCEEDED"
  | ErrCodeBadRequest => "BAD_REQUEST"
  | ErrCodeInternal => "INTERNAL_ERROR"
  | ErrCodeDatabase => "DATABASE_ERROR"
  | ErrCodeRedis => "REDIS_ERROR"
  | ErrCodeExternal => "EXTERNAL_SERVICE_ERROR"
  | ErrCodeTimeout => "TIMEOUT_ERROR"
  end.

(** [net/http] status codes used by the constructors. *)
Definition StatusBadRequest : Z := 400.
Definition StatusUnauthorized : Z := 401.
Definition StatusForbidden : Z := 403.
Definition StatusNotFound : Z := 404.
Definition StatusRequestTimeout : Z := 408.
Definition StatusConflict : Z := 409.
Definition StatusGone : Z := 410.
Definition StatusTooManyRequests : Z := 429.
Definition StatusInternalServerError : Z := 500.
Definition StatusBadGateway : Z := 502.

(** A Go [error] value: either a plain error made by [fmt.Errorf] (only its
    message matters to the callers here), or a pointer to an [AppError]. *)
Inductive error : Type :=
| errorString (msg : string)
| appError (a : AppError)
with AppError : Type :=
| mkAppError (Code : ErrorCode) (Message Details : string) (StatusCode : Z)
             (Err : option error).

Definition Code (a : AppError) : ErrorCode :=
  match a with mkAppError c _ _ _ _ => c end.
Definition Message (a : AppError) : string :=
  match a with mkAppError _ m _ _ _ => m end.
Definition Details (a : AppError) : string :=
  match a with mkAppError _ _ d _ _ => d end.
Definition StatusCode (a : AppError) : Z :=
  match a with mkAppError _ _ _ s _ => s end.
Definition Err (a : AppError) : option error :=
  match a with mkAppError _ _ _ _ e => e end.

(** [err.Error()]. *)
Fixpoint Error (e : error) : string :=
  match e with
  | errorString msg => msg
  | appError (mkAppError c m _ _ (Some e')) =>
      code_string c +:+ ": " +:+ m +:+ " (" +:+ Error e' +:+ ")"
  | appError (mkAppError c m _ _ None) =>
      code_string c +:+ ": " +:+ m
  end.

Definition NewAppError (code : ErrorCode) (message : string) (statusCode : Z)
    (err : option error) : AppError :=
  mkAppError code message EmptyString statusCode err.

Definition NewValidationError (message : string) (err : option error) : AppError :=
  NewAppError ErrCodeValidation message StatusBadRequest err.
Definition NewNotFoundError (message : string) (err : option error) : AppError :=
  NewAppError ErrCodeNotFound message StatusNotFound err.
Definition NewInactiveError (message : string) (err : option error) : AppError :=
  NewAppError ErrCodeInactive message StatusGone err.
Definition NewExpiredError (message : string) (err : option error) : AppError :=
  NewAppError ErrCodeExpired message StatusGone err.
Definition NewAlreadyExistsError (message : string) (err : option error) : AppError :=
  NewAppError ErrCodeAlreadyExists message StatusConflict err.
Definition NewForbiddenError (message : string) (err : option error) : AppError :=
  NewAppError ErrCodeForbidden message StatusForbidden err.
Definition NewInternalError (message : string) (err : option error) : AppError :=
  NewAppError ErrCodeInternal message StatusInternalServerError err.
Definition NewDatabaseError (message : string) (err : option error) : AppError :=
  NewAppError ErrCodeDatabase message StatusInternalServerError err.

(** [GetAppError]: the type assertion of [err] to a pointer to [AppError]. *)
Definition GetAppError (err : error) : option AppError :=
  match err with
  | appError a => Some a
  | errorString _ => None
  end.

Record ErrorDetail : Type := mkErrorDetail
  { detail_Code : ErrorCode; detail_Message : string; detail_Details : string }.

Record ErrorResponse : Type := mkErrorResponse { response_Error : ErrorDetail }.

Definition ToErrorResponse (e : AppError) : ErrorResponse :=
  {| response_Error :=
       {| detail_Code := Code e; detail_Message := Message e;
          detail_Details := Details e |} |}.

End errors.

(** ** Package [models]: the records *)

Module models.

Import errors.

(** [URL]: a shortened URL record. Instants are nanoseconds since the epoch;
    [ExpiresAt] is a nilable pointer. *)
Record URL : Type := mkURL
  { ID : Z;
    ShortCode : string;
    OriginalURL : string;
    UserID : Z;
    CreatedAt : Z;
    UpdatedAt : Z;
    ClickCount : Z;
    IsActive : bool;
    ExpiresAt : option Z;
    UserAgent : string;
    IPAddress : string }.

(** [User], with the fields the link quota reads. *)
Record User : Type := mkUser
  { User_ID : Z;
    User_Email : string;
    User_IsActive : bool;
    LinkCount : Z;
    LinkLimit : Z }.

(** [CreateURLRequest]; [OptionalTime] wraps a nilable instant. *)
Record CreateURLRequest : Type := mkCreateURLRequest
  { Create_URL : string;
    Create_CustomCode : string;
    Create_ExpiresAt : option Z }.

Record CreateURLResponse : Type := mkCreateURLResponse
  { Resp_ID : Z;
    Resp_ShortCode : string;
    Resp_OriginalURL : string;
    Resp_ShortURL : string;
    Resp_IsActive : bool;
    Resp_CreatedAt : Z;
    Resp_ExpiresAt : option Z;
    Resp_QRCode : string }.

(** [UpdateURLRequest]: [IsActive] is a nilable pointer to a bool. *)
Record UpdateURLRequest : Type := mkUpdateURLRequest
  { Update_OriginalURL : string;
    Update_IsActive : option bool;
    Update_ExpiresAt : option Z }.

(** What the callers read of a [net/url.URL]. *)
Record ParsedURL : Type := mkParsedURL { Scheme : string; Host : string }.

(** The two steps every normalisation in the package performs:
    [strings.TrimSpace], then the [https://] prefix when neither scheme
    prefix is there. *)
Definition normalize (s : string) : string :=
  let s := strings.TrimSpace s in
  if negb (strings.HasPrefix s "http://") && negb (strings.HasPrefix s "https://")
  then "https://" +:+ s
  else s.

(** [URL.NormalizeURL]. *)
Definition NormalizeURL (u : URL) : URL :=
  mkURL (ID u) (ShortCode u) (normalize (OriginalURL u)) (UserID u)
        (CreatedAt u) (UpdatedAt u) (ClickCount u) (IsActive u) (ExpiresAt u)
        (UserAgent u) (IPAddress u).

(** [User.CanCreateLink]. *)
Definition CanCreateLink (u : User) : bool := LinkCount u <? LinkLimit u.

(** The character test of the custom code loop in
    [CreateURLRequest.Validate]; a byte above 0x7F belongs to a rune that
    fails every alternative. *)
Definition code_char_ok (c : ascii) : bool :=
  let n := strings.byte_val c in
  ((97 <=? n) && (n <=? 122) || (65 <=? n) && (n <=? 90)
   || (48 <=? n) && (n <=? 57) || (n =? 45))%N.

(** A Go function result [(T, error)]. *)
Inductive result (A : Type) : Type :=
| ok (a : A)
| fail (e : error).

Arguments ok {A} a.
Arguments fail {A} e.

End models.

(** ** Effects of the service

    The service talks to its collaborators through the interfaces
    [URLRepository], [UserRepository] and [CacheRepository], and it reads the
    clock ([time.Now]) and the system's random source ([crypto/rand.Read]).
    Each such call is an event; a service method is a finite tree of events
    whose answers come from whoever implements the interfaces. Writes to the
    standard output ([fmt.Println], [fmt.Printf]) are left out. *)

Module effects.

Import errors models.

Inductive Event : Type -> Type :=
| TimeNow : Event Z
| RandRead : Event ascii
| User_GetByID (id : Z) : Event (result User)
| URL_Create (u : URL) : Event (result URL)
| URL_GetByShortCode (shortCode : string) : Event (result URL)
| URL_Update (u : URL) : Event (result URL)
| URL_DeleteByUser (shortCode : string) (userID : Z) : Event (option error)
| URL_ExistsByShortCode (shortCode : string) : Event (result bool)
| URL_CheckOwnership (shortCode : string) (userID : Z) : Event (result bool)
| Cache_SetURL (shortCode originalURL : string) (expiration : Z) : Event (option error)
| Cache_DeleteURL (shortCode : string) : Event (option error).

Inductive Prog (A : Type) : Type :=
| Ret (a : A)
| Vis {X : Type} (e : Event X) (k : X -> Prog A).

Arguments Ret {A} a.
Arguments Vis {A X} e k.

Fixpoint bind {A B : Type} (m : Prog A) (f : A -> Prog B) : Prog B :=
  match m with
  | Ret a => f a
  | Vis e k => Vis e (fun x => bind (k x) f)
  end.

Definition call {X : Type} (e : Event X) : Prog X := Vis e Ret.

(** An implementation of the collaborators over a world [W]. *)
Definition handler (W : Type) : Type := forall X : Type, Event X -> W -> X * W.

Fixpoint run {W A : Type} (h : handler W) (m : Prog A) (w : W) : A * W :=
  match m with
  | Ret a => (a, w)
  | Vis e k => let '(x, w') := h _ e w in run h (k x) w'
  end.

(** One call with its answer, and the calls of a run in order. *)
Inductive Call : Type :=
| MkCall {X : Type} (e : Event X) (x : X).

Fixpoint trace {W A : Type} (h : handler W) (m : Prog A) (w : W) : list Call :=
  match m with
  | Ret _ => []
  | Vis e k => let '(x, w') := h _ e w in MkCall e x :: trace h (k x) w'
  end.

Definition is_rand (c : Call) : bool :=
  match c with MkCall RandRead _ => true | _ => false end.

Definition is_exists (c : Call) : bool :=
  match c with MkCall (URL_ExistsByShortCode _) _ => true | _ => false end.

Definition is_insert (c : Call) : bool :=
  match c with MkCall (URL_Create _) _ => true | _ => false end.

Definition is_cache_set (c : Call) : bool :=
  match c with MkCall (Cache_SetURL _ _ _) _ => true | _ => false end.

(** The call is an insert that the store refused with [err]. *)
Definition insert_failed_with (err : error) (c : Call) : Prop :=
  match c with
  | @MkCall X e x =>
      match e in Event T return T -> Prop with
      | URL_Create _ => fun r => r = fail err
      | _ => fun _ => False
      end x
  end.

Definition count (p : Call -> bool) (l : list Call) : nat := length (filter p l).

End effects.

Declare Scope prog_scope.
Delimit Scope prog_scope with prog.
Notation "'let*' x ':=' m 'in' k" := (effects.bind m (fun x => k))
  (at level 10, x name, m at level 100, k at level 200) : prog_scope.
Notation "'let*' ' pat ':=' m 'in' k" :=
  (effects.bind m (fun x => match x with pat => k end))
  (at level 10, pat pattern, m at level 100, k at level 200) : prog_scope.

(** ** Package [models]: the methods that read the clock *)

Module validation.

Import errors models effects.
Local Open Scope prog_scope.

Section Parse.

(** [net/url.Parse] belongs to the Go library; the validators only look at
    whether it fails and at the scheme and host it finds. *)
Variable url_Parse : string -> result ParsedURL.

(** The checks both validators run on a normalised URL. *)
Definition check_url (s : string) : option error :=
  match url_Parse s with
  | fail err => Some (errorString ("invalid URL format: " +:+ Error err))
  | ok parsedURL =>
      if String.eqb (Scheme parsedURL) EmptyString
         || String.eqb (Host parsedURL) EmptyString
      then Some (errorString "URL must have scheme and host")
      else None
  end.

(** [ExpiresAt.Time != nil && ExpiresAt.Time.Before(time.Now())]: the clock is
    read only when an expiry was given. *)
Definition expiry_in_past (expiresAt : option Z) : Prog bool :=
  match expiresAt with
  | None => Ret false
  | Some t => let* now := call TimeNow in Ret (t <? now)
  end.

Definition check_custom_code (code : string) : option error :=
  if negb (String.eqb code EmptyString) then
    if (String.length code <? 3)%nat || (20 <? String.length code)%nat
    then Some (errorString "custom code must be between 3 and 20 characters")
    else if negb (forallb code_char_ok (list_ascii_of_string code))
    then Some (errorString "custom code must contain only alphanumeric characters")
    else None
  else None.

(** [CreateURLRequest.Validate]. The receiver is a pointer: the request comes
    back with its URL normalised, next to the error. *)
Definition CreateURLRequest_Validate (req : CreateURLRequest)
    : Prog (CreateURLRequest * option error) :=
  if String.eqb (Create_URL req) EmptyString
  then Ret (req, Some (errorString "URL is required"))
  else
    let req := mkCreateURLRequest (normalize (Create_URL req))
                 (Create_CustomCode req) (Create_ExpiresAt req) in
    match check_url (Create_URL req) with
    | Some err => Ret (req, Some err)
    | None =>
        match check_custom_code (Create_CustomCode req) with
        | Some err => Ret (req, Some err)
        | None =>
            let* past := expiry_in_past (Create_ExpiresAt req) in
            if past
            then Ret (req, Some (errorString "expiration date cannot be in the past"))
            else Ret (req, None)
        end
    end.

(** [UpdateURLRequest.Validate]. *)
Definition Update_check_expiry (req : UpdateURLRequest)
    : Prog (UpdateURLRequest * option error) :=
  let* past := expiry_in_past (Update_ExpiresAt req) in
  if past
  then Ret (req, Some (errorString "expiration date cannot be in the past"))
  else Ret (req, None).

Definition UpdateURLRequest_Validate (req : UpdateURLRequest)
    : Prog (UpdateURLRequest * option error) :=
  if negb (String.eqb (Update_OriginalURL req) EmptyString)
  then
    let req := mkUpdateURLRequest (normalize (Update_OriginalURL req))
                 (Update_IsActive req) (Update_ExpiresAt req) in
    match check_url (Update_OriginalURL req) with
    | Some err => Ret (req, Some err)
    | None => Update_check_expiry req
    end
  else Update_check_expiry req.

End Parse.

(** [URL.IsExpired]: [time.Now().After( *u.ExpiresAt)] when an expiry is set. *)
Definition IsExpired (u : URL) : Prog bool :=
  match ExpiresAt u with
  | None => Ret false
  | Some t => let* now := call TimeNow in Ret (t <? now)
  end.

End validation.

(** ** A parser for the examples

    [net/url.Parse] restricted to the plain form [scheme://host/path]: the
    scheme is what precedes the first colon, the host what follows [//] up to
    the next slash. The theorems hold for any parser; the examples run with
    this one. *)

Module example.

Import models.

Fixpoint until (stop : ascii) (s : string) : string :=
  match s with
  | EmptyString => EmptyString
  | String c s' => if Ascii.eqb c stop then EmptyString else String c (until stop s')
  end.

Fixpoint after (stop : ascii) (s : string) : option string :=
  match s with
  | EmptyString => None
  | String c s' => if Ascii.eqb c stop then Some s' else after stop s'
  end.

Definition url_Parse (s : string) : result ParsedURL :=
  match after ":" s with
  | Some (String "/" (String "/" rest)) => ok (mkParsedURL (until ":" s) (until "/" rest))
  | Some _ => ok (mkParsedURL (until ":" s) EmptyString)
  | None => ok (mkParsedURL EmptyString EmptyString)
  end.

Definition baseURL : string := "https://sho.rt".

End example.

(** ** Package [services]: [urlService] *)

Module services.

Import errors models effects validation.
Local Open Scope prog_scope.

Definition charset : string :=
  "abcdefghijklmnopqrstuvwxyzABCDEFGHIJKLMNOPQRSTUVWXYZ0123456789".

Definition length : nat := 8.

Definition maxAttempts : nat := 10.

(** [24*time.Hour], in nanoseconds. *)
Definition cacheTTL : Z := 24 * 3600 * 1000000000.

(** [fmt.Sprintf] of [%d]. *)
Definition itoa (n : Z) : string := DecimalString.NilZero.string_of_int (Z.to_int n).

(** [urlService.randomInt]: one byte of the random source, reduced with [%]. *)
Definition randomInt (max : Z) : Prog Z :=
  let* b := call RandRead in
  Ret (Z.rem (Z.of_N (strings.byte_val b)) max).

(** [charset[i]]; the index is below [len(charset)] at every use. *)
Definition charset_at (i : Z) : ascii :=
  match String.get (Z.to_nat i) charset with
  | Some c => c
  | None => Ascii.zero
  end.

(** The loop of [generateShortCode] over the positions still to fill. *)
Fixpoint fill (n : nat) : Prog (list ascii) :=
  match n with
  | O => Ret []
  | S n' =>
      let* i := randomInt (Z.of_nat (String.length charset)) in
      let* rest := fill n' in
      Ret (charset_at i :: rest)
  end.

(** [urlService.generateShortCode]. *)
Definition generateShortCode : Prog string :=
  let* bytes := fill length in
  Ret (string_of_list_ascii bytes).

(** The loop of [generateUniqueShortCode] with [n] attempts left. *)
Fixpoint attempts (n : nat) : Prog (result string) :=
  match n with
  | O =>
      Ret (fail (errorString ("failed to generate unique short code after "
                              +:+ itoa (Z.of_nat maxAttempts) +:+ " attempts")))
  | S n' =>
      let* shortCode := generateShortCode in
      let* r := call (URL_ExistsByShortCode shortCode) in
      match r with
      | fail err => Ret (fail err)
      | ok exists_ => if negb exists_ then Ret (ok shortCode) else attempts n'
      end
  end.

(** [urlService.generateUniqueShortCode]. *)
Definition generateUniqueShortCode : Prog (result string) := attempts maxAttempts.

Section Service.

Variable url_Parse : string -> result ParsedURL.
Variable baseURL : string.

(** The branch of [CreateURL] that settles the short code. *)
Definition allocate (customCode : string) : Prog (result string) :=
  if String.eqb customCode EmptyString then
    let* r := generateUniqueShortCode in
    match r with
    | fail err =>
        Ret (fail (appError (NewInternalError "Failed to generate short code" (Some err))))
    | ok shortCode => Ret (ok shortCode)
    end
  else
    let* r := call (URL_ExistsByShortCode customCode) in
    match r with
    | fail err =>
        Ret (fail (appError
               (NewDatabaseError "Failed to check short code existence" (Some err))))
    | ok exists_ =>
        if exists_
        then Ret (fail (appError
                    (NewAlreadyExistsError "Custom short code already exists" None)))
        else Ret (ok customCode)
    end.

(** What [CreateURL] does once the short code is settled: build the record,
    insert it, warm the cache, answer. *)
Definition persist (req : CreateURLRequest) (userID : Z) (clientIP userAgent : string)
    (shortCode : string) : Prog (result CreateURLResponse) :=
  let* createdAt := call TimeNow in
  let* updatedAt := call TimeNow in
  let url := mkURL 0 shortCode (Create_URL req) userID createdAt updatedAt 0 true
               (Create_ExpiresAt req) userAgent clientIP in
  let* r := call (URL_Create url) in
  match r with
  | fail err => Ret (fail (appError (NewDatabaseError "Failed to create URL" (Some err))))
  | ok createdURL =>
      let* _ := call (Cache_SetURL shortCode (Create_URL req) cacheTTL) in
      Ret (ok (mkCreateURLResponse (ID createdURL) (ShortCode createdURL)
                 (OriginalURL createdURL)
                 (baseURL +:+ "/" +:+ ShortCode createdURL)
                 (IsActive createdURL) (CreatedAt createdURL) (ExpiresAt createdURL)
                 (baseURL +:+ "/api/v1/urls/" +:+ ShortCode createdURL +:+ "/qr")))
  end.

(** [urlService.CreateURL]. *)
Definition CreateURL (req : CreateURLRequest) (userID : Z) (clientIP userAgent : string)
    : Prog (result CreateURLResponse) :=
  let* '(req, verr) := CreateURLRequest_Validate url_Parse req in
  match verr with
  | Some err => Ret (fail (appError (NewValidationError "Invalid request" (Some err))))
  | None =>
      let* ru := call (User_GetByID userID) in
      match ru with
      | fail err => Ret (fail (appError (NewDatabaseError "Failed to get user" (Some err))))
      | ok user =>
          if negb (CanCreateLink user)
          then Ret (fail (appError (NewValidationError
                      ("Link limit exceeded. You can create maximum "
                       +:+ itoa (LinkLimit user) +:+ " links") None)))
          else
            let* rc := allocate (Create_CustomCode req) in
            match rc with
            | fail err => Ret (fail err)
            | ok shortCode => persist req userID clientIP userAgent shortCode
            end
      end
  end.

(** [urlService.GetURL]. *)
Definition GetURL (shortCode : string) : Prog (result URL) :=
  if String.eqb shortCode EmptyString
  then Ret (fail (appError (NewValidationError "Short code is required" None)))
  else
    let* r := call (URL_GetByShortCode shortCode) in
    match r with
    | fail err =>
        if strings.Contains (Error err) "not found"
        then Ret (fail (appError (NewNotFoundError "URL not found" (Some err))))
        else Ret (fail (appError (NewDatabaseError "Failed to get URL" (Some err))))
    | ok url =>
        let* expired := IsExpired url in
        if expired then
          let* _ := call (Cache_DeleteURL shortCode) in
          Ret (fail (appError (NewExpiredError "URL has expired" None)))
        else if negb (IsActive url) then
          let* _ := call (Cache_DeleteURL shortCode) in
          Ret (fail (appError (NewInactiveError "URL is not active" None)))
        else
          let* _ := call (Cache_SetURL shortCode (OriginalURL url) cacheTTL) in
          Ret (ok url)
    end.

(** [urlService.DeleteURL]. *)
Definition DeleteURL (shortCode : string) (userID : Z) : Prog (option error) :=
  if String.eqb shortCode EmptyString
  then Ret (Some (appError (NewValidationError "Short code is required" None)))
  else
    let* r := call (URL_CheckOwnership shortCode userID) in
    match r with
    | fail err =>
        Ret (Some (appError (NewDatabaseError "Failed to check URL ownership" (Some err))))
    | ok owned =>
        if negb owned
        then Ret (Some (appError (NewForbiddenError "URL not found or access denied" None)))
        else
          let* _ := call (Cache_DeleteURL shortCode) in
          let* err := call (URL_DeleteByUser shortCode userID) in
          match err with
          | Some err => Ret (Some (appError (NewDatabaseError "Failed to delete URL" (Some err))))
          | None => Ret None
          end
    end.

(** The field updates of [UpdateURL] on the record read from the store, with
    the [statusChanged] flag they compute. *)
Definition apply_patch (req : UpdateURLRequest) (url : URL) : URL * bool :=
  let originalURL :=
    if negb (String.eqb (Update_OriginalURL req) EmptyString)
    then Update_OriginalURL req else OriginalURL url in
  let '(isActive, changed1) :=
    match Update_IsActive req with
    | Some a => (a, negb (Bool.eqb (IsActive url) a))
    | None => (IsActive url, false)
    end in
  let '(expiresAt, changed2) :=
    match Update_ExpiresAt req with
    | Some t =>
        (Some t,
         match ExpiresAt url with
         | None => true
         | Some t0 => negb (t0 =? t)
         end)
    | None => (ExpiresAt url, false)
    end in
  (mkURL (ID url) (ShortCode url) originalURL (UserID url) (CreatedAt url)
         (UpdatedAt url) (ClickCount url) isActive expiresAt (UserAgent url)
         (IPAddress url),
   changed1 || changed2).

Definition set_UpdatedAt (t : Z) (url : URL) : URL :=
  mkURL (ID url) (ShortCode url) (OriginalURL url) (UserID url) (CreatedAt url)
        t (ClickCount url) (IsActive url) (ExpiresAt url) (UserAgent url)
        (IPAddress url).

(** The cache step that ends [UpdateURL]; [||] evaluates its operands from
    the left and stops at the first true one. *)
Definition refresh_cache (shortCode : string) (statusChanged : bool) (updatedURL : URL)
    : Prog unit :=
  let* clear :=
    (if statusChanged || negb (IsActive updatedURL)
     then Ret true
     else IsExpired updatedURL) in
  if clear
  then let* _ := call (Cache_DeleteURL shortCode) in Ret tt
  else let* _ := call (Cache_SetURL shortCode (OriginalURL updatedURL) cacheTTL) in Ret tt.

(** [urlService.UpdateURL]. *)
Definition UpdateURL (shortCode : string) (req : UpdateURLRequest) (userID : Z)
    : Prog (result URL) :=
  if String.eqb shortCode EmptyString
  then Ret (fail (appError (NewValidationError "Short code is required" None)))
  else
    let* '(req, verr) := UpdateURLRequest_Validate url_Parse req in
    match verr with
    | Some err => Ret (fail (appError (NewValidationError "Invalid request" (Some err))))
    | None =>
        let* r := call (URL_CheckOwnership shortCode userID) in
        match r with
        | fail err =>
            Ret (fail (appError
                   (NewDatabaseError "Failed to check URL ownership" (Some err))))
        | ok owned =>
            if negb owned
            then Ret (fail (appError
                        (NewForbiddenError "URL not found or access denied" None)))
            else
              let* r := call (URL_GetByShortCode shortCode) in
              match r with
              | fail err =>
                  Ret (fail (appError (NewDatabaseError "Failed to get URL" (Some err))))
              | ok url =>
                  let '(url, statusChanged) := apply_patch req url in
                  let* now := call TimeNow in
                  let* r := call (URL_Update (set_UpdatedAt now url)) in
                  match r with
                  | fail err =>
                      Ret (fail (appError
                             (NewDatabaseError "Failed to update URL" (Some err))))
                  | ok updatedURL =>
                      let* _ := refresh_cache shortCode statusChanged updatedURL in
                      Ret (ok updatedURL)
                  end
              end
        end
    end.

End Service.

End services.

(** ** Package [handlers]: what the caller of the REST API receives *)

Module handlers.

Import errors models effects.
Local Open Scope prog_scope.

(** The JSON bodies the handlers write. *)
Inductive Body : Type :=
| JSONError (r : ErrorResponse)
| JSONMessage (key msg : string)
| JSONURL (u : URL).

Definition Response : Type := (Z * Body)%type.

Definition StatusOK : Z := 200.

(** [Handler.handleError]. *)
Definition handleError (err : error) : Response :=
  match GetAppError err with
  | Some appErr => (StatusCode appErr, JSONError (ToErrorResponse appErr))
  | None => (StatusInternalServerError, JSONMessage "error" "Internal server error")
  end.

Section Handlers.

Variable url_Parse : string -> result ParsedURL.
Variable baseURL : string.

(** [Handler.UpdateURL]; [user_id] is the value the authentication middleware
    left in the context, [body] the outcome of [ShouldBindJSON]. *)
Definition UpdateURL (shortCode : string) (user_id : option Z)
    (body : result UpdateURLRequest) : Prog Response :=
  match user_id with
  | None => Ret (StatusUnauthorized, JSONMessage "error" "User not authenticated")
  | Some userID =>
      match body with
      | fail err => Ret (StatusBadRequest, JSONMessage "error" (Error err))
      | ok req =>
          let* r := services.UpdateURL url_Parse shortCode req userID in
          match r with
          | fail err => Ret (handleError err)
          | ok url => Ret (StatusOK, JSONURL url)
          end
      end
  end.

(** [Handler.DeleteURL]. *)
Definition DeleteURL (shortCode : string) (user_id : option Z) : Prog Response :=
  match user_id with
  | None => Ret (StatusUnauthorized, JSONMessage "error" "User not authenticated")
  | Some userID =>
      let* r := services.DeleteURL shortCode userID in
      match r with
      | Some err => Ret (handleError err)
      | None => Ret (StatusOK, JSONMessage "message" "URL deleted successfully")
      end
  end.

End Handlers.

End handlers.

(** ** The collaborators: PostgreSQL tables, Redis keys, clock, random source

    [urlRepository], [userRepository] and [cacheRepository] run one SQL
    statement or one Redis command per method. The world below holds what
    those statements read and write; a session of its own, with no other
    client in between. Column types other than the uniqueness of
    [short_code] are not modelled. *)

Module store.

Import errors models effects.

(** A row of table [urls] without its key column [short_code]. *)
Record Row : Type := mkRow
  { id : Z;
    original_url : string;
    user_id : Z;
    created_at : Z;
    updated_at : Z;
    click_count : Z;
    is_active : bool;
    expires_at : option Z;
    user_agent : string;
    ip_address : string }.

(** [Scan] of a selected row into a [models.URL]. *)
Definition scan (short_code : string) (r : Row) : URL :=
  mkURL (id r) short_code (original_url r) (user_id r) (created_at r) (updated_at r)
        (click_count r) (is_active r) (expires_at r) (user_agent r) (ip_address r).

Record World : Type := mkWorld
  { urls : gmap string Row;          (* table urls, by its unique short_code *)
    urls_id_seq : Z;                 (* the SERIAL sequence of urls.id *)
    users : gmap Z User;             (* table users, by id *)
    redis : gmap string (string * Z);(* Redis: key to value and time to live *)
    now : Z;                         (* the next reading of the clock *)
    ticks : list N;                  (* by how much later readings advance *)
    entropy : list ascii }.          (* the bytes the random source yields *)

Definition set_urls (m : gmap string Row) (w : World) : World :=
  mkWorld m (urls_id_seq w) (users w) (redis w) (now w) (ticks w) (entropy w).

Definition set_urls_id_seq (n : Z) (w : World) : World :=
  mkWorld (urls w) n (users w) (redis w) (now w) (ticks w) (entropy w).

Definition set_redis (m : gmap string (string * Z)) (w : World) : World :=
  mkWorld (urls w) (urls_id_seq w) (users w) m (now w) (ticks w) (entropy w).

Definition set_entropy (l : list ascii) (w : World) : World :=
  mkWorld (urls w) (urls_id_seq w) (users w) (redis w) (now w) (ticks w) l.

(** [time.Now()]: the clock never runs backwards. *)
Definition read_clock (w : World) : Z * World :=
  (now w,
   match ticks w with
   | [] => w
   | d :: ds =>
       mkWorld (urls w) (urls_id_seq w) (users w) (redis w) (now w + Z.of_N d) ds
               (entropy w)
   end).

(** [rand.Read] into a one-byte slice; the slice keeps its zero when no byte
    comes. *)
Definition read_random (w : World) : ascii * World :=
  match entropy w with
  | [] => (Ascii.zero, w)
  | b :: bs => (b, set_entropy bs w)
  end.

(** [userRepository.GetByID]. *)
Definition user_GetByID (i : Z) (w : World) : result User * World :=
  (match users w !! i with
   | Some u => ok u
   | None => fail (errorString "user not found")
   end, w).

(** [urlRepository.Create]: [INSERT ... RETURNING id, created_at, updated_at];
    [click_count] takes its default. *)
Definition url_Create (u : URL) (w : World) : result URL * World :=
  match urls w !! ShortCode u with
  | Some _ =>
      (fail (errorString
         "failed to create URL: pq: duplicate key value violates unique constraint urls_short_code_key"),
       w)
  | None =>
      let i := urls_id_seq w in
      let r := mkRow i (OriginalURL u) (UserID u) (CreatedAt u) (UpdatedAt u) 0
                 (IsActive u) (ExpiresAt u) (UserAgent u) (IPAddress u) in
      (ok (mkURL i (ShortCode u) (OriginalURL u) (UserID u) (CreatedAt u) (UpdatedAt u)
             (ClickCount u) (IsActive u) (ExpiresAt u) (UserAgent u) (IPAddress u)),
       set_urls_id_seq (i + 1) (set_urls (<[ShortCode u := r]> (urls w)) w))
  end.

(** [urlRepository.GetByShortCode]. *)
Definition url_GetByShortCode (shortCode : string) (w : World) : result URL * World :=
  (match urls w !! shortCode with
   | Some r => ok (scan shortCode r)
   | None => fail (errorString "URL not found")
   end, w).

(** [urlRepository.Update]: [UPDATE urls SET original_url, is_active,
    expires_at, updated_at WHERE short_code = $1 RETURNING id, created_at,
    updated_at], with [time.Now()] for [updated_at]. *)
Definition url_Update (u : URL) (w : World) : result URL * World :=
  let '(t, w) := read_clock w in
  match urls w !! ShortCode u with
  | None => (fail (errorString "failed to update URL: sql: no rows in result set"), w)
  | Some r =>
      let r' := mkRow (id r) (OriginalURL u) (user_id r) (created_at r) t
                  (click_count r) (IsActive u) (ExpiresAt u) (user_agent r)
                  (ip_address r) in
      (ok (mkURL (id r) (ShortCode u) (OriginalURL u) (UserID u) (created_at r) t
             (ClickCount u) (IsActive u) (ExpiresAt u) (UserAgent u) (IPAddress u)),
       set_urls (<[ShortCode u := r']> (urls w)) w)
  end.

(** The rows [WHERE short_code = $1 AND user_id = $2] selects. *)
Definition owned_row (shortCode : string) (userID : Z) (w : World) : bool :=
  match urls w !! shortCode with
  | Some r => user_id r =? userID
  | None => false
  end.

(** [urlRepository.DeleteByUser]. *)
Definition url_DeleteByUser (shortCode : string) (userID : Z) (w : World)
    : option error * World :=
  if owned_row shortCode userID w
  then (None, set_urls (delete shortCode (urls w)) w)
  else (Some (errorString "URL not found or not owned by user"), w).

(** [urlRepository.ExistsByShortCode]. *)
Definition url_ExistsByShortCode (shortCode : string) (w : World) : result bool * World :=
  (ok (bool_decide (is_Some (urls w !! shortCode))), w).

(** [urlRepository.CheckOwnership]: [COUNT] is above zero. *)
Definition url_CheckOwnership (shortCode : string) (userID : Z) (w : World)
    : result bool * World :=
  (ok (owned_row shortCode userID w), w).

(** [cacheRepository]: the key of a short code's entry. *)
Definition url_key (shortCode : string) : string := "url:" +:+ shortCode.

(** [cacheRepository.SetURL]: Redis [SET key value EX ttl]. *)
Definition cache_SetURL (shortCode originalURL : string) (expiration : Z) (w : World)
    : option error * World :=
  (None, set_redis (<[url_key shortCode := (originalURL, expiration)]> (redis w)) w).

(** [cacheRepository.DeleteURL]: Redis [DEL key]. *)
Definition cache_DeleteURL (shortCode : string) (w : World) : option error * World :=
  (None, set_redis (delete (url_key shortCode) (redis w)) w).

(** [cacheRepository.GetURL]: the value under the key, if any. *)
Definition cache_GetURL (shortCode : string) (w : World) : option string :=
  fst <$> redis w !! url_key shortCode.

(** The implementations wired to the service in [main]. *)
Definition db : handler World :=
  fun X e =>
    match e in Event T return World -> T * World with
    | TimeNow => read_clock
    | RandRead => read_random
    | User_GetByID i => user_GetByID i
    | URL_Create u => url_Create u
    | URL_GetByShortCode c => url_GetByShortCode c
    | URL_Update u => url_Update u
    | URL_DeleteByUser c i => url_DeleteByUser c i
    | URL_ExistsByShortCode c => url_ExistsByShortCode c
    | URL_CheckOwnership c i => url_CheckOwnership c i
    | Cache_SetURL c o t => cache_SetURL c o t
    | Cache_DeleteURL c => cache_DeleteURL c
    end.

End store.

(** ** Worlds and requests for the examples *)

Module scenario.

Import errors models effects store.

Definition code : string := "abc12345".

(** A link of user 1 to [https://example.com]. *)
Definition link (active : bool) (expires : option Z) : Row :=
  mkRow 7 "https://example.com" 1 1000 1000 3 active expires "curl/8.0" "192.0.2.1".

(** User 1 has room for more links, user 2 is at the limit. *)
Definition alice : User := mkUser 1 "alice@example.com" true 1 100.
Definition bob : User := mkUser 2 "bob@example.com" true 100 100.

(** One stored link with a warm cache entry, the clock at [t]. *)
Definition world (r : Row) (t : Z) : World :=
  mkWorld {[code := r]} 8 (<[1 := alice]> {[2 := bob]})
          {[url_key code := ("https://example.com", services.cacheTTL)]}
          t [1; 2; 3]%N
          ["000"; "062"; "124"; "186"; "248"; "008"; "070"; "132"]%char.

Definition deactivate : UpdateURLRequest :=
  mkUpdateURLRequest EmptyString (Some false) None.

Definition retarget : UpdateURLRequest :=
  mkUpdateURLRequest "example.org" None None.

(** A create request with a random code, and one that asks for a code. *)
Definition shorten : CreateURLRequest :=
  mkCreateURLRequest "example.com" EmptyString None.

Definition shorten_as : CreateURLRequest :=
  mkCreateURLRequest "example.com" "my-link" None.

(** A record store that reports every short code as taken: the test double
    for the bound on generation attempts. *)
Definition saturated : handler World :=
  fun X e =>
    match e in Event T return World -> T * World with
    | URL_ExistsByShortCode _ => fun w => (ok true, w)
    | e' => db _ e'
    end.

(** The race between the existence check and the insert: right after every
    existence check another session commits a row with the code checked. *)
Definition rival (shortCode : string) : URL :=
  mkURL 0 shortCode "https://rival.example" 2 0 0 0 true None EmptyString EmptyString.

Definition racing : handler World :=
  fun X e =>
    match e in Event T return World -> T * World with
    | URL_ExistsByShortCode c =>
        fun w =>
          let '(r, w1) := url_ExistsByShortCode c w in
          (r, snd (url_Create (rival c) w1))
    | e' => db _ e'
    end.

End scenario.

(** ** Worlds that differ in the clock only *)

Module frames.

Import store.

(** Nothing but the clock moved between [w] and [w'], and it did not run
    backwards. *)
Definition clock_only (w w' : World) : Prop :=
  urls w' = urls w /\ urls_id_seq w' = urls_id_seq w /\ users w' = users w
  /\ redis w' = redis w /\ entropy w' = entropy w /\ now w <= now w'.

(** Nothing but the supply of random bytes moved. *)
Definition entropy_only (w w' : World) : Prop :=
  urls w' = urls w /\ urls_id_seq w' = urls_id_seq w /\ users w' = users w
  /\ redis w' = redis w /\ now w' = now w /\ ticks w' = ticks w.

End frames.

(** ** Click recording, listing, statistics and the public redirect

    The rest of [urlService] and of the handlers calls three more methods of
    the repositories than the four operations above. The events below add
    them to the ones already there; a program of the first kind runs
    unchanged among them ([lift]). *)

Module clicks.

Import strings errors models effects validation.

(** [ClickEvent]: one row of table [click_events]. *)
Record ClickEvent : Type := mkClickEvent
  { Click_ID : Z;
    URLId : Z;
    Click_IPAddress : string;
    Click_UserAgent : string;
    Referer : string;
    Country : string;
    City : string;
    ClickedAt : Z }.

Record CountryStats : Type := mkCountryStats { Stats_Country : string; Country_Clicks : Z }.

Record ReferrerStats : Type := mkReferrerStats { Stats_Referrer : string; Referrer_Clicks : Z }.

(** [URLAnalytics]. *)
Record URLAnalytics : Type := mkURLAnalytics
  { TotalClicks : Z;
    UniqueClicks : Z;
    ClicksToday : Z;
    ClicksThisWeek : Z;
    TopCountries : list CountryStats;
    TopReferrers : list ReferrerStats }.

(** [URLStatsResponse]; its two maps are never set by the service and are
    left out. *)
Record URLStatsResponse : Type := mkURLStatsResponse
  { Stats_URL : URL;
    Stats_TotalClicks : Z;
    Stats_RecentClicks : list ClickEvent;
    Stats_Analytics : URLAnalytics }.

Inductive Event2 : Type -> Type :=
| Core {X : Type} (e : Event X) : Event2 X
| URL_CreateClickEvent (clickEvent : ClickEvent) : Event2 (option error)
| URL_IncrementClickCount (shortCode : string) : Event2 (option error)
| Cache_IncrementClickCount (shortCode : string) : Event2 (option error)
| URL_GetAllByUser (userID limit offset : Z) : Event2 (result (list URL * Z))
| URL_GetAnalyticsByUser (urlID userID days : Z) : Event2 (result URLAnalytics)
| URL_GetClickEvents (urlID limit : Z) : Event2 (result (list ClickEvent)).

Inductive Prog2 (A : Type) : Type :=
| Ret2 (a : A)
| Vis2 {X : Type} (e : Event2 X) (k : X -> Prog2 A).

Arguments Ret2 {A} a.
Arguments Vis2 {A X} e k.

Fixpoint bind2 {A B : Type} (m : Prog2 A) (f : A -> Prog2 B) : Prog2 B :=
  match m with
  | Ret2 a => f a
  | Vis2 e k => Vis2 e (fun x => bind2 (k x) f)
  end.

Definition call2 {X : Type} (e : Event2 X) : Prog2 X := Vis2 e Ret2.

(** A program over the first events, among the second. *)
Fixpoint lift {A : Type} (m : Prog A) : Prog2 A :=
  match m with
  | Ret a => Ret2 a
  | Vis e k => Vis2 (Core e) (fun x => lift (k x))
  end.

Definition handler2 (W : Type) : Type := forall X : Type, Event2 X -> W -> X * W.

Fixpoint run2 {W A : Type} (h : handler2 W) (m : Prog2 A) (w : W) : A * W :=
  match m with
  | Ret2 a => (a, w)
  | Vis2 e k => let '(x, w') := h _ e w in run2 h (k x) w'
  end.

Inductive Call2 : Type :=
| MkCall2 {X : Type} (e : Event2 X) (x : X).

Fixpoint trace2 {W A : Type} (h : handler2 W) (m : Prog2 A) (w : W) : list Call2 :=
  match m with
  | Ret2 _ => []
  | Vis2 e k => let '(x, w') := h _ e w in MkCall2 e x :: trace2 h (k x) w'
  end.

(** The first events as a handler of the second answers them. *)
Definition core_handler {W : Type} (h : handler2 W) : handler W :=
  fun X e => h X (Core e).

End clicks.

Declare Scope prog2_scope.
Delimit Scope prog2_scope with prog2.
Notation "'let+' x ':=' m 'in' k" := (clicks.bind2 m (fun x => k))
  (at level 10, x name, m at level 100, k at level 200) : prog2_scope.

Module click_service.

Import strings errors models effects validation clicks.
Local Open Scope prog2_scope.

(** [urlService.RecordClick]. *)
Definition RecordClick (shortCode clientIP userAgent referer : string)
    : Prog2 (option error) :=
  let+ r := lift (services.GetURL shortCode) in
  match r with
  | fail err => Ret2 (Some err)
  | ok url =>
      let+ now := call2 (Core TimeNow) in
      let clickEvent :=
        mkClickEvent 0 (ID url) clientIP userAgent referer EmptyString EmptyString now in
      let+ err := call2 (URL_CreateClickEvent clickEvent) in
      match err with
      | Some err =>
          Ret2 (Some (appError (NewDatabaseError "Failed to record click" (Some err))))
      | None =>
          let+ err := call2 (URL_IncrementClickCount shortCode) in
          match err with
          | Some err =>
              Ret2 (Some (appError
                      (NewDatabaseError "Failed to increment click count" (Some err))))
          | None =>
              let+ _ := call2 (Cache_IncrementClickCount shortCode) in
              Ret2 None
          end
      end
  end.

(** [urlService.GetAllURLs]. *)
Definition GetAllURLs (userID limit offset : Z) : Prog2 (result (list URL * Z)) :=
  let limit := if limit <=? 0 then 10 else limit in
  let offset := if offset <? 0 then 0 else offset in
  let+ r := call2 (URL_GetAllByUser userID limit offset) in
  match r with
  | fail err => Ret2 (fail (appError (NewDatabaseError "Failed to get URLs" (Some err))))
  | ok page => Ret2 (ok page)
  end.

(** [urlService.GetAnalytics]. *)
Definition GetAnalytics (shortCode : string) (userID days : Z)
    : Prog2 (result URLAnalytics) :=
  let+ r := call2 (Core (URL_CheckOwnership shortCode userID)) in
  match r with
  | fail err =>
      Ret2 (fail (appError (NewDatabaseError "Failed to check URL ownership" (Some err))))
  | ok owned =>
      if negb owned
      then Ret2 (fail (appError (NewForbiddenError "URL not found or access denied" None)))
      else
        let+ r := lift (services.GetURL shortCode) in
        match r with
        | fail err => Ret2 (fail err)
        | ok url =>
            let+ r := call2 (URL_GetAnalyticsByUser (ID url) userID days) in
            match r with
            | fail err =>
                Ret2 (fail (appError (NewDatabaseError "Failed to get analytics" (Some err))))
            | ok analytics => Ret2 (ok analytics)
            end
        end
  end.

(** [urlService.GetURLStats]. *)
Definition GetURLStats (shortCode : string) (userID : Z) : Prog2 (result URLStatsResponse) :=
  let+ r := call2 (Core (URL_CheckOwnership shortCode userID)) in
  match r with
  | fail err =>
      Ret2 (fail (appError (NewDatabaseError "Failed to check URL ownership" (Some err))))
  | ok owned =>
      if negb owned
      then Ret2 (fail (appError (NewForbiddenError "URL not found or access denied" None)))
      else
        let+ r := lift (services.GetURL shortCode) in
        match r with
        | fail err => Ret2 (fail err)
        | ok url =>
            let+ r := GetAnalytics shortCode userID 30 in
            match r with
            | fail err => Ret2 (fail err)
            | ok analytics =>
                let+ r := call2 (URL_GetClickEvents (ID url) 10) in
                match r with
                | fail err =>
                    Ret2 (fail (appError
                            (NewDatabaseError "Failed to get recent clicks" (Some err))))
                | ok recentClicks =>
                    Ret2 (ok (mkURLStatsResponse url (TotalClicks analytics) recentClicks
                                analytics))
                end
            end
        end
  end.

End click_service.

(** ** The public redirect and its error pages *)

Module pages.

Import strings errors models effects validation clicks.
Local Open Scope prog2_scope.

(** [strings.TrimPrefix]. *)
Fixpoint drop_bytes (n : nat) (s : string) : string :=
  match n, s with
  | S n', String _ s' => drop_bytes n' s'
  | _, _ => s
  end.

Definition TrimPrefix (s p : string) : string :=
  if HasPrefix s p then drop_bytes (String.length p) s else s.

(** What a handler writes: a JSON body with its status, or a redirect. *)
Inductive Reply : Type :=
| JSON (r : handlers.Response)
| Redirect (status : Z) (location : string).

Definition StatusMovedPermanently : Z := 301.
Definition StatusFound : Z := 302.

Section Pages.

Variable frontendURL : string.

(** [Handler.ErrorPageHandler]; [path] is [c.Request.URL.Path]. *)
Definition ErrorPageHandler (path : string) (err : error) : Reply :=
  let isShortURL := negb (HasPrefix path "/api/") && negb (HasPrefix path "/health") in
  if negb isShortURL then JSON (handlers.handleError err)
  else
    let shortCode := TrimPrefix path "/" in
    match GetAppError err with
    | Some appErr =>
        match Code appErr with
        | ErrCodeInactive =>
            Redirect StatusFound (frontendURL +:+ "/error/inactive?code=" +:+ shortCode)
        | ErrCodeExpired =>
            Redirect StatusFound (frontendURL +:+ "/error/expired?code=" +:+ shortCode)
        | ErrCodeNotFound =>
            Redirect StatusFound (frontendURL +:+ "/error/not-found?code=" +:+ shortCode)
        | _ =>
            Redirect StatusFound (frontendURL +:+ "/error/server-error?code=" +:+ shortCode)
        end
    | None =>
        Redirect StatusFound (frontendURL +:+ "/error/server-error?code=" +:+ shortCode)
    end.

(** [Handler.RedirectURL]; [shortCode] is the route parameter, the other
    strings come from the request. *)
Definition RedirectURL (shortCode path clientIP userAgent referer : string) : Prog2 Reply :=
  let+ r := lift (services.GetURL shortCode) in
  match r with
  | fail err => Ret2 (ErrorPageHandler path err)
  | ok url =>
      let+ _ := click_service.RecordClick shortCode clientIP userAgent referer in
      Ret2 (Redirect StatusMovedPermanently (OriginalURL url))
  end.

End Pages.

End pages.

(** ** The collaborators behind the further events

    Table [click_events] (its [url_id] references [urls(id)] and is deleted
    with it), the Redis counters under [clicks:], and the database's notion of
    the current date, next to the world of the first events. *)

Module store2.

Import strings errors models effects validation clicks store.

Record World2 : Type := mkWorld2
  { core : World;
    click_events : list ClickEvent;   (* table click_events, oldest first *)
    click_events_id_seq : Z;          (* the SERIAL sequence of click_events.id *)
    counters : gmap string Z;         (* Redis keys that hold integers *)
    current_date : Z }.               (* CURRENT_DATE: the instant today began *)

Definition set_core (c : World) (w : World2) : World2 :=
  mkWorld2 c (click_events w) (click_events_id_seq w) (counters w) (current_date w).

(** [INTEGER] of PostgreSQL and the counters of Redis are bounded. *)
Definition max_int32 : Z := 2147483647.
Definition max_int64 : Z := 9223372036854775807.

(** Some row of [urls] has this id. *)
Definition id_stored (i : Z) (c : World) : bool :=
  existsb (fun kr : string * Row => id (snd kr) =? i) (map_to_list (urls c)).

(** Some row of [urls] has this id and this owner. *)
Definition id_owned (i userID : Z) (c : World) : bool :=
  existsb (fun kr : string * Row => (id (snd kr) =? i) && (user_id (snd kr) =? userID))
          (map_to_list (urls c)).

(** [ON DELETE CASCADE]: the click events of rows that are gone go with them. *)
Definition cascade (c : World) (l : list ClickEvent) : list ClickEvent :=
  List.filter (fun ce => id_stored (URLId ce) c) l.

(** [urlRepository.CreateClickEvent]. *)
Definition url_CreateClickEvent (ce : ClickEvent) (w : World2) : option error * World2 :=
  if id_stored (URLId ce) (core w)
  then
    (None,
     mkWorld2 (core w)
       (click_events w ++
        [mkClickEvent (click_events_id_seq w) (URLId ce) (Click_IPAddress ce)
           (Click_UserAgent ce) (Referer ce) (Country ce) (City ce) (ClickedAt ce)])
       (click_events_id_seq w + 1) (counters w) (current_date w))
  else
    (Some (errorString
       "failed to create click event: pq: insert or update on table click_events violates foreign key constraint click_events_url_id_fkey"),
     w).

(** A row after [SET click_count = click_count + 1]; the trigger
    [update_urls_updated_at] of the schema sets [updated_at] on every update
    of [urls]. *)
Definition bump (t : Z) (r : Row) : Row :=
  mkRow (id r) (original_url r) (user_id r) (created_at r) t
        (click_count r + 1) (is_active r) (expires_at r) (user_agent r) (ip_address r).

(** [urlRepository.IncrementClickCount]: [UPDATE urls SET click_count =
    click_count + 1 WHERE short_code = $1]; no row is no error. *)
Definition url_IncrementClickCount (shortCode : string) (w : World2)
    : option error * World2 :=
  match urls (core w) !! shortCode with
  | None => (None, w)
  | Some r =>
      if click_count r =? max_int32
      then (Some (errorString
              "failed to increment click count: pq: integer out of range"), w)
      else
        (None,
         set_core (set_urls (<[shortCode := bump (now (core w)) r]> (urls (core w)))
                     (core w)) w)
  end.

Definition clicks_key (shortCode : string) : string := "clicks:" +:+ shortCode.

(** [cacheRepository.IncrementClickCount]: Redis [INCR clicks:code]. *)
Definition cache_IncrementClickCount (shortCode : string) (w : World2)
    : option error * World2 :=
  let v := default 0 (counters w !! clicks_key shortCode) in
  if v =? max_int64
  then (Some (errorString "ERR increment or decrement would overflow"), w)
  else (None,
        mkWorld2 (core w) (click_events w) (click_events_id_seq w)
          (<[clicks_key shortCode := v + 1]> (counters w)) (current_date w)).

(** The rows of one owner, newest first; rows created at the same instant
    come in an order of the store's choosing. *)
Definition newer {A : Type} (at_ : A -> Z) (a b : A) : Prop := at_ b <= at_ a.

#[global] Instance newer_dec {A : Type} (at_ : A -> Z) (a b : A)
    : Decision (newer at_ a b) := Z_le_dec (at_ b) (at_ a).

Definition rows_of (userID : Z) (c : World) : list URL :=
  merge_sort (newer CreatedAt)
    (map (fun kr : string * Row => scan (fst kr) (snd kr))
       (List.filter (fun kr : string * Row => user_id (snd kr) =? userID)
          (map_to_list (urls c)))).

(** [urlRepository.GetAllByUser]: the count of the owner's rows, and one page
    of them. *)
Definition url_GetAllByUser (userID limit offset : Z) (w : World2)
    : result (list URL * Z) * World2 :=
  if limit <? 0
  then (fail (errorString "failed to get URLs: pq: LIMIT must not be negative"), w)
  else if offset <? 0
  then (fail (errorString "failed to get URLs: pq: OFFSET must not be negative"), w)
  else
    let rows := rows_of userID (core w) in
    (ok (take (Z.to_nat limit) (drop (Z.to_nat offset) rows), Z.of_nat (List.length rows)),
     w).

Definition clicks_of (urlID : Z) (w : World2) : list ClickEvent :=
  List.filter (fun ce => URLId ce =? urlID) (click_events w).

Definition week : Z := 7 * 24 * 3600 * 1000000000.

(** [urlRepository.GetAnalytics]: four counts over the clicks of a link;
    [days] is not used. *)
Definition url_GetAnalytics (urlID days : Z) (w : World2) : URLAnalytics :=
  let l := clicks_of urlID w in
  mkURLAnalytics
    (Z.of_nat (List.length l))
    (Z.of_nat (List.length (remove_dups (map Click_IPAddress l))))
    (Z.of_nat (List.length (List.filter (fun ce => current_date w <=? ClickedAt ce) l)))
    (Z.of_nat (List.length
       (List.filter (fun ce => current_date w - week <=? ClickedAt ce) l)))
    [] [].

(** [urlRepository.GetAnalyticsByUser]. *)
Definition url_GetAnalyticsByUser (urlID userID days : Z) (w : World2)
    : result URLAnalytics * World2 :=
  if id_owned urlID userID (core w)
  then (ok (url_GetAnalytics urlID days w), w)
  else (fail (errorString "URL not found or not owned by user"), w).

(** [urlRepository.GetClickEvents]: the latest clicks of a link. *)
Definition url_GetClickEvents (urlID limit : Z) (w : World2)
    : result (list ClickEvent) * World2 :=
  if limit <? 0
  then (fail (errorString "failed to get click events: pq: LIMIT must not be negative"), w)
  else
    (ok (take (Z.to_nat limit)
           (merge_sort (newer ClickedAt)
              (clicks_of urlID w))),
     w).

(** A first event acts on the core; a delete takes the click events of the
    deleted row with it. *)
Definition on_core {X : Type} (e : Event X) (w : World2) : X * World2 :=
  let '(x, c) := db X e (core w) in
  (x,
   mkWorld2 c
     match e with
     | URL_DeleteByUser _ _ => cascade c (click_events w)
     | _ => click_events w
     end
     (click_events_id_seq w) (counters w) (current_date w)).

Definition db2 : handler2 World2 :=
  fun X e =>
    match e in Event2 T return World2 -> T * World2 with
    | Core e => on_core e
    | URL_CreateClickEvent ce => url_CreateClickEvent ce
    | URL_IncrementClickCount c => url_IncrementClickCount c
    | Cache_IncrementClickCount c => cache_IncrementClickCount c
    | URL_GetAllByUser u l o => url_GetAllByUser u l o
    | URL_GetAnalyticsByUser i u d => url_GetAnalyticsByUser i u d
    | URL_GetClickEvents i l => url_GetClickEvents i l
    end.

(** Every click event refers to a stored row: what the foreign key keeps. *)
Definition clicks_refer (w : World2) : Prop :=
  Forall (fun ce => id_stored (URLId ce) (core w) = true) (click_events w).

End store2.

Module scenario2.

Import clicks store store2.

(** The world of the first examples with two clicks on its link. *)
Definition world2 (r : Row) (t : Z) : World2 :=
  mkWorld2 (scenario.world r t)
    [mkClickEvent 1 7 "198.51.100.4" "curl/8.0" EmptyString EmptyString EmptyString 1200;
     mkClickEvent 2 7 "198.51.100.5" "curl/8.0" EmptyString EmptyString EmptyString 1300]
    3 {[clicks_key scenario.code := 2]} 0.

End scenario2.

(** ** The checks of the stored record *)

Module record.

Import strings errors models.

Section Parse.

Variable url_Parse : string -> result ParsedURL.

(** [URL.IsValidURL]. *)
Definition IsValidURL (u : URL) : bool :=
  match url_Parse (OriginalURL u) with
  | fail _ => false
  | ok parsedURL =>
      negb (String.eqb (Scheme parsedURL) EmptyString)
      && negb (String.eqb (Host parsedURL) EmptyString)
  end.

(** [URL.Validate]. *)
Definition URL_Validate (u : URL) : option error :=
  if String.eqb (ShortCode u) EmptyString
  then Some (errorString "short code is required")
  else if String.eqb (OriginalURL u) EmptyString
  then Some (errorString "original URL is required")
  else if negb (IsValidURL u)
  then Some (errorString "invalid URL format")
  else None.

End Parse.

End record.

(** * Properties *)

(** ** White space trimming and URL normalisation *)

Module strings_facts.

Import strings.

Section TrimFacts.

Variable p1 : ascii -> bool.
Variable p2 : ascii -> ascii -> bool.
Variable p3 : ascii -> ascii -> ascii -> bool.

Lemma trim_fix (l : list ascii) : starts p1 p2 p3 l = false -> trim p1 p2 p3 l = l.
Proof.
  destruct l as [|c1 [|c2 [|c3 l3]]]; simpl; try reflexivity.
  - rewrite orb_false_r. intros ->. reflexivity.
  - rewrite orb_false_r. intros [-> ->]%orb_false_elim. reflexivity.
  - intros [-> [-> ->]%orb_false_elim]%orb_false_elim. reflexivity.
Qed.

(** Induction along the recursion of [trim]. *)
Lemma trim_cases (Q : list ascii -> list ascii -> Prop) :
  (forall l, starts p1 p2 p3 l = false -> Q l l) ->
  (forall c1 l1, p1 c1 = true -> Q l1 (trim p1 p2 p3 l1) ->
     Q (c1 :: l1) (trim p1 p2 p3 l1)) ->
  (forall c1 c2 l2, p1 c1 = false -> p2 c1 c2 = true -> Q l2 (trim p1 p2 p3 l2) ->
     Q (c1 :: c2 :: l2) (trim p1 p2 p3 l2)) ->
  (forall c1 c2 c3 l3, p1 c1 = false -> p2 c1 c2 = false -> p3 c1 c2 c3 = true ->
     Q l3 (trim p1 p2 p3 l3) -> Q (c1 :: c2 :: c3 :: l3) (trim p1 p2 p3 l3)) ->
  forall l, Q l (trim p1 p2 p3 l).
Proof.
  intros Hstop H1 H2 H3 l.
  remember (List.length l) as n eqn:Hn.
  revert l Hn. induction n as [n IH] using lt_wf_ind. intros l Hn.
  destruct l as [|c1 l1]; [apply Hstop; reflexivity|].
  destruct (p1 c1) eqn:E1.
  { simpl. rewrite E1. apply H1; [assumption|].
    apply (IH (List.length l1)); [simpl in Hn; lia | reflexivity]. }
  destruct l1 as [|c2 l2].
  { simpl. rewrite E1. apply Hstop. simpl. rewrite E1. reflexivity. }
  destruct (p2 c1 c2) eqn:E2.
  { simpl. rewrite E1, E2. apply H2; [assumption..|].
    apply (IH (List.length l2)); [simpl in Hn; lia | reflexivity]. }
  destruct l2 as [|c3 l3].
  { simpl. rewrite E1, E2. apply Hstop. simpl. rewrite E1, E2. reflexivity. }
  destruct (p3 c1 c2 c3) eqn:E3.
  { simpl. rewrite E1, E2, E3. apply H3; [assumption..|].
    apply (IH (List.length l3)); [simpl in Hn; lia | reflexivity]. }
  simpl. rewrite E1, E2, E3. apply Hstop. simpl. rewrite E1, E2, E3. reflexivity.
Qed.

Lemma starts_trim (l : list ascii) : starts p1 p2 p3 (trim p1 p2 p3 l) = false.
Proof. apply (trim_cases (fun _ r => starts p1 p2 p3 r = false)); auto. Qed.

Lemma trim_idempotent (l : list ascii) :
  trim p1 p2 p3 (trim p1 p2 p3 l) = trim p1 p2 p3 l.
Proof. apply trim_fix, starts_trim. Qed.

Lemma trim_drop (l : list ascii) : exists k : nat, trim p1 p2 p3 l = drop k l.
Proof.
  apply (trim_cases (fun l r => exists k : nat, r = drop k l)).
  - intros l0 _. exists 0%nat. reflexivity.
  - intros c1 l1 _ [k ->]. exists (S k). reflexivity.
  - intros c1 c2 l2 _ _ [k ->]. exists (S (S k)). reflexivity.
  - intros c1 c2 c3 l3 _ _ _ [k ->]. exists (S (S (S k))). reflexivity.
Qed.

Lemma starts_take (n : nat) (l : list ascii) :
  starts p1 p2 p3 l = false -> starts p1 p2 p3 (take n l) = false.
Proof.
  destruct l as [|c1 [|c2 [|c3 l3]]], n as [|[|[|n]]]; simpl; try reflexivity;
    destruct (p1 c1); simpl; try discriminate; try reflexivity;
    destruct (p2 c1 c2); simpl; try discriminate; try reflexivity;
    destruct (p3 c1 c2 c3); simpl; try discriminate; reflexivity.
Qed.

End TrimFacts.

Lemma trimRight_take (l : list ascii) : exists n : nat, trimRight l = take n l.
Proof.
  unfold trimRight, trimRightRev.
  destruct (trim_drop asciiSpace (fun c1 c2 => space2 c2 c1)
              (fun c1 c2 c3 => space3 c3 c2 c1) (rev l)) as [k ->].
  exists (List.length l - k)%nat.
  rewrite skipn_rev, rev_involutive. reflexivity.
Qed.

(** What [TrimSpace] returns has no white space left at either end. *)
Lemma trimmed_left (l : list ascii) :
  trimLeft (trimRight (trimLeft l)) = trimRight (trimLeft l).
Proof.
  destruct (trimRight_take (trimLeft l)) as [n ->].
  apply trim_fix, starts_take, starts_trim.
Qed.

Lemma trimmed_right (l : list ascii) :
  trimRightRev (rev (trimRight l)) = rev (trimRight l).
Proof. unfold trimRight. rewrite rev_involutive. apply trim_idempotent. Qed.

Lemma trimRight_fix (l : list ascii) : trimRightRev (rev l) = rev l -> trimRight l = l.
Proof. unfold trimRight. intros ->. apply rev_involutive. Qed.

Lemma TrimSpace_idempotent (s : string) : TrimSpace (TrimSpace s) = TrimSpace s.
Proof.
  unfold TrimSpace. rewrite list_ascii_of_string_of_list_ascii.
  rewrite trimmed_left. f_equal. apply trimRight_fix, trimmed_right.
Qed.

(** A byte below 0x80 begins no encoding of two or three bytes. *)
Lemma space2_ascii (c1 c2 : ascii) : (byte_val c1 < 128)%N -> space2 c1 c2 = false.
Proof.
  intros H. unfold space2. cbv zeta.
  destruct (N.eqb_spec (byte_val c1) 0xC2) as [E|_]; [lia | reflexivity].
Qed.

Lemma space3_ascii (c1 c2 c3 : ascii) : (byte_val c1 < 128)%N -> space3 c1 c2 c3 = false.
Proof.
  intros H. unfold space3. cbv zeta.
  destruct (N.eqb_spec (byte_val c1) 0xE1) as [E|_]; [lia|].
  destruct (N.eqb_spec (byte_val c1) 0xE2) as [E|_]; [lia|].
  destruct (N.eqb_spec (byte_val c1) 0xE3) as [E|_]; [lia|].
  reflexivity.
Qed.

(** Bytes below 0x80, the first of them no white space, put after the end of
    a sequence that ends in no white space, leave it so. *)
Lemma starts_rev_app (r : list ascii) (a b c : ascii) (tl : list ascii) :
  (byte_val a < 128)%N -> (byte_val b < 128)%N -> (byte_val c < 128)%N ->
  asciiSpace a = false ->
  starts asciiSpace (fun c1 c2 => space2 c2 c1) (fun c1 c2 c3 => space3 c3 c2 c1) r
    = false ->
  starts asciiSpace (fun c1 c2 => space2 c2 c1) (fun c1 c2 c3 => space3 c3 c2 c1)
    (r ++ a :: b :: c :: tl) = false.
Proof.
  intros Ha Hb Hc Hsp.
  destruct r as [|c1 [|c2 [|c3 r3]]]; simpl.
  - intros _. rewrite Hsp, (space2_ascii b a Hb), (space3_ascii c b a Hc). reflexivity.
  - rewrite orb_false_r. intros ->.
    rewrite (space2_ascii a c1 Ha), (space3_ascii b a c1 Hb). reflexivity.
  - rewrite orb_false_r. intros [-> ->]%orb_false_elim.
    rewrite (space3_ascii a c2 c1 Ha). reflexivity.
  - intros H. exact H.
Qed.

Lemma list_ascii_of_string_app (s1 s2 : string) :
  list_ascii_of_string (s1 +:+ s2) = list_ascii_of_string s1 ++ list_ascii_of_string s2.
Proof. induction s1 as [|c s1 IH]; simpl; [reflexivity | rewrite IH; reflexivity]. Qed.

(** The scheme prefix in front of a trimmed string gives a trimmed string. *)
Lemma TrimSpace_https (s : string) :
  TrimSpace ("https://" +:+ TrimSpace s) = "https://" +:+ TrimSpace s.
Proof.
  unfold TrimSpace at 1. rewrite list_ascii_of_string_app.
  assert (Hl : trimLeft (list_ascii_of_string "https://"
                         ++ list_ascii_of_string (TrimSpace s))
               = list_ascii_of_string "https://" ++ list_ascii_of_string (TrimSpace s))
    by (apply trim_fix; reflexivity).
  rewrite Hl. rewrite <- list_ascii_of_string_app.
  rewrite <- (string_of_list_ascii_of_string ("https://" +:+ TrimSpace s)) at 2.
  f_equal. apply trimRight_fix. apply trim_fix.
  rewrite list_ascii_of_string_app, rev_app_distr.
  unfold TrimSpace. rewrite list_ascii_of_string_of_list_ascii.
  apply (starts_rev_app _ "/" "/" ":" ["s"; "p"; "t"; "t"; "h"]%char);
    [reflexivity | reflexivity | reflexivity | reflexivity |].
  unfold trimRight. rewrite rev_involutive. apply starts_trim.
Qed.

End strings_facts.

Module models_facts.

Import strings models strings_facts.

Lemma normalize_twice (s : string) : normalize (normalize s) = normalize s.
Proof.
  unfold normalize. cbv zeta.
  destruct (negb (HasPrefix (TrimSpace s) "http://")
            && negb (HasPrefix (TrimSpace s) "https://")) eqn:E.
  - rewrite TrimSpace_https. unfold HasPrefix. simpl.
    destruct (TrimSpace s); reflexivity.
  - rewrite TrimSpace_idempotent, E. reflexivity.
Qed.

(** C8. URL normalisation is idempotent: normalising a string twice gives
    what normalising it once gives, for the normalisation step shared by the
    validators and for [URL.NormalizeURL]; [example.com] becomes
    [https://example.com], and [https://example.com] stays as it is. *)
Theorem normalization_idempotent :
  (forall s : string, normalize (normalize s) = normalize s)
  /\ (forall u : URL, NormalizeURL (NormalizeURL u) = NormalizeURL u)
  /\ normalize "example.com" = "https://example.com"
  /\ normalize "https://example.com" = "https://example.com".
Proof.
  split; [exact normalize_twice|].
  split; [|split; reflexivity].
  intros u. unfold NormalizeURL. simpl. rewrite normalize_twice. reflexivity.
Qed.

End models_facts.

(** ** Running the service *)

Module effects_facts.

Import errors models effects.

Lemma run_bind {W A B : Type} (h : handler W) (m : Prog A) (f : A -> Prog B) (w : W) :
  run h (bind m f) w = run h (f (fst (run h m w))) (snd (run h m w)).
Proof.
  revert w. induction m as [a|X e k IH]; intros w; simpl; [reflexivity|].
  destruct (h X e w) as [x w']. apply IH.
Qed.

Lemma trace_bind {W A B : Type} (h : handler W) (m : Prog A) (f : A -> Prog B) (w : W) :
  trace h (bind m f) w
  = trace h m w ++ trace h (f (fst (run h m w))) (snd (run h m w)).
Proof.
  revert w. induction m as [a|X e k IH]; intros w; simpl; [reflexivity|].
  destruct (h X e w) as [x w']. simpl. rewrite IH. reflexivity.
Qed.

Lemma count_cons (p : Call -> bool) (c : Call) (l : list Call) :
  count p (c :: l) = ((if p c then 1 else 0) + count p l)%nat.
Proof.
  unfold count. rewrite filter_cons.
  destruct (p c); simpl; [reflexivity|].
  destruct (decide False) as [[]|_]. reflexivity.
Qed.

Lemma count_app (p : Call -> bool) (l1 l2 : list Call) :
  count p (l1 ++ l2) = (count p l1 + count p l2)%nat.
Proof. unfold count. rewrite filter_app, length_app. reflexivity. Qed.

End effects_facts.

Module store_facts.

Import errors models effects validation store effects_facts.

Lemma eqb_nonempty (s : string) : s <> EmptyString -> String.eqb s EmptyString = false.
Proof. intros H. apply String.eqb_neq. exact H. Qed.

(** In a table without a row under the empty code, every stored code is not
    empty. The service keeps the table so ([empty_code_never_stored]). *)
Lemma stored_code_nonempty (w : World) (shortCode : string) (r : Row) :
  urls w !! EmptyString = None -> urls w !! shortCode = Some r ->
  shortCode <> EmptyString.
Proof. intros Hinv Hrow ->. rewrite Hinv in Hrow. discriminate. Qed.

(** Reading the clock touches nothing but the clock. *)
Lemma read_clock_now (w : World) : fst (read_clock w) = now w.
Proof. reflexivity. Qed.

Lemma read_clock_urls (w : World) : urls (snd (read_clock w)) = urls w.
Proof. unfold read_clock. simpl. destruct (ticks w); reflexivity. Qed.

Lemma read_clock_redis (w : World) : redis (snd (read_clock w)) = redis w.
Proof. unfold read_clock. simpl. destruct (ticks w); reflexivity. Qed.

Lemma read_clock_users (w : World) : users (snd (read_clock w)) = users w.
Proof. unfold read_clock. simpl. destruct (ticks w); reflexivity. Qed.

Lemma read_clock_entropy (w : World) : entropy (snd (read_clock w)) = entropy w.
Proof. unfold read_clock. simpl. destruct (ticks w); reflexivity. Qed.

Lemma read_clock_later (w : World) : now w <= now (snd (read_clock w)).
Proof. unfold read_clock. simpl. destruct (ticks w); simpl; lia. Qed.

(** What [GetURL] does against the tables, for a code that is not empty. *)
Lemma GetURL_db (shortCode : string) (w : World) :
  shortCode <> EmptyString ->
  run db (services.GetURL shortCode) w =
  match urls w !! shortCode with
  | None =>
      (fail (appError (NewNotFoundError "URL not found"
                         (Some (errorString "URL not found")))), w)
  | Some r =>
      let '(expired, w1) :=
        match expires_at r with
        | Some t => (t <? now w, snd (read_clock w))
        | None => (false, w)
        end in
      if expired then
        (fail (appError (NewExpiredError "URL has expired" None)),
         snd (cache_DeleteURL shortCode w1))
      else if negb (is_active r) then
        (fail (appError (NewInactiveError "URL is not active" None)),
         snd (cache_DeleteURL shortCode w1))
      else
        (ok (scan shortCode r),
         snd (cache_SetURL shortCode (original_url r) services.cacheTTL w1))
  end.
Proof.
  intros Hne. unfold services.GetURL.
  rewrite (eqb_nonempty _ Hne). cbn.
  destruct (urls w !! shortCode) as [r|]; cbn; [|reflexivity].
  unfold IsExpired. cbn.
  destruct (expires_at r) as [t|]; cbn.
  - destruct (t <? now w); cbn; [reflexivity|].
    destruct (is_active r); reflexivity.
  - destruct (is_active r); reflexivity.
Qed.

Lemma cache_deleted (shortCode : string) (w : World) :
  cache_GetURL shortCode (snd (cache_DeleteURL shortCode w)) = None.
Proof. unfold cache_GetURL. simpl. rewrite lookup_delete_eq. reflexivity. Qed.

(** C2. For every short code whose stored record has an expiry in the past,
    [GetURL] returns the expired error whatever the cache holds, and when it
    returns the cache has no entry for the code (and the record is still
    stored). The table holds no row under the empty code, which the service
    never stores. *)
Theorem GetURL_expired_evicts (w : World) (shortCode : string) (r : Row) (t : Z) :
  urls w !! EmptyString = None ->
  urls w !! shortCode = Some r ->
  expires_at r = Some t ->
  t < now w ->
  fst (run db (services.GetURL shortCode) w)
    = fail (appError (NewExpiredError "URL has expired" None))
  /\ cache_GetURL shortCode (snd (run db (services.GetURL shortCode) w)) = None
  /\ urls (snd (run db (services.GetURL shortCode) w)) !! shortCode = Some r.
Proof.
  intros Hinv Hrow Hexp Hpast.
  rewrite (GetURL_db _ _ (stored_code_nonempty _ _ _ Hinv Hrow)), Hrow, Hexp.
  apply Z.ltb_lt in Hpast. rewrite Hpast. cbn -[cache_GetURL cache_DeleteURL].
  split; [reflexivity|]. split; [apply cache_deleted|].
  change (urls (snd (read_clock w)) !! shortCode = Some r).
  rewrite read_clock_urls. exact Hrow.
Qed.

Lemma GetURL_expired_evicts_witness :
  cache_GetURL scenario.code
    (snd (run db (services.GetURL scenario.code)
            (scenario.world (scenario.link true (Some 1500)) 2000))) = None.
Proof.
  refine (proj1 (proj2 (GetURL_expired_evicts
                          (scenario.world (scenario.link true (Some 1500)) 2000)
                          scenario.code (scenario.link true (Some 1500)) 1500
                          eq_refl eq_refl eq_refl eq_refl))).
Defined.

(** C9. A stored link that is both expired and inactive is reported as
    expired, not as inactive: the expiry is looked at first. The table holds
    no row under the empty code, which the service never stores. *)
Theorem GetURL_expired_before_inactive (w : World) (shortCode : string) (r : Row) (t : Z) :
  urls w !! EmptyString = None ->
  urls w !! shortCode = Some r ->
  expires_at r = Some t ->
  t < now w ->
  is_active r = false ->
  fst (run db (services.GetURL shortCode) w)
    = fail (appError (NewExpiredError "URL has expired" None))
  /\ fst (run db (services.GetURL shortCode) w)
    <> fail (appError (NewInactiveError "URL is not active" None)).
Proof.
  intros Hinv Hrow Hexp Hpast _.
  rewrite (GetURL_db _ _ (stored_code_nonempty _ _ _ Hinv Hrow)), Hrow, Hexp.
  apply Z.ltb_lt in Hpast. rewrite Hpast. cbn.
  split; [reflexivity | discriminate].
Qed.

Lemma GetURL_expired_before_inactive_witness :
  fst (run db (services.GetURL scenario.code)
         (scenario.world (scenario.link false (Some 1500)) 2000))
  = fail (appError (NewExpiredError "URL has expired" None)).
Proof.
  refine (proj1 (GetURL_expired_before_inactive
                   (scenario.world (scenario.link false (Some 1500)) 2000)
                   scenario.code (scenario.link false (Some 1500)) 1500
                   eq_refl eq_refl eq_refl eq_refl eq_refl)).
Defined.

(** Validating an update request reads the clock at most; the flags of the
    request come back as they went in. *)
Lemma Update_check_expiry_db (req : UpdateURLRequest) (w : World) :
  let out := run db (Update_check_expiry req) w in
  fst (fst out) = req
  /\ urls (snd out) = urls w /\ redis (snd out) = redis w.
Proof.
  unfold Update_check_expiry, expiry_in_past.
  destruct (Update_ExpiresAt req) as [t|]; cbn -[read_clock].
  - destruct (read_clock w) as [t0 w1] eqn:E. cbn.
    assert (Hu : urls w1 = urls w) by (rewrite <- (read_clock_urls w), E; reflexivity).
    assert (Hr : redis w1 = redis w) by (rewrite <- (read_clock_redis w), E; reflexivity).
    destruct (t <? t0); cbn; auto.
  - auto.
Qed.

Lemma UpdateURLRequest_Validate_db (url_Parse : string -> result ParsedURL)
    (req : UpdateURLRequest) (w : World) :
  let out := run db (UpdateURLRequest_Validate url_Parse req) w in
  Update_IsActive (fst (fst out)) = Update_IsActive req
  /\ Update_ExpiresAt (fst (fst out)) = Update_ExpiresAt req
  /\ urls (snd out) = urls w /\ redis (snd out) = redis w.
Proof.
  unfold UpdateURLRequest_Validate.
  destruct (negb (String.eqb (Update_OriginalURL req) EmptyString)).
  - destruct (check_url url_Parse _) as [err|]; [cbn; auto|].
    match goal with |- context [Update_check_expiry ?q] =>
      destruct (Update_check_expiry_db q w) as (H1 & H2 & H3) end.
    cbv zeta. rewrite H1, H2, H3. cbn. auto.
  - destruct (Update_check_expiry_db req w) as (H1 & H2 & H3).
    cbv zeta. rewrite H1, H2, H3. auto.
Qed.

(** The fields [apply_patch] leaves on the record. *)
Lemma apply_patch_fields (req : UpdateURLRequest) (u : URL) :
  ShortCode (fst (services.apply_patch req u)) = ShortCode u
  /\ IsActive (fst (services.apply_patch req u))
     = default (IsActive u) (Update_IsActive req)
  /\ ExpiresAt (fst (services.apply_patch req u))
     = match Update_ExpiresAt req with Some t => Some t | None => ExpiresAt u end.
Proof.
  unfold services.apply_patch.
  destruct (Update_IsActive req), (Update_ExpiresAt req); cbn; auto.
Qed.

(** The cache step of [UpdateURL] leaves the table alone, and leaves no cache
    entry for a link that is not active. *)
Lemma refresh_cache_db (shortCode : string) (statusChanged : bool) (u : URL) (w : World) :
  urls (snd (run db (services.refresh_cache shortCode statusChanged u) w)) = urls w
  /\ (IsActive u = false ->
      cache_GetURL shortCode
        (snd (run db (services.refresh_cache shortCode statusChanged u) w)) = None).
Proof.
  unfold services.refresh_cache. rewrite run_bind.
  destruct (statusChanged || negb (IsActive u)) eqn:E.
  - cbn -[cache_GetURL cache_DeleteURL]. split; [reflexivity|].
    intros _. apply cache_deleted.
  - apply orb_false_elim in E as [_ E]. apply negb_false_iff in E. rewrite E.
    split; [|discriminate].
    unfold IsExpired. destruct (ExpiresAt u) as [t|]; cbn -[read_clock].
    + destruct (read_clock w) as [t0 w1] eqn:E1. cbn.
      assert (Hu : urls w1 = urls w) by (rewrite <- (read_clock_urls w), E1; reflexivity).
      destruct (t <? t0); cbn; exact Hu.
    + reflexivity.
Qed.

Lemma UpdateURL_db (url_Parse : string -> result ParsedURL) (shortCode : string)
    (req : UpdateURLRequest) (userID : Z) (w : World) (out : result URL * World) :
  out = run db (services.UpdateURL url_Parse shortCode req userID) w ->
  (exists e, fst out = fail e /\ urls (snd out) = urls w)
  \/ (exists r r' u',
        fst out = ok u'
        /\ urls w !! shortCode = Some r
        /\ user_id r = userID
        /\ urls (snd out) = <[shortCode := r']> (urls w)
        /\ is_active r' = default (is_active r) (Update_IsActive req)
        /\ expires_at r'
           = match Update_ExpiresAt req with Some t => Some t | None => expires_at r end
        /\ IsActive u' = is_active r' /\ ExpiresAt u' = expires_at r'
        /\ (is_active r' = false -> cache_GetURL shortCode (snd out) = None)).
Proof.
  intros Hout. unfold services.UpdateURL in Hout.
  destruct (String.eqb shortCode EmptyString) eqn:Ecode;
    [left; subst out; eexists; split; reflexivity|].
  cbv zeta in Hout. rewrite run_bind in Hout.
  destruct (UpdateURLRequest_Validate_db url_Parse req w) as (Ha & He & Hu & Hr).
  destruct (run db (UpdateURLRequest_Validate url_Parse req) w) as [[req' verr] w1].
  cbn [fst snd] in *.
  destruct verr as [err|]; [left; subst out; eexists; split; [reflexivity | exact Hu]|].
  cbn in Hout. unfold owned_row in Hout. rewrite Hu in Hout.
  destruct (urls w !! shortCode) as [r|] eqn:Hrow; cbn in Hout;
    [|left; subst out; eexists; split; [reflexivity | exact Hu]].
  destruct (user_id r =? userID) eqn:Eown; cbn in Hout;
    [|left; subst out; eexists; split; [reflexivity | exact Hu]].
  rewrite Hu, Hrow in Hout. cbn in Hout.
  destruct (apply_patch_fields req' (scan shortCode r)) as (Hs & Hact & Hexp).
  destruct (services.apply_patch req' (scan shortCode r)) as [url sc].
  cbn [fst] in Hs, Hact, Hexp. cbn [scan ShortCode IsActive ExpiresAt] in Hs, Hact, Hexp.
  cbn -[read_clock] in Hout.
  destruct (read_clock w1) as [t1 w2] eqn:E1.
  assert (Hu2 : urls w2 = urls w)
    by (rewrite <- Hu, <- (read_clock_urls w1), E1; reflexivity).
  unfold url_Update in Hout.
  destruct (read_clock w2) as [t2 w3] eqn:E2.
  assert (Hu3 : urls w3 = urls w)
    by (rewrite <- Hu2, <- (read_clock_urls w2), E2; reflexivity).
  cbn [services.set_UpdatedAt ShortCode] in Hout.
  rewrite Hs, Hu3, Hrow in Hout.
  rewrite run_bind in Hout.
  match type of Hout with
  | context [run db (services.refresh_cache ?c ?s ?u) ?ww] =>
      destruct (refresh_cache_db c s u ww) as [Hfr Hcache];
      set (u' := u) in *; set (w4 := ww) in *
  end.
  right. subst out. cbn [run fst snd].
  eexists r, _, u'. split; [reflexivity|]. split; [reflexivity|].
  split; [apply Z.eqb_eq; exact Eown|].
  split; [rewrite Hfr; reflexivity|].
  cbn [is_active expires_at services.set_UpdatedAt IsActive ExpiresAt].
  split; [rewrite Hact, Ha; reflexivity|].
  split; [rewrite Hexp, He; reflexivity|].
  split; [reflexivity|]. split; [reflexivity|].
  intros Hin. apply Hcache. exact Hin.
Qed.

(** C10. An update whose patch carries no expiry leaves the stored expiry of
    the link as it was; and whatever the patch, a link that had an expiry
    before the update has one after it. *)
Theorem UpdateURL_keeps_expiry (url_Parse : string -> result ParsedURL)
    (shortCode : string) (req : UpdateURLRequest) (userID : Z) (w : World) :
  (Update_ExpiresAt req = None ->
   expires_at <$>
     (urls (snd (run db (services.UpdateURL url_Parse shortCode req userID) w))
        !! shortCode)
   = expires_at <$> (urls w !! shortCode))
  /\ (is_Some (urls w !! shortCode ≫= expires_at) ->
      is_Some
        (urls (snd (run db (services.UpdateURL url_Parse shortCode req userID) w))
           !! shortCode ≫= expires_at)).
Proof.
  destruct (UpdateURL_db url_Parse shortCode req userID w _ eq_refl)
    as [(e & _ & Hu) | (r & r' & u' & _ & Hrow & _ & Hu & _ & Hexp & _)].
  - rewrite Hu. split; auto.
  - rewrite Hu, lookup_insert_eq, Hrow. cbn. rewrite Hexp. split.
    + intros ->. reflexivity.
    + intros Hsome. destruct (Update_ExpiresAt req); [eexists; reflexivity | exact Hsome].
Qed.

Lemma UpdateURL_keeps_expiry_witness :
  expires_at <$>
    (urls (snd (run db (services.UpdateURL example.url_Parse scenario.code
                          scenario.retarget 1)
                  (scenario.world (scenario.link true (Some 5000)) 2000)))
       !! scenario.code)
  = Some (Some 5000).
Proof.
  destruct (UpdateURL_keeps_expiry example.url_Parse scenario.code scenario.retarget 1
              (scenario.world (scenario.link true (Some 5000)) 2000)) as [H _].
  rewrite H; reflexivity.
Defined.

(** C3, amended. After an update that sets [active] to false has succeeded,
    the cache has no entry for the code, and a later [GetURL] on the stored
    link, whatever the cache and the clock have become, returns the inactive
    error unless the link's expiry has passed by then, in which case it
    returns the expired error. *)
Theorem deactivated_link_not_served (url_Parse : string -> result ParsedURL)
    (shortCode : string) (req : UpdateURLRequest) (userID : Z) (w : World) (u' : URL) :
  Update_IsActive req = Some false ->
  fst (run db (services.UpdateURL url_Parse shortCode req userID) w) = ok u' ->
  cache_GetURL shortCode
    (snd (run db (services.UpdateURL url_Parse shortCode req userID) w)) = None
  /\ forall w2 : World,
      urls w2 = urls (snd (run db (services.UpdateURL url_Parse shortCode req userID) w)) ->
      fst (run db (services.GetURL shortCode) w2)
      = fail (appError
                (if match ExpiresAt u' with Some t => t <? now w2 | None => false end
                 then NewExpiredError "URL has expired" None
                 else NewInactiveError "URL is not active" None)).
Proof.
  intros Hreq Hok.
  assert (Hne : shortCode <> EmptyString).
  { intros ->. unfold services.UpdateURL in Hok. cbn in Hok. discriminate. }
  destruct (UpdateURL_db url_Parse shortCode req userID w _ eq_refl)
    as [(e & He & _) | (r & r' & u'' & Hok' & Hrow & _ & Hu & Hact & _ & _ & Hexp & Hcache)].
  { rewrite He in Hok. discriminate. }
  rewrite Hok' in Hok. injection Hok as ->.
  rewrite Hreq in Hact. cbn in Hact.
  split; [apply Hcache; exact Hact|].
  intros w2 Hw2. rewrite (GetURL_db _ _ Hne), Hw2, Hu, lookup_insert_eq.
  rewrite Hexp, Hact.
  destruct (expires_at r') as [t|]; [|reflexivity].
  destruct (t <? now w2); reflexivity.
Qed.

Lemma deactivated_link_not_served_witness :
  cache_GetURL scenario.code
    (snd (run db (services.UpdateURL example.url_Parse scenario.code
                    scenario.deactivate 1)
            (scenario.world (scenario.link true (Some 5000)) 2000))) = None.
Proof.
  refine (proj1 (deactivated_link_not_served example.url_Parse scenario.code
                   scenario.deactivate 1
                   (scenario.world (scenario.link true (Some 5000)) 2000) _
                   eq_refl eq_refl)).
Defined.

(** C3 as stated fails: the owner deactivates a link whose expiry has passed;
    the update succeeds, and the next [GetURL] returns the expired error, not
    the inactive one. *)
Lemma deactivated_expired_link_counterexample :
  let w := scenario.world (scenario.link true (Some 1500)) 2000 in
  let out := run db (services.UpdateURL example.url_Parse scenario.code
                       scenario.deactivate 1) w in
  (exists u' : URL, fst out = ok u')
  /\ fst (run db (services.GetURL scenario.code) (snd out))
     = fail (appError (NewExpiredError "URL has expired" None))
  /\ fst (run db (services.GetURL scenario.code) (snd out))
     <> fail (appError (NewInactiveError "URL is not active" None)).
Proof.
  cbv zeta. split; [eexists; vm_compute; reflexivity|].
  split; [vm_compute; reflexivity|].
  vm_compute. discriminate.
Qed.

End store_facts.

(** ** Code generation *)

Module generation_facts.

Import errors models effects effects_facts.

Section AnyHandler.

Context {W : Type}.
Variable h : handler W.

(** [generateShortCode] reads the random source eight times and calls
    nothing else. *)
Lemma fill_trace (n : nat) (w : W) :
  Forall (fun c => is_rand c = true) (trace h (services.fill n) w)
  /\ List.length (trace h (services.fill n) w) = n.
Proof.
  revert w. induction n as [|n IH]; intros w; [split; [constructor | reflexivity]|].
  cbn. destruct (h ascii RandRead w) as [b w1]. rewrite trace_bind.
  destruct (IH w1) as [Hall Hlen]. cbn. rewrite app_nil_r.
  split; [constructor; [reflexivity | exact Hall] | rewrite Hlen; reflexivity].
Qed.

Lemma count_all (p q : Call -> bool) (l : list Call) :
  Forall (fun c => p c = true) l ->
  (forall c, p c = true -> q c = true) -> count q l = List.length l.
Proof.
  intros Hall Hpq. unfold count. induction Hall as [|c l Hc _ IH]; [reflexivity|].
  rewrite filter_cons. destruct (decide (q c)) as [_|Hq].
  - simpl. rewrite IH. reflexivity.
  - exfalso. apply Hq. rewrite (Hpq c Hc). exact I.
Qed.

Lemma count_none (p q : Call -> bool) (l : list Call) :
  Forall (fun c => p c = true) l ->
  (forall c, p c = true -> q c = false) -> count q l = 0%nat.
Proof.
  intros Hall Hpq. unfold count. induction Hall as [|c l Hc _ IH]; [reflexivity|].
  rewrite filter_cons. destruct (decide (q c)) as [Hq|_]; [|exact IH].
  exfalso. rewrite (Hpq c Hc) in Hq. exact Hq.
Qed.

Lemma rand_not_exists (c : Call) : is_rand c = true -> is_exists c = false.
Proof. destruct c as [X e x]. destruct e; simpl; congruence. Qed.

Lemma rand_not_insert (c : Call) : is_rand c = true -> is_insert c = false.
Proof. destruct c as [X e x]. destruct e; simpl; congruence. Qed.

Lemma generateShortCode_counts (w : W) :
  count is_rand (trace h services.generateShortCode w) = 8%nat
  /\ count is_exists (trace h services.generateShortCode w) = 0%nat
  /\ count is_insert (trace h services.generateShortCode w) = 0%nat.
Proof.
  unfold services.generateShortCode. rewrite trace_bind. cbn [trace]. rewrite app_nil_r.
  destruct (fill_trace services.length w) as [Hall Hlen].
  split; [rewrite (count_all is_rand is_rand _ Hall); [exact Hlen | auto]|].
  split; [apply (count_none is_rand _ _ Hall), rand_not_exists
         | apply (count_none is_rand _ _ Hall), rand_not_insert].
Qed.

(** The generation loop never inserts. *)
Lemma attempts_no_insert (n : nat) (w : W) :
  count is_insert (trace h (services.attempts n) w) = 0%nat.
Proof.
  revert w. induction n as [|n IH]; intros w; [reflexivity|].
  cbn [services.attempts]. rewrite trace_bind, count_app.
  destruct (generateShortCode_counts w) as (_ & _ & ->).
  cbn -[count]. destruct (h _ _ _) as [r w1]. rewrite count_cons. cbn [is_insert].
  destruct r as [[|]|err]; cbn -[count]; [apply IH | reflexivity | reflexivity].
Qed.

(** Against a store that reports every code as taken, the loop makes all its
    attempts and gives up. *)
Lemma attempts_saturated (n : nat) (w : W) :
  (forall (c : string) (w' : W), fst (h _ (URL_ExistsByShortCode c) w') = ok true) ->
  fst (run h (services.attempts n) w)
    = fail (errorString "failed to generate unique short code after 10 attempts")
  /\ count is_exists (trace h (services.attempts n) w) = n
  /\ count is_rand (trace h (services.attempts n) w) = (8 * n)%nat.
Proof.
  intros Hsat. revert w. induction n as [|n IH]; intros w;
    [split; [reflexivity | split; reflexivity]|].
  cbn [services.attempts]. rewrite run_bind, !trace_bind, !count_app.
  destruct (generateShortCode_counts w) as (-> & -> & _).
  set (w1 := snd (run h services.generateShortCode w)).
  set (c := fst (run h services.generateShortCode w)).
  cbn -[count]. specialize (Hsat c w1).
  destruct (h _ (URL_ExistsByShortCode c) w1) as [r w2]. cbn in Hsat. subst r.
  cbn -[count]. rewrite !count_cons. cbn [is_exists is_rand].
  destruct (IH w2) as (-> & -> & ->). split; [reflexivity|].
  split; unfold count; simpl; lia.
Qed.

End AnyHandler.

End generation_facts.

(** ** [CreateURL] *)

Module create_facts.

Import errors models effects validation effects_facts generation_facts.

Section AnyHandler.

Context {W : Type}.
Variable h : handler W.
Variable url_Parse : string -> result ParsedURL.
Variable baseURL : string.

(** Validation reads the clock at most once and leaves the custom code and
    the expiry of the request alone. *)
Lemma expiry_in_past_trace (o : option Z) (w : W) :
  trace h (expiry_in_past o) w = []
  \/ exists t : Z, trace h (expiry_in_past o) w = [MkCall TimeNow t].
Proof.
  destruct o as [t|]; [right | left; reflexivity].
  cbn. destruct (h Z TimeNow w) as [t0 w1]. exists t0. reflexivity.
Qed.

Lemma Validate_trace (req : CreateURLRequest) (w : W) :
  trace h (CreateURLRequest_Validate url_Parse req) w = []
  \/ exists t : Z,
      trace h (CreateURLRequest_Validate url_Parse req) w = [MkCall TimeNow t].
Proof.
  unfold CreateURLRequest_Validate.
  destruct (String.eqb (Create_URL req) EmptyString); [left; reflexivity|].
  cbv zeta. destruct (check_url url_Parse _); [left; reflexivity|].
  destruct (check_custom_code _); [left; reflexivity|].
  rewrite trace_bind.
  destruct (expiry_in_past_trace (Create_ExpiresAt req) w) as [E | [t E]];
    cbn [Create_ExpiresAt]; rewrite E; [left | right; exists t];
    destruct (fst (run h (expiry_in_past (Create_ExpiresAt req)) w)); reflexivity.
Qed.

Lemma Validate_counts (req : CreateURLRequest) (w : W) :
  count is_rand (trace h (CreateURLRequest_Validate url_Parse req) w) = 0%nat
  /\ count is_exists (trace h (CreateURLRequest_Validate url_Parse req) w) = 0%nat
  /\ count is_insert (trace h (CreateURLRequest_Validate url_Parse req) w) = 0%nat.
Proof.
  destruct (Validate_trace req w) as [-> | [t ->]]; repeat split; reflexivity.
Qed.

Lemma Validate_CustomCode (req : CreateURLRequest) (w : W) :
  Create_CustomCode (fst (fst (run h (CreateURLRequest_Validate url_Parse req) w)))
  = Create_CustomCode req.
Proof.
  unfold CreateURLRequest_Validate.
  destruct (String.eqb (Create_URL req) EmptyString); [reflexivity|].
  cbv zeta. destruct (check_url url_Parse _); [reflexivity|].
  destruct (check_custom_code _); [reflexivity|].
  rewrite run_bind.
  destruct (fst (run h (expiry_in_past _) w)); reflexivity.
Qed.

(** [CreateURL] step by step: validation, the user's quota, the short code,
    the insert. *)
Lemma CreateURL_run (req : CreateURLRequest) (userID : Z) (clientIP userAgent : string)
    (w : W) :
  run h (services.CreateURL url_Parse baseURL req userID clientIP userAgent) w =
  let v := run h (CreateURLRequest_Validate url_Parse req) w in
  match snd (fst v) with
  | Some err => (fail (appError (NewValidationError "Invalid request" (Some err))), snd v)
  | None =>
      let g := h _ (User_GetByID userID) (snd v) in
      match fst g with
      | fail err =>
          (fail (appError (NewDatabaseError "Failed to get user" (Some err))), snd g)
      | ok user =>
          if negb (CanCreateLink user)
          then (fail (appError (NewValidationError
                        ("Link limit exceeded. You can create maximum "
                         +:+ services.itoa (LinkLimit user) +:+ " links") None)), snd g)
          else
            let a := run h (services.allocate (Create_CustomCode (fst (fst v)))) (snd g) in
            match fst a with
            | fail err => (fail err, snd a)
            | ok shortCode =>
                run h (services.persist baseURL (fst (fst v)) userID clientIP userAgent
                         shortCode) (snd a)
            end
      end
  end.
Proof.
  unfold services.CreateURL. rewrite run_bind. cbv zeta.
  destruct (run h (CreateURLRequest_Validate url_Parse req) w) as [[req' verr] w1].
  cbn [fst snd]. destruct verr as [err|]; [reflexivity|].
  cbn [bind call run]. destruct (h _ (User_GetByID userID) w1) as [ru w2].
  cbn [fst snd]. destruct ru as [user|err]; [|reflexivity].
  destruct (negb (CanCreateLink user)); [reflexivity|].
  rewrite run_bind.
  destruct (run h (services.allocate (Create_CustomCode req')) w2) as [[c|err] w3];
    reflexivity.
Qed.

Lemma CreateURL_trace (req : CreateURLRequest) (userID : Z) (clientIP userAgent : string)
    (w : W) :
  trace h (services.CreateURL url_Parse baseURL req userID clientIP userAgent) w =
  let v := run h (CreateURLRequest_Validate url_Parse req) w in
  trace h (CreateURLRequest_Validate url_Parse req) w ++
  match snd (fst v) with
  | Some err => []
  | None =>
      let g := h _ (User_GetByID userID) (snd v) in
      MkCall (User_GetByID userID) (fst g) ::
      match fst g with
      | fail err => []
      | ok user =>
          if negb (CanCreateLink user) then []
          else
            let a := run h (services.allocate (Create_CustomCode (fst (fst v)))) (snd g) in
            trace h (services.allocate (Create_CustomCode (fst (fst v)))) (snd g) ++
            match fst a with
            | fail err => []
            | ok shortCode =>
                trace h (services.persist baseURL (fst (fst v)) userID clientIP userAgent
                           shortCode) (snd a)
            end
      end
  end.
Proof.
  unfold services.CreateURL. rewrite trace_bind. cbv zeta. f_equal.
  destruct (run h (CreateURLRequest_Validate url_Parse req) w) as [[req' verr] w1].
  cbn [fst snd]. destruct verr as [err|]; [reflexivity|].
  cbn [bind call trace]. destruct (h _ (User_GetByID userID) w1) as [ru w2].
  cbn [fst snd]. f_equal. destruct ru as [user|err]; [|reflexivity].
  destruct (negb (CanCreateLink user)); [reflexivity|].
  rewrite trace_bind. f_equal.
  destruct (run h (services.allocate (Create_CustomCode req')) w2) as [[c|err] w3];
    reflexivity.
Qed.

Lemma no_insert_no_failure (l : list Call) (err : error) :
  count is_insert l = 0%nat -> ~ Exists (insert_failed_with err) l.
Proof.
  induction l as [|c l IH]; intros Hc HE; [apply Exists_nil in HE as []|].
  rewrite count_cons in Hc. apply Exists_cons in HE as [Hhd|Htl].
  - destruct c as [X e x].
    destruct e; simpl in Hhd; try contradiction. simpl in Hc. lia.
  - apply IH; [lia | exact Htl].
Qed.

Lemma allocate_no_insert (customCode : string) (w : W) :
  count is_insert (trace h (services.allocate customCode) w) = 0%nat.
Proof.
  unfold services.allocate. destruct (String.eqb customCode EmptyString).
  - rewrite trace_bind, count_app. unfold services.generateUniqueShortCode.
    rewrite attempts_no_insert.
    destruct (fst (run h (services.attempts services.maxAttempts) w)); reflexivity.
  - cbn -[count]. destruct (h _ _ w) as [[[|]|err] w1]; reflexivity.
Qed.

(** The last step: two clock readings, the insert, and the cache write when
    the insert went through. *)
Lemma persist_failure (req : CreateURLRequest) (userID : Z) (clientIP userAgent : string)
    (shortCode : string) (w : W) (err : error) :
  Exists (insert_failed_with err)
    (trace h (services.persist baseURL req userID clientIP userAgent shortCode) w) ->
  fst (run h (services.persist baseURL req userID clientIP userAgent shortCode) w)
    = fail (appError (NewDatabaseError "Failed to create URL" (Some err)))
  /\ exists (pre : list Call) (u : URL),
      trace h (services.persist baseURL req userID clientIP userAgent shortCode) w
      = pre ++ [MkCall (URL_Create u) (fail err)].
Proof.
  unfold services.persist. cbn [bind call run trace].
  destruct (h Z TimeNow w) as [t1 w1]. cbn [bind call run trace].
  destruct (h Z TimeNow w1) as [t2 w2]. cbn [bind call run trace].
  destruct (h _ (URL_Create _) w2) as [r w3] eqn:E.
  destruct r as [createdURL|err'].
  - cbn [bind call run trace]. destruct (h _ (Cache_SetURL _ _ _) w3) as [o w4].
    cbn [run trace]. intros HE.
    apply Exists_cons in HE as [[]|HE]. apply Exists_cons in HE as [[]|HE].
    apply Exists_cons in HE as [Hhd|HE]; [simpl in Hhd; discriminate|].
    apply Exists_cons in HE as [[]|HE]. apply Exists_nil in HE as [].
  - cbn [run trace]. intros HE.
    apply Exists_cons in HE as [[]|HE]. apply Exists_cons in HE as [[]|HE].
    apply Exists_cons in HE as [Hhd|HE]; [|apply Exists_nil in HE as []].
    simpl in Hhd. injection Hhd as ->.
    split; [reflexivity|].
    eexists [_; _], _. reflexivity.
Qed.

(** C5, amended. When the insert of a [CreateURL] call is refused by the
    store, for a uniqueness violation or anything else, the call returns the
    database error that wraps the store's error, with a custom code as with a
    generated one; the refused insert is the last call it makes: no further
    generation attempt follows and nothing is written to the cache. *)
Theorem CreateURL_insert_refused (req : CreateURLRequest) (userID : Z)
    (clientIP userAgent : string) (w : W) (err : error) :
  Exists (insert_failed_with err)
    (trace h (services.CreateURL url_Parse baseURL req userID clientIP userAgent) w) ->
  fst (run h (services.CreateURL url_Parse baseURL req userID clientIP userAgent) w)
    = fail (appError (NewDatabaseError "Failed to create URL" (Some err)))
  /\ exists (pre : list Call) (u : URL),
      trace h (services.CreateURL url_Parse baseURL req userID clientIP userAgent) w
      = pre ++ [MkCall (URL_Create u) (fail err)].
Proof.
  rewrite CreateURL_trace, CreateURL_run. cbv zeta.
  destruct (Validate_counts req w) as (_ & _ & Hv).
  set (tv := trace h (CreateURLRequest_Validate url_Parse req) w) in *.
  destruct (run h (CreateURLRequest_Validate url_Parse req) w) as [[req' verr] w1].
  cbn [fst snd].
  intros [HE|HE]%Exists_app; [destruct (no_insert_no_failure _ _ Hv HE)|].
  destruct verr as [e|]; [apply Exists_nil in HE as []|].
  destruct (h _ (User_GetByID userID) w1) as [ru w2]. cbn [fst snd] in *.
  apply Exists_cons in HE as [[]|Htl].
  destruct ru as [user|e]; [|apply Exists_nil in Htl as []].
  destruct (negb (CanCreateLink user)); [apply Exists_nil in Htl as []|].
  apply Exists_app in Htl as [HE|HE];
    [destruct (no_insert_no_failure _ _ (allocate_no_insert _ _) HE)|].
  set (ta := trace h (services.allocate (Create_CustomCode req')) w2) in *.
  destruct (run h (services.allocate (Create_CustomCode req')) w2) as [[c|e] w3];
    cbn [fst snd] in *; [|apply Exists_nil in HE as []].
  destruct (persist_failure _ _ _ _ _ _ _ HE) as [Hres (pre & u & Htr)].
  split; [exact Hres|].
  rewrite Htr. exists (tv ++ MkCall (User_GetByID userID) (ok user) :: ta ++ pre), u.
  rewrite <- (app_assoc tv). cbn [app]. rewrite <- (app_assoc ta). reflexivity.
Qed.

(** C4. A [CreateURL] call without a custom code that gets as far as code
    generation (the request is valid, the user is found and under quota),
    against a record store that reports every candidate as taken, fails with
    the internal error after exactly 10 existence checks, one per generated
    candidate of 8 random bytes, and never calls the insert. *)
Theorem CreateURL_generation_exhausted (req : CreateURLRequest) (userID : Z)
    (clientIP userAgent : string) (w : W) (user : User) :
  Create_CustomCode req = EmptyString ->
  snd (fst (run h (CreateURLRequest_Validate url_Parse req) w)) = None ->
  fst (h _ (User_GetByID userID) (snd (run h (CreateURLRequest_Validate url_Parse req) w)))
    = ok user ->
  CanCreateLink user = true ->
  (forall (c : string) (w' : W), fst (h _ (URL_ExistsByShortCode c) w') = ok true) ->
  fst (run h (services.CreateURL url_Parse baseURL req userID clientIP userAgent) w)
    = fail (appError (NewInternalError "Failed to generate short code"
              (Some (errorString "failed to generate unique short code after 10 attempts"))))
  /\ count is_exists
       (trace h (services.CreateURL url_Parse baseURL req userID clientIP userAgent) w)
     = 10%nat
  /\ count is_rand
       (trace h (services.CreateURL url_Parse baseURL req userID clientIP userAgent) w)
     = 80%nat
  /\ count is_insert
       (trace h (services.CreateURL url_Parse baseURL req userID clientIP userAgent) w)
     = 0%nat.
Proof.
  intros Hcode Hvalid Huser Hcan Hsat.
  rewrite CreateURL_run, CreateURL_trace. cbv zeta.
  destruct (Validate_counts req w) as (Hv1 & Hv2 & Hv3).
  pose proof (Validate_CustomCode req w) as Hcc. rewrite Hcode in Hcc.
  set (tv := trace h (CreateURLRequest_Validate url_Parse req) w) in *.
  destruct (run h (CreateURLRequest_Validate url_Parse req) w) as [[req' verr] w1].
  cbn [fst snd] in *. subst verr. rewrite Hcc.
  destruct (h _ (User_GetByID userID) w1) as [ru w2]. cbn [fst snd] in *. subst ru.
  rewrite Hcan. cbn [negb].
  unfold services.allocate, services.generateUniqueShortCode.
  change (String.eqb EmptyString EmptyString) with true. cbv iota.
  rewrite run_bind, trace_bind.
  destruct (attempts_saturated h services.maxAttempts w2 Hsat) as (Hr & He & Hrnd).
  pose proof (attempts_no_insert h services.maxAttempts w2) as Hi.
  set (ta := trace h (services.attempts services.maxAttempts) w2) in *.
  rewrite Hr. cbn [run trace fst snd]. rewrite app_nil_r.
  split; [reflexivity|].
  rewrite !count_app, !count_cons, !count_app. cbn [is_exists is_rand is_insert].
  rewrite Hv1, Hv2, Hv3, He, Hrnd, Hi. repeat split.
Qed.

End AnyHandler.

End create_facts.

Module quota_facts.

Import errors models effects validation store effects_facts store_facts create_facts.

Lemma CreateURLRequest_Validate_db (url_Parse : string -> result ParsedURL)
    (req : CreateURLRequest) (w : World) :
  users (snd (run db (CreateURLRequest_Validate url_Parse req) w)) = users w
  /\ urls (snd (run db (CreateURLRequest_Validate url_Parse req) w)) = urls w.
Proof.
  unfold CreateURLRequest_Validate.
  destruct (String.eqb (Create_URL req) EmptyString); [split; reflexivity|].
  cbv zeta. destruct (check_url url_Parse _); [split; reflexivity|].
  destruct (check_custom_code _); [split; reflexivity|].
  rewrite run_bind. unfold expiry_in_past. cbn [Create_ExpiresAt].
  destruct (Create_ExpiresAt req) as [t|]; cbn -[read_clock].
  - destruct (read_clock w) as [t0 w1] eqn:E. cbn.
    assert (Hus : users w1 = users w) by (rewrite <- (read_clock_users w), E; reflexivity).
    assert (Hu : urls w1 = urls w) by (rewrite <- (read_clock_urls w), E; reflexivity).
    destruct (t <? t0); cbn; split; assumption.
  - split; reflexivity.
Qed.

(** C6. A [CreateURL] call by an owner whose link count has reached the link
    limit fails with the validation error; it reads no random byte and checks
    no code (the quota comes before any code is allocated), calls no insert,
    and leaves table [urls] as it was. *)
Theorem CreateURL_quota_enforced (url_Parse : string -> result ParsedURL)
    (baseURL : string) (req : CreateURLRequest) (userID : Z)
    (clientIP userAgent : string) (w : World) (user : User) :
  users w !! userID = Some user ->
  LinkLimit user <= LinkCount user ->
  let p := services.CreateURL url_Parse baseURL req userID clientIP userAgent in
  (exists (msg : string) (cause : option error),
      fst (run db p w) = fail (appError (NewValidationError msg cause)))
  /\ (snd (fst (run db (CreateURLRequest_Validate url_Parse req) w)) = None ->
      fst (run db p w)
      = fail (appError (NewValidationError
                ("Link limit exceeded. You can create maximum "
                 +:+ services.itoa (LinkLimit user) +:+ " links") None)))
  /\ count is_rand (trace db p w) = 0%nat
  /\ count is_exists (trace db p w) = 0%nat
  /\ count is_insert (trace db p w) = 0%nat
  /\ urls (snd (run db p w)) = urls w.
Proof.
  intros Huser Hfull p. subst p.
  rewrite CreateURL_run, CreateURL_trace. cbv zeta.
  destruct (Validate_counts db url_Parse req w) as (Hv1 & Hv2 & Hv3).
  destruct (CreateURLRequest_Validate_db url_Parse req w) as [Hus Hu].
  set (tv := trace db (CreateURLRequest_Validate url_Parse req) w) in *.
  destruct (run db (CreateURLRequest_Validate url_Parse req) w) as [[req' verr] w1].
  cbn [fst snd] in *.
  destruct verr as [err|].
  - rewrite app_nil_r. split; [eexists _, _; reflexivity|].
    split; [discriminate | auto].
  - cbn [db user_GetByID fst snd]. rewrite Hus, Huser.
    assert (Hcan : CanCreateLink user = false)
      by (unfold CanCreateLink; apply Z.ltb_ge; exact Hfull).
    rewrite Hcan. cbn [negb fst snd].
    split; [eexists _, _; reflexivity|]. split; [reflexivity|].
    rewrite !count_app, !count_cons. cbn [is_exists is_rand is_insert].
    rewrite Hv1, Hv2, Hv3. repeat split. exact Hu.
Qed.

Lemma CreateURL_quota_enforced_witness :
  fst (run db (services.CreateURL example.url_Parse example.baseURL scenario.shorten 2
                 "203.0.113.9" "curl/8.0")
         (scenario.world (scenario.link true None) 2000))
  = fail (appError (NewValidationError
            "Link limit exceeded. You can create maximum 100 links" None)).
Proof.
  refine (proj1 (proj2 (CreateURL_quota_enforced example.url_Parse example.baseURL
                          scenario.shorten 2 "203.0.113.9" "curl/8.0"
                          (scenario.world (scenario.link true None) 2000) scenario.bob
                          eq_refl _)) eq_refl).
  vm_compute. discriminate.
Defined.

Lemma CreateURL_generation_exhausted_witness :
  count is_exists
    (trace scenario.saturated
       (services.CreateURL example.url_Parse example.baseURL scenario.shorten 1
          "203.0.113.9" "curl/8.0")
       (scenario.world (scenario.link true None) 2000)) = 10%nat.
Proof.
  refine (proj1 (proj2 (CreateURL_generation_exhausted scenario.saturated
                          example.url_Parse example.baseURL scenario.shorten 1
                          "203.0.113.9" "curl/8.0"
                          (scenario.world (scenario.link true None) 2000) scenario.alice
                          eq_refl eq_refl eq_refl eq_refl _))).
  intros c w'. reflexivity.
Defined.

Lemma CreateURL_insert_refused_witness :
  fst (run scenario.racing
         (services.CreateURL example.url_Parse example.baseURL scenario.shorten_as 1
            "203.0.113.9" "curl/8.0")
         (scenario.world (scenario.link true None) 2000))
  = fail (appError (NewDatabaseError "Failed to create URL"
            (Some (errorString
               "failed to create URL: pq: duplicate key value violates unique constraint urls_short_code_key")))).
Proof.
  refine (proj1 (CreateURL_insert_refused scenario.racing example.url_Parse
                   example.baseURL scenario.shorten_as 1 "203.0.113.9" "curl/8.0"
                   (scenario.world (scenario.link true None) 2000) _ _)).
  vm_compute. do 4 apply Exists_cons_tl. apply Exists_cons_hd. reflexivity.
Defined.

(** C5 as stated fails. Another session takes the code between the
    existence check and the insert; the store refuses the insert for the
    uniqueness of [short_code]. With a custom code the call returns the
    database error, not the already-exists error; with a generated code it
    returns the database error too, after its single existence check. *)
Lemma unique_violation_counterexample :
  let dup := errorString
    "failed to create URL: pq: duplicate key value violates unique constraint urls_short_code_key" in
  let w := scenario.world (scenario.link true None) 2000 in
  let custom := services.CreateURL example.url_Parse example.baseURL scenario.shorten_as 1
                  "203.0.113.9" "curl/8.0" in
  let random := services.CreateURL example.url_Parse example.baseURL scenario.shorten 1
                  "203.0.113.9" "curl/8.0" in
  Exists (insert_failed_with dup) (trace scenario.racing custom w)
  /\ fst (run scenario.racing custom w)
     = fail (appError (NewDatabaseError "Failed to create URL" (Some dup)))
  /\ fst (run scenario.racing custom w)
     <> fail (appError (NewAlreadyExistsError "Custom short code already exists" None))
  /\ Exists (insert_failed_with dup) (trace scenario.racing random w)
  /\ count is_exists (trace scenario.racing random w) = 1%nat
  /\ fst (run scenario.racing random w)
     = fail (appError (NewDatabaseError "Failed to create URL" (Some dup))).
Proof.
  cbv zeta.
  split; [vm_compute; do 4 apply Exists_cons_tl; apply Exists_cons_hd; reflexivity|].
  split; [vm_compute; reflexivity|].
  split; [vm_compute; discriminate|].
  split; [vm_compute; do 12 apply Exists_cons_tl; apply Exists_cons_hd; reflexivity|].
  split; vm_compute; reflexivity.
Qed.

End quota_facts.

(** ** Ownership and what the caller is told *)

Module ownership_facts.

Import errors models effects validation store effects_facts store_facts.

Lemma DeleteURL_not_owned (w : World) (shortCode : string) (userID : Z) :
  shortCode <> EmptyString ->
  owned_row shortCode userID w = false ->
  fst (run db (handlers.DeleteURL shortCode (Some userID)) w)
  = (StatusForbidden,
     handlers.JSONError
       (ToErrorResponse (NewForbiddenError "URL not found or access denied" None))).
Proof.
  intros Hne Hown. unfold handlers.DeleteURL, services.DeleteURL.
  rewrite (eqb_nonempty _ Hne). cbn. rewrite Hown. reflexivity.
Qed.

Lemma UpdateURL_not_owned (url_Parse : string -> result ParsedURL) (w : World)
    (shortCode : string) (userID : Z) (req : UpdateURLRequest) :
  shortCode <> EmptyString ->
  owned_row shortCode userID w = false ->
  snd (fst (run db (UpdateURLRequest_Validate url_Parse req) w)) = None ->
  fst (run db (handlers.UpdateURL url_Parse shortCode (Some userID) (ok req)) w)
  = (StatusForbidden,
     handlers.JSONError
       (ToErrorResponse (NewForbiddenError "URL not found or access denied" None))).
Proof.
  intros Hne Hown Hvalid. unfold handlers.UpdateURL, services.UpdateURL.
  rewrite (eqb_nonempty _ Hne). rewrite !run_bind.
  destruct (UpdateURLRequest_Validate_db url_Parse req w) as (_ & _ & Hu & _).
  destruct (run db (UpdateURLRequest_Validate url_Parse req) w) as [[req' verr] w1].
  cbn [fst snd] in *. subst verr. cbn.
  assert (Hown1 : owned_row shortCode userID w1 = false)
    by (unfold owned_row in *; rewrite Hu; exact Hown).
  rewrite Hown1. reflexivity.
Qed.

(** C1, amended. An update (with a patch that passes validation) or a delete
    of a stored code by someone who is not its owner is answered with the
    forbidden error as the service raised it: status 403, code FORBIDDEN,
    message [URL not found or access denied]. It is not turned into the
    not-found error. A code that is not stored at all gets the very same
    answer. The table holds no row under the empty code, which the service
    never stores. *)
Theorem non_owner_gets_forbidden (url_Parse : string -> result ParsedURL) (w : World)
    (shortCode : string) (userID : Z) (r : Row) :
  urls w !! EmptyString = None ->
  urls w !! shortCode = Some r ->
  user_id r <> userID ->
  let forbidden : handlers.Response :=
    (403, handlers.JSONError
            (mkErrorResponse
               (mkErrorDetail ErrCodeForbidden "URL not found or access denied"
                  EmptyString))) in
  fst (run db (handlers.DeleteURL shortCode (Some userID)) w) = forbidden
  /\ (forall req : UpdateURLRequest,
        snd (fst (run db (UpdateURLRequest_Validate url_Parse req) w)) = None ->
        fst (run db (handlers.UpdateURL url_Parse shortCode (Some userID) (ok req)) w)
        = forbidden)
  /\ (forall absent : string,
        absent <> EmptyString -> urls w !! absent = None ->
        fst (run db (handlers.DeleteURL absent (Some userID)) w) = forbidden
        /\ forall req : UpdateURLRequest,
            snd (fst (run db (UpdateURLRequest_Validate url_Parse req) w)) = None ->
            fst (run db (handlers.UpdateURL url_Parse absent (Some userID) (ok req)) w)
            = forbidden).
Proof.
  intros Hinv Hrow Hother forbidden.
  pose proof (stored_code_nonempty _ _ _ Hinv Hrow) as Hne.
  assert (Hown : owned_row shortCode userID w = false).
  { unfold owned_row. rewrite Hrow. apply Z.eqb_neq. exact Hother. }
  split; [exact (DeleteURL_not_owned w shortCode userID Hne Hown)|].
  split; [intros req Hv; exact (UpdateURL_not_owned url_Parse w _ _ req Hne Hown Hv)|].
  intros absent Hne' Habsent.
  assert (Hown' : owned_row absent userID w = false)
    by (unfold owned_row; rewrite Habsent; reflexivity).
  split; [exact (DeleteURL_not_owned w absent userID Hne' Hown')|].
  intros req Hv. exact (UpdateURL_not_owned url_Parse w _ _ req Hne' Hown' Hv).
Qed.

Lemma non_owner_gets_forbidden_witness :
  fst (run db (handlers.DeleteURL scenario.code (Some 2))
         (scenario.world (scenario.link true None) 2000))
  = (403, handlers.JSONError
            (mkErrorResponse
               (mkErrorDetail ErrCodeForbidden "URL not found or access denied"
                  EmptyString))).
Proof.
  refine (proj1 (non_owner_gets_forbidden example.url_Parse
                   (scenario.world (scenario.link true None) 2000)
                   scenario.code 2 (scenario.link true None) eq_refl eq_refl _)).
  vm_compute. discriminate.
Defined.

(** C1 as stated fails: user 2 deletes, then patches, the link of user 1; the
    service raises the forbidden error and the caller receives status 403
    with code FORBIDDEN, not the not-found error with status 404. *)
Lemma non_owner_counterexample :
  let w := scenario.world (scenario.link true None) 2000 in
  fst (run db (services.DeleteURL scenario.code 2) w)
    = Some (appError (NewForbiddenError "URL not found or access denied" None))
  /\ fst (fst (run db (handlers.DeleteURL scenario.code (Some 2)) w)) = 403
  /\ fst (fst (run db (handlers.DeleteURL scenario.code (Some 2)) w)) <> StatusNotFound
  /\ fst (run db (handlers.DeleteURL scenario.code (Some 2)) w)
     <> handlers.handleError (appError (NewNotFoundError "URL not found" None))
  /\ fst (run db (services.UpdateURL example.url_Parse scenario.code scenario.deactivate 2) w)
     = fail (appError (NewForbiddenError "URL not found or access denied" None))
  /\ fst (fst (run db (handlers.UpdateURL example.url_Parse scenario.code (Some 2)
                         (ok scenario.deactivate)) w)) = 403.
Proof.
  cbv zeta. repeat split; vm_compute; congruence.
Qed.

End ownership_facts.

(** ** The short-code generator *)

Module generator_facts.

Import errors models effects store effects_facts.

Lemma get_In (s : string) (k : nat) (c : ascii) :
  String.get k s = Some c -> In c (list_ascii_of_string s).
Proof.
  revert k. induction s as [|a s IH]; intros k H; [discriminate|].
  destruct k as [|k]; simpl in H.
  - injection H as ->. left. reflexivity.
  - right. exact (IH k H).
Qed.

Lemma get_Some (s : string) (k : nat) :
  (k < String.length s)%nat -> exists c : ascii, String.get k s = Some c.
Proof.
  revert k. induction s as [|a s IH]; intros k H; simpl in H; [lia|].
  destruct k as [|k]; simpl; [eexists; reflexivity | apply IH; lia].
Qed.

Lemma charset_at_In (i : Z) :
  0 <= i < 62 -> In (services.charset_at i) (list_ascii_of_string services.charset).
Proof.
  intros Hi. unfold services.charset_at.
  destruct (get_Some services.charset (Z.to_nat i)) as [c Hc];
    [change (String.length services.charset) with 62%nat; lia|].
  rewrite Hc. exact (get_In _ _ _ Hc).
Qed.

Lemma length_string_of_list_ascii (l : list ascii) :
  String.length (string_of_list_ascii l) = List.length l.
Proof. induction l as [|c l IH]; simpl; [reflexivity | rewrite IH; reflexivity]. Qed.

Section AnyHandler.

Context {W : Type}.
Variable h : handler W.

Lemma fill_shape (n : nat) (w : W) :
  List.length (fst (run h (services.fill n) w)) = n
  /\ Forall (fun c => In c (list_ascii_of_string services.charset))
       (fst (run h (services.fill n) w)).
Proof.
  revert w. induction n as [|n IH]; intros w; [split; [reflexivity | constructor]|].
  cbn [services.fill services.randomInt bind call run].
  destruct (h ascii RandRead w) as [b w1]. rewrite run_bind.
  destruct (IH w1) as [Hlen Hall]. cbn [run fst]. split; [simpl; rewrite Hlen; reflexivity|].
  constructor; [|exact Hall].
  apply charset_at_In. change (Z.of_nat (String.length services.charset)) with 62.
  apply Z.rem_bound_pos; lia.
Qed.

(** Whatever the random source yields, [generateShortCode] returns eight
    characters of the alphabet. *)
Lemma generateShortCode_shape (w : W) :
  String.length (fst (run h services.generateShortCode w)) = 8%nat
  /\ Forall (fun c => In c (list_ascii_of_string services.charset))
       (list_ascii_of_string (fst (run h services.generateShortCode w))).
Proof.
  unfold services.generateShortCode. rewrite run_bind. cbn [run fst].
  destruct (fill_shape services.length w) as [Hlen Hall].
  rewrite list_ascii_of_string_of_list_ascii. split; [|exact Hall].
  rewrite length_string_of_list_ascii. exact Hlen.
Qed.

End AnyHandler.

(** C7. The generator returns eight characters of the alphabet, but the
    characters are not equally likely: of the 256 values of the random byte,
    five give [a] (0, 62, 124, 186, 248) and four give [i] (8, 70, 132, 194),
    since [randomInt] reduces the byte modulo 62 and 256 is no multiple of
    62. *)
Theorem generateShortCode_modulo_bias :
  (forall (W : Type) (h : handler W) (w : W),
      String.length (fst (run h services.generateShortCode w)) = 8%nat
      /\ Forall (fun c => In c (list_ascii_of_string services.charset))
           (list_ascii_of_string (fst (run h services.generateShortCode w))))
  /\ (let drawn (b : ascii) : ascii :=
        services.charset_at
          (fst (run db (services.randomInt 62)
                  (set_entropy [b] (scenario.world (scenario.link true None) 2000)))) in
      let bytes := map ascii_of_nat (seq 0 256) in
      filter (fun b => drawn b = "a"%char) bytes
        = ["000"; "062"; "124"; "186"; "248"]%char
      /\ filter (fun b => drawn b = "i"%char) bytes
        = ["008"; "070"; "132"; "194"]%char).
Proof.
  split; [intros W h w; apply generateShortCode_shape|].
  cbv zeta. split; vm_compute; reflexivity.
Qed.

End generator_facts.

(** ** Resolution against any implementation of the collaborators *)

Module resolution_facts.

Import errors models effects validation effects_facts.

(** Whoever implements the store, the clock and the cache, and whether or not
    the cache command succeeds: once the store has returned a record whose
    expiry lies before the clock's reading, [GetURL] asks the cache to drop the
    code and returns the expired error, whatever the record's [IsActive]. *)
Lemma GetURL_expired_any {W : Type} (h : handler W) (shortCode : string) (w : W)
    (url : URL) (t : Z) :
  shortCode <> EmptyString ->
  fst (h _ (URL_GetByShortCode shortCode) w) = ok url ->
  ExpiresAt url = Some t ->
  t < fst (h _ TimeNow (snd (h _ (URL_GetByShortCode shortCode) w))) ->
  fst (run h (services.GetURL shortCode) w)
    = fail (appError (NewExpiredError "URL has expired" None))
  /\ exists (now : Z) (o : option error),
      trace h (services.GetURL shortCode) w
      = [MkCall (URL_GetByShortCode shortCode) (ok url); MkCall TimeNow now;
         MkCall (Cache_DeleteURL shortCode) o].
Proof.
  intros Hne Hget Hexp Hpast. unfold services.GetURL.
  rewrite (proj2 (String.eqb_neq _ _) Hne). cbn [bind call run trace].
  destruct (h _ (URL_GetByShortCode shortCode) w) as [r w1]. cbn [fst snd] in *. subst r.
  unfold IsExpired. rewrite Hexp. cbn [bind call run trace].
  destruct (h Z TimeNow w1) as [now w2]. cbn [fst snd] in *.
  apply Z.ltb_lt in Hpast. rewrite Hpast. cbn [bind call run trace].
  destruct (h _ (Cache_DeleteURL shortCode) w2) as [o w3]. cbn [run trace fst].
  split; [reflexivity | exists now, o; reflexivity].
Qed.

End resolution_facts.

(** ** Stored codes are never empty

    [GetURL], [UpdateURL] and [DeleteURL] refuse the empty short code before
    they read the store; the service never stores a link under it. *)

Module invariant_facts.

Import errors models effects validation store effects_facts store_facts create_facts
  generator_facts quota_facts.

Lemma read_random_urls (w : World) : urls (snd (read_random w)) = urls w.
Proof. unfold read_random. destruct (entropy w); reflexivity. Qed.

Lemma fill_urls (n : nat) (w : World) :
  urls (snd (run db (services.fill n) w)) = urls w.
Proof.
  revert w. induction n as [|n IH]; intros w; [reflexivity|].
  cbn [services.fill services.randomInt bind call run db].
  destruct (read_random w) as [b w1] eqn:E. rewrite run_bind. cbn [run snd].
  rewrite IH, <- (read_random_urls w), E. reflexivity.
Qed.

Lemma attempts_urls (n : nat) (w : World) :
  urls (snd (run db (services.attempts n) w)) = urls w
  /\ forall c : string,
      fst (run db (services.attempts n) w) = ok c -> String.length c = 8%nat.
Proof.
  revert w. induction n as [|n IH]; intros w; [split; [reflexivity | discriminate]|].
  cbn [services.attempts]. rewrite run_bind.
  destruct (generateShortCode_shape db w) as [Hlen _].
  assert (Hu : urls (snd (run db services.generateShortCode w)) = urls w).
  { unfold services.generateShortCode. rewrite run_bind. apply fill_urls. }
  destruct (run db services.generateShortCode w) as [c w1]. cbn [fst snd] in *.
  cbn [bind call run db url_ExistsByShortCode].
  destruct (bool_decide (is_Some (urls w1 !! c))); cbn [negb run fst snd].
  - destruct (IH w1) as [IH1 IH2]. rewrite IH1. split; [exact Hu | exact IH2].
  - split; [exact Hu|]. intros c' [= <-]. exact Hlen.
Qed.

Lemma allocate_urls (customCode : string) (w : World) :
  urls (snd (run db (services.allocate customCode) w)) = urls w
  /\ forall c : string,
      fst (run db (services.allocate customCode) w) = ok c -> c <> EmptyString.
Proof.
  unfold services.allocate. destruct (String.eqb customCode EmptyString) eqn:E.
  - rewrite run_bind. unfold services.generateUniqueShortCode.
    destruct (attempts_urls services.maxAttempts w) as [Hu Hlen].
    destruct (run db (services.attempts services.maxAttempts) w) as [[c|err] w1];
      cbn [fst snd run] in *; (split; [exact Hu|]); [|discriminate].
    intros c' [= <-] ->. specialize (Hlen EmptyString eq_refl). discriminate.
  - cbn [bind call run db url_ExistsByShortCode].
    destruct (bool_decide (is_Some (urls w !! customCode))); cbn [run fst snd];
      (split; [reflexivity|]); [discriminate|].
    intros c [= <-]. apply String.eqb_neq. exact E.
Qed.

Lemma persist_urls (baseURL : string) (req : CreateURLRequest) (userID : Z)
    (clientIP userAgent shortCode : string) (w : World) :
  shortCode <> EmptyString ->
  urls w !! EmptyString = None ->
  urls (snd (run db (services.persist baseURL req userID clientIP userAgent shortCode) w))
    !! EmptyString = None.
Proof.
  intros Hne Hinv. unfold services.persist. cbn [bind call run db].
  destruct (read_clock w) as [t1 w1] eqn:E1. cbn [bind call run db].
  destruct (read_clock w1) as [t2 w2] eqn:E2. cbn [bind call run db].
  assert (Hu : urls w2 = urls w).
  { rewrite <- (read_clock_urls w), E1. cbn [snd].
    rewrite <- (read_clock_urls w1), E2. reflexivity. }
  unfold url_Create. cbn [ShortCode]. rewrite Hu.
  destruct (urls w !! shortCode); cbn; [rewrite Hu; exact Hinv|].
  rewrite lookup_insert_ne; [exact Hinv | exact Hne].
Qed.

(** Each of the four operations keeps the empty code out of table [urls]. *)
Lemma empty_code_never_stored (url_Parse : string -> result ParsedURL) (baseURL : string)
    (w : World) :
  urls w !! EmptyString = None ->
  (forall req userID clientIP userAgent,
      urls (snd (run db (services.CreateURL url_Parse baseURL req userID clientIP
                           userAgent) w)) !! EmptyString = None)
  /\ (forall shortCode req userID,
        urls (snd (run db (services.UpdateURL url_Parse shortCode req userID) w))
          !! EmptyString = None)
  /\ (forall shortCode userID,
        urls (snd (run db (services.DeleteURL shortCode userID) w)) !! EmptyString = None)
  /\ (forall shortCode,
        urls (snd (run db (services.GetURL shortCode) w)) !! EmptyString = None).
Proof.
  intros Hinv. split; [|split; [|split]].
  - intros req userID clientIP userAgent. rewrite CreateURL_run. cbv zeta.
    destruct (CreateURLRequest_Validate_db url_Parse req w) as [_ Hu].
    destruct (run db (CreateURLRequest_Validate url_Parse req) w) as [[req' verr] w1].
    cbn [fst snd] in *. destruct verr as [err|]; [cbn; rewrite Hu; exact Hinv|].
    cbn [db user_GetByID fst snd].
    destruct (users w1 !! userID) as [user|]; [|cbn; rewrite Hu; exact Hinv].
    destruct (negb (CanCreateLink user)); [cbn; rewrite Hu; exact Hinv|].
    destruct (allocate_urls (Create_CustomCode req') w1) as [Ha Hc].
    destruct (run db (services.allocate (Create_CustomCode req')) w1) as [[c|err] w2];
      cbn [fst snd] in *; [|rewrite Ha, Hu; exact Hinv].
    apply persist_urls; [apply Hc; reflexivity | rewrite Ha, Hu; exact Hinv].
  - intros shortCode req userID.
    destruct (UpdateURL_db url_Parse shortCode req userID w _ eq_refl)
      as [(e & _ & Hu) | (r & r' & u' & _ & Hrow & _ & Hu & _)].
    + rewrite Hu. exact Hinv.
    + rewrite Hu, lookup_insert_ne; [exact Hinv|]. intros ->. congruence.
  - intros shortCode userID. unfold services.DeleteURL.
    destruct (String.eqb shortCode EmptyString); [exact Hinv|].
    cbn. destruct (owned_row shortCode userID w) eqn:Hown; cbn; [|exact Hinv].
    unfold url_DeleteByUser.
    change (owned_row shortCode userID (set_redis (delete (url_key shortCode) (redis w)) w))
      with (owned_row shortCode userID w).
    rewrite Hown. cbn. rewrite lookup_delete_ne; [exact Hinv|].
    intros ->. unfold owned_row in Hown. cbn in Hown. rewrite Hinv in Hown. discriminate.
  - intros shortCode. destruct (String.eqb shortCode EmptyString) eqn:E.
    + unfold services.GetURL. rewrite E. exact Hinv.
    + apply String.eqb_neq in E. rewrite (GetURL_db _ _ E).
      destruct (urls w !! shortCode) as [r|]; [|exact Hinv].
      destruct (expires_at r) as [t|].
      * destruct (t <? now w); [|destruct (negb (is_active r))];
          cbn -[read_clock]; rewrite read_clock_urls; exact Hinv.
      * destruct (negb (is_active r)); exact Hinv.
Qed.

End invariant_facts.

(** * Further properties of the code *)

(** ** What the validators accept *)

Module validation_facts.

Import strings errors models effects validation effects_facts.

(** Whatever the input, the normalised URL begins with one of the two scheme
    prefixes. *)
Theorem normalize_has_scheme (s : string) :
  HasPrefix (normalize s) "http://" = true \/ HasPrefix (normalize s) "https://" = true.
Proof.
  unfold normalize. cbv zeta.
  destruct (negb (HasPrefix (TrimSpace s) "http://")
            && negb (HasPrefix (TrimSpace s) "https://")) eqn:E.
  - right. unfold HasPrefix. simpl. destruct (TrimSpace s); reflexivity.
  - apply andb_false_iff in E as [E|E]; apply negb_false_iff in E; auto.
Qed.

(** X1. The custom codes the validator lets through: none at all, or 3 to 20
    bytes, each a letter, a digit or a hyphen. *)
Theorem check_custom_code_accepts (code : string) :
  check_custom_code code = None <->
  code = EmptyString
  \/ ((3 <= String.length code <= 20)%nat
      /\ Forall (fun c => code_char_ok c = true) (list_ascii_of_string code)).
Proof.
  unfold check_custom_code.
  destruct (String.eqb_spec code EmptyString) as [->|Hne]; cbn [negb];
    [split; auto|].
  destruct (Nat.ltb_spec (String.length code) 3) as [H3|H3]; cbn [orb].
  { split; [discriminate | intros [?|[? _]]; [contradiction | lia]]. }
  destruct (Nat.ltb_spec 20 (String.length code)) as [H20|H20].
  { split; [discriminate | intros [?|[? _]]; [contradiction | lia]]. }
  destruct (forallb code_char_ok (list_ascii_of_string code)) eqn:E; cbn [negb].
  - split; [|reflexivity]. intros _. right. split; [lia|].
    apply Forall_forall. intros c Hc. apply (proj1 (forallb_forall _ _) E).
    apply list_elem_of_In. exact Hc.
  - split; [discriminate|]. intros [?|[_ Hall]]; [contradiction|].
    assert (forallb code_char_ok (list_ascii_of_string code) = true); [|congruence].
    apply forallb_forall. intros c Hc.
    apply (proj1 (Forall_forall _ _) Hall). apply list_elem_of_In. exact Hc.
Qed.


Section AnyHandler.

Context {W : Type}.
Variable h : handler W.
Variable url_Parse : string -> result ParsedURL.

Lemma expiry_in_past_reading (o : option Z) (w : W) :
  fst (run h (expiry_in_past o) w)
  = match o with Some t => t <? fst (h Z TimeNow w) | None => false end.
Proof.
  destruct o as [t|]; [|reflexivity]. cbn. destruct (h Z TimeNow w). reflexivity.
Qed.

Lemma CreateURLRequest_Validate_None (req : CreateURLRequest) (w : W) :
  snd (fst (run h (CreateURLRequest_Validate url_Parse req) w)) = None ->
  let req' := fst (fst (run h (CreateURLRequest_Validate url_Parse req) w)) in
  Create_URL req <> EmptyString
  /\ Create_URL req' = normalize (Create_URL req)
  /\ Create_CustomCode req' = Create_CustomCode req
  /\ Create_ExpiresAt req' = Create_ExpiresAt req
  /\ (exists p : ParsedURL,
        url_Parse (Create_URL req') = ok p
        /\ Scheme p <> EmptyString /\ Host p <> EmptyString)
  /\ check_custom_code (Create_CustomCode req) = None
  /\ (forall t : Z, Create_ExpiresAt req = Some t -> fst (h Z TimeNow w) <= t).
Proof.
  unfold CreateURLRequest_Validate.
  destruct (String.eqb_spec (Create_URL req) EmptyString) as [E|E];
    [cbn; discriminate|].
  cbv zeta. cbn [Create_URL Create_CustomCode Create_ExpiresAt].
  unfold check_url.
  destruct (url_Parse (normalize (Create_URL req))) as [p|err] eqn:Ep;
    [|cbn; discriminate].
  destruct (String.eqb_spec (Scheme p) EmptyString) as [Es|Es]; [cbn; discriminate|].
  destruct (String.eqb_spec (Host p) EmptyString) as [Eh|Eh]; [cbn; discriminate|].
  cbn [orb].
  destruct (check_custom_code (Create_CustomCode req)) as [err|] eqn:Ec;
    [cbn; discriminate|].
  rewrite !run_bind. rewrite expiry_in_past_reading.
  destruct (Create_ExpiresAt req) as [t|] eqn:Et.
  - destruct (Z.ltb_spec t (fst (h Z TimeNow w))) as [Hlt|Hge]; cbn; [discriminate|].
    intros _. repeat split; try assumption; try reflexivity.
    + exists p. repeat split; assumption.
    + intros t' [= <-]. exact Hge.
  - cbn. intros _. repeat split; try assumption; try reflexivity.
    + exists p. repeat split; assumption.
    + discriminate.
Qed.

(** X2. A create request that passes validation comes back with its URL
    normalised, a URL in which the parser finds a scheme and a host, a custom
    code of the accepted form, and an expiry, if any, not before the clock's
    reading (an expiry equal to the reading passes). *)
Theorem CreateURLRequest_Validate_accepted (req : CreateURLRequest) (w : W) :
  snd (fst (run h (CreateURLRequest_Validate url_Parse req) w)) = None ->
  let req' := fst (fst (run h (CreateURLRequest_Validate url_Parse req) w)) in
  Create_URL req <> EmptyString
  /\ Create_URL req' = normalize (Create_URL req)
  /\ Create_CustomCode req' = Create_CustomCode req
  /\ Create_ExpiresAt req' = Create_ExpiresAt req
  /\ (exists p : ParsedURL,
        url_Parse (Create_URL req') = ok p
        /\ Scheme p <> EmptyString /\ Host p <> EmptyString)
  /\ check_custom_code (Create_CustomCode req) = None
  /\ (forall t : Z, Create_ExpiresAt req = Some t -> fst (h Z TimeNow w) <= t).
Proof. exact (CreateURLRequest_Validate_None req w). Qed.

(** A request whose expiry lies before the clock's reading is refused. *)
Theorem CreateURLRequest_Validate_past_expiry (req : CreateURLRequest) (w : W) (t : Z) :
  Create_ExpiresAt req = Some t ->
  t < fst (h Z TimeNow w) ->
  snd (fst (run h (CreateURLRequest_Validate url_Parse req) w)) <> None.
Proof.
  intros Ht Hpast Hok.
  destruct (CreateURLRequest_Validate_None req w Hok) as (_ & _ & _ & _ & _ & _ & Hexp).
  specialize (Hexp t Ht). lia.
Qed.

End AnyHandler.

Lemma CreateURLRequest_Validate_accepted_witness :
  Create_URL (fst (fst (run store.db
                          (CreateURLRequest_Validate example.url_Parse
                             (mkCreateURLRequest "  example.com/a " "my-link" (Some 2000)))
                          (scenario.world (scenario.link true None) 2000))))
  = "https://example.com/a".
Proof.
  refine (proj1 (proj2 (CreateURLRequest_Validate_accepted store.db example.url_Parse
                          (mkCreateURLRequest "  example.com/a " "my-link" (Some 2000))
                          (scenario.world (scenario.link true None) 2000) eq_refl))).
Defined.

Lemma CreateURLRequest_Validate_past_expiry_witness :
  snd (fst (run store.db
              (CreateURLRequest_Validate example.url_Parse
                 (mkCreateURLRequest "example.com" EmptyString (Some 1999)))
              (scenario.world (scenario.link true None) 2000))) <> None.
Proof.
  refine (CreateURLRequest_Validate_past_expiry store.db example.url_Parse
            (mkCreateURLRequest "example.com" EmptyString (Some 1999))
            (scenario.world (scenario.link true None) 2000) 1999 eq_refl eq_refl).
Defined.

End validation_facts.

(** ** Generated codes and the generation loop *)

Module generation_bounds.

Import strings errors models effects validation effects_facts generation_facts
  generator_facts validation_facts.

Lemma charset_ok :
  forallb code_char_ok (list_ascii_of_string services.charset) = true.
Proof. reflexivity. Qed.

Section AnyHandler.

Context {W : Type}.
Variable h : handler W.

(** X3. A generated code has the form the validator asks of a custom code. *)
Theorem generated_code_is_valid_custom_code (w : W) :
  check_custom_code (fst (run h services.generateShortCode w)) = None.
Proof.
  destruct (generateShortCode_shape h w) as [Hlen Hall].
  unfold check_custom_code.
  set (code := fst (run h services.generateShortCode w)) in *.
  assert (Hne : String.eqb code EmptyString = false)
    by (destruct code; [discriminate Hlen | reflexivity]).
  assert (Hok : forallb code_char_ok (list_ascii_of_string code) = true).
  { apply forallb_forall. intros c Hc.
    apply (proj1 (forallb_forall _ _) charset_ok).
    apply (proj1 (Forall_forall _ _) Hall). apply list_elem_of_In. exact Hc. }
  rewrite Hne, Hlen, Hok. reflexivity.
Qed.

Lemma attempts_bound (n : nat) (w : W) :
  (count is_exists (trace h (services.attempts n) w) <= n)%nat
  /\ count is_rand (trace h (services.attempts n) w)
     = (8 * count is_exists (trace h (services.attempts n) w))%nat
  /\ forall c : string,
      fst (run h (services.attempts n) w) = ok c ->
      String.length c = 8%nat
      /\ exists pre : list Call,
          trace h (services.attempts n) w
          = pre ++ [MkCall (URL_ExistsByShortCode c) (ok false)].
Proof.
  revert w. induction n as [|n IH]; intros w.
  { split; [reflexivity|]. split; [reflexivity | discriminate]. }
  cbn [services.attempts]. rewrite run_bind, !trace_bind, !count_app.
  destruct (generateShortCode_counts h w) as (-> & -> & _).
  destruct (generateShortCode_shape h w) as [Hlen _].
  set (tg := trace h services.generateShortCode w).
  destruct (run h services.generateShortCode w) as [c w1]. cbn [fst snd] in *.
  cbn [bind call run trace].
  destruct (h _ (URL_ExistsByShortCode c) w1) as [r w2].
  rewrite !count_cons. cbn [is_exists is_rand].
  change (count is_exists []) with 0%nat. change (count is_rand []) with 0%nat.
  destruct r as [[|]|err]; cbn [negb run trace fst snd app].
  - destruct (IH w2) as (IH1 & IH2 & IH3). rewrite IH2.
    split; [lia|]. split; [lia|].
    intros c' Hc'. destruct (IH3 c' Hc') as [Hl [pre Hpre]].
    split; [exact Hl|]. exists (tg ++ MkCall (URL_ExistsByShortCode c) (ok true) :: pre).
    rewrite Hpre, <- app_assoc. reflexivity.
  - change (count is_exists []) with 0%nat. change (count is_rand []) with 0%nat.
    split; [lia|]. split; [lia|].
    intros c' [= <-]. split; [exact Hlen|]. exists tg. reflexivity.
  - change (count is_exists []) with 0%nat. change (count is_rand []) with 0%nat.
    split; [lia|]. split; [lia | discriminate].
Qed.

(** X4. Whatever the store answers, [generateUniqueShortCode] makes at most 10
    existence checks, reads 8 random bytes for each, and when it returns a
    code, that code has 8 characters and is the one the store last reported
    as free. *)
Theorem generateUniqueShortCode_bounded (w : W) :
  (count is_exists (trace h services.generateUniqueShortCode w) <= 10)%nat
  /\ count is_rand (trace h services.generateUniqueShortCode w)
     = (8 * count is_exists (trace h services.generateUniqueShortCode w))%nat
  /\ count is_insert (trace h services.generateUniqueShortCode w) = 0%nat
  /\ forall c : string,
      fst (run h services.generateUniqueShortCode w) = ok c ->
      String.length c = 8%nat
      /\ exists pre : list Call,
          trace h services.generateUniqueShortCode w
          = pre ++ [MkCall (URL_ExistsByShortCode c) (ok false)].
Proof.
  unfold services.generateUniqueShortCode.
  destruct (attempts_bound services.maxAttempts w) as (H1 & H2 & H3).
  split; [exact H1|]. split; [exact H2|]. split; [apply attempts_no_insert | exact H3].
Qed.

End AnyHandler.

End generation_bounds.

(** ** The errors of the service *)

Module error_facts.

Import strings errors models effects validation effects_facts create_facts.

Section AnyHandler.

Context {W : Type}.
Variable h : handler W.
Variable url_Parse : string -> result ParsedURL.
Variable baseURL : string.

Ltac app_error :=
  first [ discriminate
        | intros [= <-]; eexists; split; [reflexivity | cbn; auto 10] ].

Lemma allocate_errors (customCode : string) (w : W) (e : error) :
  fst (run h (services.allocate customCode) w) = fail e ->
  exists a : AppError, e = appError a /\ In (StatusCode a) [409; 500].
Proof.
  unfold services.allocate. destruct (String.eqb customCode EmptyString).
  - rewrite run_bind.
    destruct (fst (run h services.generateUniqueShortCode w)); cbn; app_error.
  - cbn. destruct (h _ _ w) as [[[|]|err] w1]; cbn; app_error.
Qed.

Lemma persist_errors (req : CreateURLRequest) (userID : Z) (clientIP userAgent : string)
    (shortCode : string) (w : W) (e : error) :
  fst (run h (services.persist baseURL req userID clientIP userAgent shortCode) w)
    = fail e ->
  exists a : AppError, e = appError a /\ In (StatusCode a) [500].
Proof.
  unfold services.persist. cbn [bind call run].
  destruct (h Z TimeNow w) as [t1 w1]. cbn [bind call run].
  destruct (h Z TimeNow w1) as [t2 w2]. cbn [bind call run].
  destruct (h _ (URL_Create _) w2) as [[u|err] w3]; cbn [bind call run].
  - destruct (h _ (Cache_SetURL _ _ _) w3) as [o w4]. cbn. app_error.
  - cbn. app_error.
Qed.

(** Every error [CreateURL] returns is an [AppError], with status 400, 409 or
    500, whoever implements the collaborators and whatever they answer. *)
Lemma CreateURL_errors (req : CreateURLRequest) (userID : Z)
    (clientIP userAgent : string) (w : W) (e : error) :
  fst (run h (services.CreateURL url_Parse baseURL req userID clientIP userAgent) w)
    = fail e ->
  exists a : AppError, e = appError a /\ In (StatusCode a) [400; 409; 500].
Proof.
  rewrite CreateURL_run. cbv zeta.
  destruct (run h (CreateURLRequest_Validate url_Parse req) w) as [[req' verr] w1].
  cbn [fst snd]. destruct verr as [err|]; [cbn; app_error|].
  destruct (h _ (User_GetByID userID) w1) as [[user|err] w2]; cbn [fst snd];
    [|cbn; app_error].
  destruct (negb (CanCreateLink user)); [cbn; app_error|].
  destruct (run h (services.allocate (Create_CustomCode req')) w2) as [[c|err] w3] eqn:Ea;
    cbn [fst snd].
  - intros He. destruct (persist_errors _ _ _ _ _ _ _ He) as (a & -> & Ha).
    exists a. split; [reflexivity|]. cbn in Ha. destruct Ha as [<-|[]]. cbn. auto.
  - intros [= <-].
    destruct (allocate_errors (Create_CustomCode req') w2 err) as (a & -> & Ha);
      [rewrite Ea; reflexivity|].
    exists a. split; [reflexivity|]. cbn in Ha. destruct Ha as [<-|[<-|[]]]; cbn; auto.
Qed.

(** Every error [GetURL] returns is an [AppError], with status 400, 404, 410
    or 500. *)
Lemma GetURL_errors (shortCode : string) (w : W) (e : error) :
  fst (run h (services.GetURL shortCode) w) = fail e ->
  exists a : AppError, e = appError a /\ In (StatusCode a) [400; 404; 410; 500].
Proof.
  unfold services.GetURL.
  destruct (String.eqb shortCode EmptyString); [cbn; app_error|].
  cbn [bind call run].
  destruct (h _ (URL_GetByShortCode shortCode) w) as [[url|err] w1]; cbn [bind call run].
  - rewrite run_bind. destruct (fst (run h (IsExpired url) w1)).
    + cbn [bind call run]. destruct (h _ _ _) as [o w2]. cbn. app_error.
    + destruct (negb (IsActive url)); cbn [bind call run];
        destruct (h _ _ _) as [o w2]; cbn; app_error.
  - destruct (Contains (Error err) "not found"); cbn; app_error.
Qed.

(** Every error [DeleteURL] returns is an [AppError], with status 400, 403 or
    500. *)
Lemma DeleteURL_errors (shortCode : string) (userID : Z) (w : W) (e : error) :
  fst (run h (services.DeleteURL shortCode userID) w) = Some e ->
  exists a : AppError, e = appError a /\ In (StatusCode a) [400; 403; 500].
Proof.
  unfold services.DeleteURL.
  destruct (String.eqb shortCode EmptyString); [cbn; app_error|].
  cbn [bind call run].
  destruct (h _ (URL_CheckOwnership shortCode userID) w) as [[[|]|err] w1];
    cbn [negb bind call run]; [|cbn; app_error..].
  destruct (h _ (Cache_DeleteURL shortCode) w1) as [o w2]. cbn [bind call run].
  destruct (h _ (URL_DeleteByUser shortCode userID) w2) as [[err|] w3]; cbn; app_error.
Qed.

(** Every error [UpdateURL] returns is an [AppError], with status 400, 403 or
    500. *)
Lemma UpdateURL_errors (shortCode : string) (req : UpdateURLRequest) (userID : Z)
    (w : W) (e : error) :
  fst (run h (services.UpdateURL url_Parse shortCode req userID) w) = fail e ->
  exists a : AppError, e = appError a /\ In (StatusCode a) [400; 403; 500].
Proof.
  unfold services.UpdateURL.
  destruct (String.eqb shortCode EmptyString); [cbn; app_error|].
  rewrite run_bind.
  destruct (run h (UpdateURLRequest_Validate url_Parse req) w) as [[req' verr] w1].
  cbn [fst snd]. destruct verr as [err|]; [cbn; app_error|].
  cbn [bind call run].
  destruct (h _ (URL_CheckOwnership shortCode userID) w1) as [[[|]|err] w2];
    cbn [negb bind call run]; [|cbn; app_error..].
  destruct (h _ (URL_GetByShortCode shortCode) w2) as [[url|err] w3];
    cbn [bind call run]; [|cbn; app_error].
  destruct (services.apply_patch req' url) as [url' sc]. cbn [bind call run].
  destruct (h Z TimeNow w3) as [t w4]. cbn [bind call run].
  destruct (h _ (URL_Update _) w4) as [[u|err] w5]; [|cbn; app_error].
  rewrite run_bind. cbn. discriminate.
Qed.

End AnyHandler.

(** X5. Whoever implements the store, the cache, the clock and the random source,
    and whatever they answer, every error the four operations return is an
    [AppError] with a status of its operation's list; [handleError] then
    answers with that status and never with its bare fallback. *)
Theorem service_errors_are_AppErrors (W : Type) (h : handler W)
    (url_Parse : string -> result ParsedURL) (baseURL : string) (w : W) (e : error) :
  (forall req userID clientIP userAgent,
      fst (run h (services.CreateURL url_Parse baseURL req userID clientIP userAgent) w)
        = fail e ->
      exists a, e = appError a /\ In (StatusCode a) [400; 409; 500]
                /\ handlers.handleError e = (StatusCode a, handlers.JSONError (ToErrorResponse a)))
  /\ (forall shortCode,
        fst (run h (services.GetURL shortCode) w) = fail e ->
        exists a, e = appError a /\ In (StatusCode a) [400; 404; 410; 500]
                  /\ handlers.handleError e = (StatusCode a, handlers.JSONError (ToErrorResponse a)))
  /\ (forall shortCode req userID,
        fst (run h (services.UpdateURL url_Parse shortCode req userID) w) = fail e ->
        exists a, e = appError a /\ In (StatusCode a) [400; 403; 500]
                  /\ handlers.handleError e = (StatusCode a, handlers.JSONError (ToErrorResponse a)))
  /\ (forall shortCode userID,
        fst (run h (services.DeleteURL shortCode userID) w) = Some e ->
        exists a, e = appError a /\ In (StatusCode a) [400; 403; 500]
                  /\ handlers.handleError e = (StatusCode a, handlers.JSONError (ToErrorResponse a))).
Proof.
  split; [|split; [|split]].
  - intros req userID clientIP userAgent He.
    destruct (CreateURL_errors h url_Parse baseURL _ _ _ _ _ _ He) as (a & -> & Ha).
    exists a. repeat split; assumption.
  - intros shortCode He. destruct (GetURL_errors h _ _ _ He) as (a & -> & Ha).
    exists a. repeat split; assumption.
  - intros shortCode req userID He.
    destruct (UpdateURL_errors h url_Parse _ _ _ _ _ He) as (a & -> & Ha).
    exists a. repeat split; assumption.
  - intros shortCode userID He. destruct (DeleteURL_errors h _ _ _ _ He) as (a & -> & Ha).
    exists a. repeat split; assumption.
Qed.

End error_facts.

(** ** Reading and deleting links against the tables *)

Module lookup_facts.

Import strings errors models effects validation store effects_facts store_facts.

(** [GetURL] writes to no table: whatever the code and the outcome, tables
    [urls] and [users] and the sequence of ids are as before. *)
Theorem GetURL_reads_only (shortCode : string) (w : World) :
  urls (snd (run db (services.GetURL shortCode) w)) = urls w
  /\ users (snd (run db (services.GetURL shortCode) w)) = users w
  /\ urls_id_seq (snd (run db (services.GetURL shortCode) w)) = urls_id_seq w.
Proof.
  destruct (String.eqb_spec shortCode EmptyString) as [->|Hne];
    [repeat split|].
  rewrite (GetURL_db _ _ Hne).
  destruct (urls w !! shortCode) as [r|]; [|repeat split].
  assert (Hc : urls (snd (read_clock w)) = urls w
               /\ users (snd (read_clock w)) = users w
               /\ urls_id_seq (snd (read_clock w)) = urls_id_seq w).
  { unfold read_clock. destruct (ticks w); repeat split. }
  destruct (expires_at r) as [t|];
    [destruct (t <? now w)|]; [|destruct (negb (is_active r))..];
    cbn -[read_clock]; try exact Hc; repeat split.
Qed.

(** A code that is not stored: the not-found error, and neither the tables
    nor the cache nor the clock are touched. *)
Theorem GetURL_absent (shortCode : string) (w : World) :
  shortCode <> EmptyString ->
  urls w !! shortCode = None ->
  run db (services.GetURL shortCode) w
  = (fail (appError (NewNotFoundError "URL not found"
                       (Some (errorString "URL not found")))), w).
Proof. intros Hne Hrow. rewrite (GetURL_db _ _ Hne), Hrow. reflexivity. Qed.

Lemma GetURL_absent_witness :
  fst (run db (services.GetURL "nosuchcode")
         (scenario.world (scenario.link true None) 2000))
  = fail (appError (NewNotFoundError "URL not found"
                      (Some (errorString "URL not found")))).
Proof.
  rewrite (GetURL_absent "nosuchcode" (scenario.world (scenario.link true None) 2000));
    [reflexivity | discriminate | reflexivity].
Defined.

(** The outcome and the world of [GetURL] on a servable link. *)
Lemma GetURL_servable_run (shortCode : string) (w : World) (r : Row) :
  urls w !! EmptyString = None ->
  urls w !! shortCode = Some r ->
  is_active r = true ->
  (forall t : Z, expires_at r = Some t -> now w <= t) ->
  run db (services.GetURL shortCode) w
  = (ok (scan shortCode r),
     snd (cache_SetURL shortCode (original_url r) services.cacheTTL
            match expires_at r with Some _ => snd (read_clock w) | None => w end)).
Proof.
  intros Hinv Hrow Hact Hexp.
  rewrite (GetURL_db _ _ (stored_code_nonempty _ _ _ Hinv Hrow)), Hrow, Hact.
  destruct (expires_at r) as [t|]; [|reflexivity].
  specialize (Hexp t eq_refl). apply Z.ltb_ge in Hexp. rewrite Hexp. reflexivity.
Qed.

(** X6. A stored link that is active and whose expiry, if any, is not before the
    clock's reading (a link is still served at the very instant of its
    expiry): [GetURL] returns the record and leaves the cache holding its
    target for 24 hours. *)
Theorem GetURL_servable (shortCode : string) (w : World) (r : Row) :
  urls w !! EmptyString = None ->
  urls w !! shortCode = Some r ->
  is_active r = true ->
  (forall t : Z, expires_at r = Some t -> now w <= t) ->
  fst (run db (services.GetURL shortCode) w) = ok (scan shortCode r)
  /\ redis (snd (run db (services.GetURL shortCode) w)) !! url_key shortCode
     = Some (original_url r, 86400000000000).
Proof.
  intros Hinv Hrow Hact Hexp.
  rewrite (GetURL_db _ _ (stored_code_nonempty _ _ _ Hinv Hrow)), Hrow, Hact.
  destruct (expires_at r) as [t|].
  - specialize (Hexp t eq_refl). apply Z.ltb_ge in Hexp. rewrite Hexp.
    cbn -[read_clock]. split; [reflexivity|].
    rewrite read_clock_redis. apply lookup_insert_eq.
  - cbn. split; [reflexivity | apply lookup_insert_eq].
Qed.

Lemma GetURL_servable_witness :
  fst (run db (services.GetURL scenario.code)
         (scenario.world (scenario.link true (Some 2000)) 2000))
  = ok (scan scenario.code (scenario.link true (Some 2000))).
Proof.
  refine (proj1 (GetURL_servable scenario.code
                   (scenario.world (scenario.link true (Some 2000)) 2000)
                   (scenario.link true (Some 2000)) eq_refl eq_refl eq_refl _)).
  intros t [= <-]. vm_compute. discriminate.
Defined.

(** X7. A stored link that is not active and not expired: the inactive error, and
    when [GetURL] returns the cache has no entry for the code. *)
Theorem GetURL_inactive_evicts (shortCode : string) (w : World) (r : Row) :
  urls w !! EmptyString = None ->
  urls w !! shortCode = Some r ->
  is_active r = false ->
  (forall t : Z, expires_at r = Some t -> now w <= t) ->
  fst (run db (services.GetURL shortCode) w)
    = fail (appError (NewInactiveError "URL is not active" None))
  /\ cache_GetURL shortCode (snd (run db (services.GetURL shortCode) w)) = None.
Proof.
  intros Hinv Hrow Hact Hexp.
  rewrite (GetURL_db _ _ (stored_code_nonempty _ _ _ Hinv Hrow)), Hrow, Hact.
  destruct (expires_at r) as [t|].
  - specialize (Hexp t eq_refl). apply Z.ltb_ge in Hexp. rewrite Hexp.
    cbn -[read_clock cache_GetURL cache_DeleteURL].
    split; [reflexivity | apply cache_deleted].
  - cbn -[cache_GetURL cache_DeleteURL]. split; [reflexivity | apply cache_deleted].
Qed.

Lemma GetURL_inactive_evicts_witness :
  cache_GetURL scenario.code
    (snd (run db (services.GetURL scenario.code)
            (scenario.world (scenario.link false None) 2000))) = None.
Proof.
  refine (proj2 (GetURL_inactive_evicts scenario.code
                   (scenario.world (scenario.link false None) 2000)
                   (scenario.link false None) eq_refl eq_refl eq_refl _)).
  intros t. discriminate.
Defined.

(** What [DeleteURL] does against the tables, for a code that is not empty. *)
Lemma DeleteURL_db (shortCode : string) (userID : Z) (w : World) :
  shortCode <> EmptyString ->
  run db (services.DeleteURL shortCode userID) w =
  if owned_row shortCode userID w
  then (None, set_urls (delete shortCode (urls w))
                (set_redis (delete (url_key shortCode) (redis w)) w))
  else (Some (appError (NewForbiddenError "URL not found or access denied" None)), w).
Proof.
  intros Hne. unfold services.DeleteURL. rewrite (eqb_nonempty _ Hne). cbn.
  destruct (owned_row shortCode userID w) eqn:Hown; cbn; [|reflexivity].
  unfold url_DeleteByUser.
  change (owned_row shortCode userID (set_redis (delete (url_key shortCode) (redis w)) w))
    with (owned_row shortCode userID w).
  rewrite Hown. reflexivity.
Qed.

(** X8. The owner deletes a link: the row and the cache entry of the code are
    gone, every other row is as before, and a later [GetURL] of the code,
    whatever the cache and the clock have become, returns the not-found
    error. *)
Theorem DeleteURL_by_owner (shortCode : string) (userID : Z) (w : World) (r : Row) :
  urls w !! EmptyString = None ->
  urls w !! shortCode = Some r ->
  user_id r = userID ->
  let w' := snd (run db (services.DeleteURL shortCode userID) w) in
  fst (run db (services.DeleteURL shortCode userID) w) = None
  /\ urls w' = delete shortCode (urls w)
  /\ cache_GetURL shortCode w' = None
  /\ forall w2 : World,
      urls w2 = urls w' ->
      fst (run db (services.GetURL shortCode) w2)
      = fail (appError (NewNotFoundError "URL not found"
                          (Some (errorString "URL not found")))).
Proof.
  intros Hinv Hrow Hown w'. subst w'.
  pose proof (stored_code_nonempty _ _ _ Hinv Hrow) as Hne.
  rewrite (DeleteURL_db _ _ _ Hne). unfold owned_row. rewrite Hrow.
  rewrite (proj2 (Z.eqb_eq _ _) Hown). cbn -[cache_GetURL].
  split; [reflexivity|]. split; [reflexivity|].
  split; [unfold cache_GetURL; cbn; rewrite lookup_delete_eq; reflexivity|].
  intros w2 Hw2. rewrite (GetURL_absent _ _ Hne); [reflexivity|].
  rewrite Hw2. apply lookup_delete_eq.
Qed.

Lemma DeleteURL_by_owner_witness :
  fst (run db (services.DeleteURL scenario.code 1)
         (scenario.world (scenario.link true None) 2000)) = None.
Proof.
  refine (proj1 (DeleteURL_by_owner scenario.code 1
                   (scenario.world (scenario.link true None) 2000)
                   (scenario.link true None) eq_refl eq_refl eq_refl)).
Defined.

(** X9. A delete by anyone but the owner, or of a code that is not stored, is
    refused and changes nothing: tables, cache and clock are as before. *)
Theorem DeleteURL_refused_changes_nothing (shortCode : string) (userID : Z) (w : World) :
  (forall r : Row, urls w !! shortCode = Some r -> user_id r <> userID) ->
  fst (run db (services.DeleteURL shortCode userID) w) <> None
  /\ snd (run db (services.DeleteURL shortCode userID) w) = w.
Proof.
  intros Hother.
  destruct (String.eqb_spec shortCode EmptyString) as [->|Hne];
    [split; [discriminate | reflexivity]|].
  rewrite (DeleteURL_db _ _ _ Hne).
  assert (Hown : owned_row shortCode userID w = false).
  { unfold owned_row. destruct (urls w !! shortCode) as [r|]; [|reflexivity].
    apply Z.eqb_neq. apply Hother. reflexivity. }
  rewrite Hown. split; [discriminate | reflexivity].
Qed.

Lemma DeleteURL_refused_changes_nothing_witness :
  snd (run db (services.DeleteURL scenario.code 2)
         (scenario.world (scenario.link true None) 2000))
  = scenario.world (scenario.link true None) 2000.
Proof.
  refine (proj2 (DeleteURL_refused_changes_nothing scenario.code 2
                   (scenario.world (scenario.link true None) 2000) _)).
  intros r Hr. vm_compute in Hr. injection Hr as <-. vm_compute. discriminate.
Defined.

End lookup_facts.

(** ** Updates against the tables *)

Module update_facts.

Import strings errors models effects validation store frames effects_facts store_facts
  validation_facts.

Lemma clock_only_refl (w : World) : clock_only w w.
Proof. unfold clock_only. repeat split. lia. Qed.

Lemma clock_only_trans (w1 w2 w3 : World) :
  clock_only w1 w2 -> clock_only w2 w3 -> clock_only w1 w3.
Proof.
  unfold clock_only. intros (A1 & A2 & A3 & A4 & A5 & A6) (B1 & B2 & B3 & B4 & B5 & B6).
  repeat split; try congruence. lia.
Qed.

Lemma read_clock_only (w : World) : clock_only w (snd (read_clock w)).
Proof. unfold clock_only, read_clock. destruct (ticks w); cbn; repeat split; lia. Qed.

Lemma expiry_in_past_db (o : option Z) (w : World) :
  clock_only w (snd (run db (expiry_in_past o) w)).
Proof.
  destruct o as [t|]; [|apply clock_only_refl].
  cbn -[read_clock]. pose proof (read_clock_only w) as H.
  destruct (read_clock w) as [t0 w1]. exact H.
Qed.

Lemma normalize_nonempty (s : string) : normalize s <> EmptyString.
Proof.
  unfold normalize. cbv zeta.
  destruct (negb (HasPrefix (TrimSpace s) "http://")
            && negb (HasPrefix (TrimSpace s) "https://")) eqn:E; [discriminate|].
  intros H. rewrite H in E. discriminate.
Qed.

(** The request [UpdateURLRequest.Validate] hands back, and the world it
    leaves. *)
Lemma UpdateURLRequest_Validate_result (url_Parse : string -> result ParsedURL)
    (req : UpdateURLRequest) (w : World) :
  fst (fst (run db (UpdateURLRequest_Validate url_Parse req) w))
  = (if String.eqb (Update_OriginalURL req) EmptyString then req
     else mkUpdateURLRequest (normalize (Update_OriginalURL req))
            (Update_IsActive req) (Update_ExpiresAt req))
  /\ clock_only w (snd (run db (UpdateURLRequest_Validate url_Parse req) w)).
Proof.
  unfold UpdateURLRequest_Validate, Update_check_expiry.
  destruct (String.eqb (Update_OriginalURL req) EmptyString); cbn [negb].
  - rewrite run_bind. split.
    + destruct (fst (run db (expiry_in_past _) w)); reflexivity.
    + pose proof (expiry_in_past_db (Update_ExpiresAt req) w) as H.
      destruct (fst (run db (expiry_in_past _) w)); exact H.
  - destruct (check_url url_Parse _); [split; [reflexivity | apply clock_only_refl]|].
    rewrite run_bind. cbn [Update_ExpiresAt]. split.
    + destruct (fst (run db (expiry_in_past _) w)); reflexivity.
    + pose proof (expiry_in_past_db (Update_ExpiresAt req) w) as H.
      destruct (fst (run db (expiry_in_past _) w)); exact H.
Qed.

(** What a run of [UpdateURL] against the tables comes to: a failure that
    moved nothing but the clock, or the row rewritten from the patch and the
    cache entry dropped or set. *)
Lemma UpdateURL_db_full (url_Parse : string -> result ParsedURL) (shortCode : string)
    (req : UpdateURLRequest) (userID : Z) (w : World) :
  let out := run db (services.UpdateURL url_Parse shortCode req userID) w in
  (exists e, fst out = fail e /\ clock_only w (snd out))
  \/ (exists (r : Row) (t2 t3 : Z),
        let target :=
          if String.eqb (Update_OriginalURL req) EmptyString then original_url r
          else normalize (Update_OriginalURL req) in
        let act := default (is_active r) (Update_IsActive req) in
        let exp :=
          match Update_ExpiresAt req with Some t => Some t | None => expires_at r end in
        let changed :=
          match Update_IsActive req with
          | Some a => negb (Bool.eqb (is_active r) a)
          | None => false
          end
          || match Update_ExpiresAt req with
             | Some t => match expires_at r with None => true | Some t0 => negb (t0 =? t) end
             | None => false
             end in
        let r' := mkRow (id r) target (user_id r) (created_at r) t2 (click_count r) act exp
                    (user_agent r) (ip_address r) in
        urls w !! shortCode = Some r /\ user_id r = userID
        /\ shortCode <> EmptyString
        /\ fst out = ok (scan shortCode r')
        /\ urls (snd out) = <[shortCode := r']> (urls w)
        /\ users (snd out) = users w
        /\ now w <= t2 /\ t2 <= t3
        /\ redis (snd out)
           = if changed || negb act || match exp with Some t => t <? t3 | None => false end
             then delete (url_key shortCode) (redis w)
             else <[url_key shortCode := (target, services.cacheTTL)]> (redis w)).
Proof.
  cbv zeta. unfold services.UpdateURL.
  destruct (String.eqb_spec shortCode EmptyString) as [Ecode|Ecode];
    [left; eexists; split; [reflexivity | apply clock_only_refl]|].
  rewrite run_bind.
  destruct (UpdateURLRequest_Validate_result url_Parse req w) as [Hreq Hw1].
  destruct (run db (UpdateURLRequest_Validate url_Parse req) w) as [[req' verr] w1].
  cbn [fst snd] in *.
  destruct verr as [err|]; [left; eexists; split; [reflexivity | exact Hw1]|].
  destruct Hw1 as (Hu & Hseq & Hus & Hr & Hen & Hnow).
  cbn. unfold owned_row. rewrite Hu.
  destruct (urls w !! shortCode) as [r|] eqn:Hrow; cbn;
    [|left; eexists; split; [reflexivity | repeat split; assumption]].
  destruct (Z.eqb_spec (user_id r) userID) as [Eown|Eown]; cbn;
    [|left; eexists; split; [reflexivity | repeat split; assumption]].
  rewrite Hu, Hrow. cbn.
  assert (Hpatch : services.apply_patch req' (scan shortCode r)
    = (mkURL (id r) shortCode
         (if String.eqb (Update_OriginalURL req) EmptyString then original_url r
          else normalize (Update_OriginalURL req))
         (user_id r) (created_at r) (updated_at r) (click_count r)
         (default (is_active r) (Update_IsActive req))
         (match Update_ExpiresAt req with Some t => Some t | None => expires_at r end)
         (user_agent r) (ip_address r),
       match Update_IsActive req with
       | Some a => negb (Bool.eqb (is_active r) a)
       | None => false
       end
       || match Update_ExpiresAt req with
          | Some t => match expires_at r with None => true | Some t0 => negb (t0 =? t) end
          | None => false
          end)).
  { subst req'. unfold services.apply_patch.
    destruct (String.eqb_spec (Update_OriginalURL req) EmptyString) as [E|E].
    - rewrite E. cbn. destruct (Update_IsActive req), (Update_ExpiresAt req); reflexivity.
    - cbn [Update_OriginalURL Update_IsActive Update_ExpiresAt].
      rewrite (eqb_nonempty _ (normalize_nonempty _)). cbn.
      destruct (Update_IsActive req), (Update_ExpiresAt req); reflexivity. }
  rewrite Hpatch. clear Hpatch Hreq.
  cbn -[read_clock].
  pose proof (read_clock_only w1) as H2.
  destruct (read_clock w1) as [t1 w2]. cbn [snd] in H2.
  destruct H2 as (Hu2 & Hseq2 & Hus2 & Hr2 & Hen2 & Hnow2).
  unfold url_Update.
  pose proof (read_clock_only w2) as H3. pose proof (read_clock_now w2) as Ht2.
  destruct (read_clock w2) as [t2 w3]. cbn [fst snd] in H3, Ht2. subst t2.
  destruct H3 as (Hu3 & Hseq3 & Hus3 & Hr3 & Hen3 & Hnow3).
  cbn [services.set_UpdatedAt ShortCode OriginalURL IsActive ExpiresAt UserID ClickCount
       UserAgent IPAddress].
  rewrite Hu3, Hu2, Hu, Hrow.
  rewrite run_bind. unfold services.refresh_cache. rewrite run_bind.
  cbn [IsActive ExpiresAt OriginalURL].
  right. exists r, (now w2).
  match goal with
  | |- context [if ?c || negb ?a then Ret true else _] => destruct (c || negb a) eqn:Eclear
  end.
  - exists (now w2). cbn. rewrite Hus3, Hus2, Hus, Hr3, Hr2, Hr.
    repeat split; try assumption; try reflexivity; lia.
  - unfold IsExpired. cbn [ExpiresAt].
    destruct (match Update_ExpiresAt req with Some t => Some t | None => expires_at r end)
      as [t|] eqn:Eexp.
    + cbn -[read_clock]. pose proof (read_clock_only (set_urls
        (<[shortCode := mkRow (id r)
             (if String.eqb (Update_OriginalURL req) EmptyString then original_url r
              else normalize (Update_OriginalURL req))
             (user_id r) (created_at r) (now w2) (click_count r)
             (default (is_active r) (Update_IsActive req)) (Some t)
             (user_agent r) (ip_address r)]> (urls w)) w3)) as H4.
      pose proof (read_clock_now (set_urls
        (<[shortCode := mkRow (id r)
             (if String.eqb (Update_OriginalURL req) EmptyString then original_url r
              else normalize (Update_OriginalURL req))
             (user_id r) (created_at r) (now w2) (click_count r)
             (default (is_active r) (Update_IsActive req)) (Some t)
             (user_agent r) (ip_address r)]> (urls w)) w3)) as Ht4.
      destruct (read_clock _) as [t4 w4]. cbn [fst snd] in H4, Ht4.
      destruct H4 as (Hu4 & Hseq4 & Hus4 & Hr4 & Hen4 & Hnow4).
      cbn [now set_urls] in Ht4, Hnow4. subst t4. exists (now w3).
      cbn [urls set_urls] in Hu4. cbn [users set_urls] in Hus4.
      cbn [redis set_urls] in Hr4.
      destruct (t <? now w3); cbn; rewrite Hu4, Hus4, Hr4, Hus3, Hus2, Hus, Hr3, Hr2, Hr;
        repeat split; try assumption; try reflexivity; lia.
    + exists (now w2). cbn. rewrite Hus3, Hus2, Hus, Hr3, Hr2, Hr.
      repeat split; try assumption; try reflexivity; lia.
Qed.

(** X10. A failed [UpdateURL], whatever the reason (empty code, invalid patch, not
    the owner, no such code), changes neither the tables nor the cache: only
    the clock may have moved. *)
Theorem UpdateURL_failure_changes_nothing (url_Parse : string -> result ParsedURL)
    (shortCode : string) (req : UpdateURLRequest) (userID : Z) (w : World) (e : error) :
  fst (run db (services.UpdateURL url_Parse shortCode req userID) w) = fail e ->
  clock_only w (snd (run db (services.UpdateURL url_Parse shortCode req userID) w)).
Proof.
  intros He.
  destruct (UpdateURL_db_full url_Parse shortCode req userID w)
    as [(e' & _ & Hw) | (r & t2 & t3 & _ & _ & _ & Hok & _)]; [exact Hw|].
  rewrite Hok in He. discriminate.
Qed.

Lemma UpdateURL_failure_changes_nothing_witness :
  redis (snd (run db (services.UpdateURL example.url_Parse scenario.code
                        (mkUpdateURLRequest "example.org" (Some false) (Some 1999)) 1)
                (scenario.world (scenario.link true None) 2000)))
  = redis (scenario.world (scenario.link true None) 2000).
Proof.
  refine (proj1 (proj2 (proj2 (proj2
    (UpdateURL_failure_changes_nothing example.url_Parse scenario.code
       (mkUpdateURLRequest "example.org" (Some false) (Some 1999)) 1
       (scenario.world (scenario.link true None) 2000) _ eq_refl))))).
Defined.



(** X12. After a successful [UpdateURL] the cache is never stale: it has no entry
    for the code, or the entry is the target now stored. *)
Theorem UpdateURL_cache_coherent (url_Parse : string -> result ParsedURL)
    (shortCode : string) (req : UpdateURLRequest) (userID : Z) (w : World) (u' : URL) :
  fst (run db (services.UpdateURL url_Parse shortCode req userID) w) = ok u' ->
  let w' := snd (run db (services.UpdateURL url_Parse shortCode req userID) w) in
  cache_GetURL shortCode w' = None
  \/ (cache_GetURL shortCode w' = Some (OriginalURL u')
      /\ original_url <$> (urls w' !! shortCode) = Some (OriginalURL u')
      /\ IsActive u' = true).
Proof.
  intros Hok w'. subst w'.
  destruct (UpdateURL_db_full url_Parse shortCode req userID w)
    as [(e' & He & _) | (r & t2 & t3 & _ & _ & _ & Hok' & Hu & _ & _ & _ & Hr)].
  { rewrite He in Hok. discriminate. }
  rewrite Hok' in Hok. injection Hok as <-.
  unfold cache_GetURL. rewrite Hr, Hu, lookup_insert_eq.
  destruct (default (is_active r) (Update_IsActive req)) eqn:Eact.
  - match goal with |- context [if ?c then _ else _] => destruct c end.
    + left. rewrite lookup_delete_eq. reflexivity.
    + right. rewrite lookup_insert_eq. cbn. auto.
  - rewrite orb_true_r. cbn [orb]. left. rewrite lookup_delete_eq. reflexivity.
Qed.

Lemma UpdateURL_cache_coherent_witness :
  cache_GetURL scenario.code
    (snd (run db (services.UpdateURL example.url_Parse scenario.code scenario.retarget 1)
            (scenario.world (scenario.link true None) 2000)))
  = Some "https://example.org".
Proof.
  destruct (UpdateURL_cache_coherent example.url_Parse scenario.code scenario.retarget 1
              (scenario.world (scenario.link true None) 2000) _ eq_refl) as [H|[H _]].
  - vm_compute in H. discriminate.
  - exact H.
Defined.

(** X13. A patch that gives a new target and nothing else, on an active link
    without expiry: the update succeeds and the cache holds the new,
    normalised target. A patch that flips the active flag or changes the
    expiry drops the cache entry instead, even when the link ends up
    servable. *)
Theorem UpdateURL_refreshes_or_evicts (url_Parse : string -> result ParsedURL)
    (shortCode : string) (req : UpdateURLRequest) (userID : Z) (w : World) (u' : URL)
    (r : Row) :
  fst (run db (services.UpdateURL url_Parse shortCode req userID) w) = ok u' ->
  urls w !! shortCode = Some r ->
  let w' := snd (run db (services.UpdateURL url_Parse shortCode req userID) w) in
  (Update_IsActive req = None -> Update_ExpiresAt req = None ->
   is_active r = true -> expires_at r = None ->
   cache_GetURL shortCode w' = Some (OriginalURL u'))
  /\ ((exists a, Update_IsActive req = Some a /\ a <> is_active r)
      \/ (exists t, Update_ExpiresAt req = Some t /\ expires_at r <> Some t) ->
      cache_GetURL shortCode w' = None).
Proof.
  intros Hok Hrow w'. subst w'.
  destruct (UpdateURL_db_full url_Parse shortCode req userID w)
    as [(e' & He & _) | (r0 & t2 & t3 & Hrow' & _ & _ & Hok' & _ & _ & _ & _ & Hr)].
  { rewrite He in Hok. discriminate. }
  rewrite Hok' in Hok. injection Hok as <-.
  rewrite Hrow in Hrow'. injection Hrow' as <-.
  unfold cache_GetURL. rewrite Hr. split.
  - intros -> -> Hact Hexp. rewrite Hexp. cbn. rewrite Hact. cbn.
    rewrite lookup_insert_eq. reflexivity.
  - intros [(a & -> & Ha) | (t & -> & Ht)].
    + assert (E : Bool.eqb (is_active r) a = false).
      { destruct (is_active r), a; try reflexivity; contradiction Ha; reflexivity. }
      rewrite E. cbn. rewrite lookup_delete_eq. reflexivity.
    + assert (E : match expires_at r with None => true | Some t0 => negb (t0 =? t) end = true).
      { destruct (expires_at r) as [t0|]; [|reflexivity].
        apply negb_true_iff, Z.eqb_neq. congruence. }
      rewrite E, orb_true_r. cbn. rewrite lookup_delete_eq. reflexivity.
Qed.

Lemma UpdateURL_refreshes_or_evicts_witness :
  cache_GetURL scenario.code
    (snd (run db (services.UpdateURL example.url_Parse scenario.code
                    (mkUpdateURLRequest EmptyString (Some true) None) 1)
            (scenario.world (scenario.link false None) 2000))) = None.
Proof.
  refine (proj2 (UpdateURL_refreshes_or_evicts example.url_Parse scenario.code
                   (mkUpdateURLRequest EmptyString (Some true) None) 1
                   (scenario.world (scenario.link false None) 2000) _
                   (scenario.link false None) eq_refl eq_refl) _).
  left. exists true. split; [reflexivity | discriminate].
Defined.

End update_facts.

(** ** Creating links against the tables *)

Module create_db_facts.

Import strings errors models effects validation store frames effects_facts store_facts
  generation_facts create_facts generator_facts validation_facts update_facts.

Lemma entropy_only_refl (w : World) : entropy_only w w.
Proof. unfold entropy_only. repeat split. Qed.

Lemma entropy_only_trans (w1 w2 w3 : World) :
  entropy_only w1 w2 -> entropy_only w2 w3 -> entropy_only w1 w3.
Proof.
  unfold entropy_only.
  intros (A1 & A2 & A3 & A4 & A5 & A6) (B1 & B2 & B3 & B4 & B5 & B6).
  repeat split; congruence.
Qed.

Lemma read_random_only (w : World) : entropy_only w (snd (read_random w)).
Proof. unfold read_random, entropy_only. destruct (entropy w); cbn; repeat split. Qed.

Lemma fill_db (n : nat) (w : World) : entropy_only w (snd (run db (services.fill n) w)).
Proof.
  revert w. induction n as [|n IH]; intros w; [apply entropy_only_refl|].
  cbn [services.fill services.randomInt bind call run db].
  pose proof (read_random_only w) as H. destruct (read_random w) as [b w1].
  rewrite run_bind. cbn [run snd] in *.
  exact (entropy_only_trans _ _ _ H (IH w1)).
Qed.

Lemma attempts_db (n : nat) (w : World) :
  entropy_only w (snd (run db (services.attempts n) w))
  /\ forall c : string,
      fst (run db (services.attempts n) w) = ok c ->
      urls w !! c = None /\ String.length c = 8%nat.
Proof.
  revert w. induction n as [|n IH]; intros w;
    [split; [apply entropy_only_refl | discriminate]|].
  cbn [services.attempts]. rewrite run_bind.
  destruct (generateShortCode_shape db w) as [Hlen _].
  assert (Hg : entropy_only w (snd (run db services.generateShortCode w))).
  { unfold services.generateShortCode. rewrite run_bind. apply fill_db. }
  destruct (run db services.generateShortCode w) as [c w1]. cbn [fst snd] in *.
  cbn [bind call run db url_ExistsByShortCode].
  assert (Hu : urls w1 = urls w) by apply Hg.
  destruct (urls w1 !! c) as [r|] eqn:Hrow.
  - rewrite bool_decide_eq_true_2 by eauto. cbn [negb run fst snd].
    destruct (IH w1) as [IH1 IH2]. split; [exact (entropy_only_trans _ _ _ Hg IH1)|].
    intros c' Hc'. rewrite <- Hu. apply IH2. exact Hc'.
  - rewrite bool_decide_eq_false_2 by (intros [? ?]; discriminate). cbn [negb run fst snd].
    split; [exact Hg|]. intros c' [= <-]. rewrite <- Hu. split; assumption.
Qed.

Lemma allocate_db (customCode : string) (w : World) :
  entropy_only w (snd (run db (services.allocate customCode) w))
  /\ (forall c : string,
        fst (run db (services.allocate customCode) w) = ok c ->
        urls w !! c = None /\ c <> EmptyString
        /\ (customCode <> EmptyString -> c = customCode)
        /\ (customCode = EmptyString -> String.length c = 8%nat))
  /\ (customCode <> EmptyString -> is_Some (urls w !! customCode) ->
      run db (services.allocate customCode) w
      = (fail (appError (NewAlreadyExistsError "Custom short code already exists" None)),
         w)).
Proof.
  unfold services.allocate.
  destruct (String.eqb_spec customCode EmptyString) as [E|E].
  - rewrite run_bind. unfold services.generateUniqueShortCode.
    destruct (attempts_db services.maxAttempts w) as [Hw Hc].
    destruct (run db (services.attempts services.maxAttempts) w) as [[c|err] w1];
      cbn [fst snd run] in *.
    + split; [exact Hw|]. split; [|contradiction].
      intros c' [= <-]. destruct (Hc c eq_refl) as [Hfree Hlen].
      split; [exact Hfree|]. split; [intros ->; discriminate|].
      split; [contradiction | intros _; exact Hlen].
    + split; [exact Hw|]. split; [discriminate | contradiction].
  - cbn [bind call run db url_ExistsByShortCode].
    destruct (urls w !! customCode) as [r|] eqn:Hrow.
    + rewrite bool_decide_eq_true_2 by eauto. cbn [run fst snd].
      split; [apply entropy_only_refl|]. split; [discriminate | reflexivity].
    + rewrite bool_decide_eq_false_2 by (intros [? ?]; discriminate). cbn [run fst snd].
      split; [apply entropy_only_refl|]. split.
      * intros c [= <-]. split; [exact Hrow|]. split; [exact E|].
        split; [reflexivity | contradiction].
      * intros _ [? ?]. discriminate.
Qed.

Lemma CreateURLRequest_Validate_clock (url_Parse : string -> result ParsedURL)
    (req : CreateURLRequest) (w : World) :
  clock_only w (snd (run db (CreateURLRequest_Validate url_Parse req) w)).
Proof.
  unfold CreateURLRequest_Validate.
  destruct (String.eqb (Create_URL req) EmptyString); [apply clock_only_refl|].
  cbv zeta. destruct (check_url url_Parse _); [apply clock_only_refl|].
  destruct (check_custom_code _); [apply clock_only_refl|].
  rewrite run_bind. pose proof (expiry_in_past_db (Create_ExpiresAt req) w) as H.
  cbn [Create_ExpiresAt].
  destruct (fst (run db (expiry_in_past (Create_ExpiresAt req)) w)); exact H.
Qed.

Lemma persist_db (baseURL : string) (req : CreateURLRequest) (userID : Z)
    (clientIP userAgent shortCode : string) (w : World) :
  urls w !! shortCode = None ->
  exists t2 : Z,
    now w <= t2
    /\ fst (run db (services.persist baseURL req userID clientIP userAgent shortCode) w)
       = ok (mkCreateURLResponse (urls_id_seq w) shortCode (Create_URL req)
               (baseURL +:+ "/" +:+ shortCode) true (now w) (Create_ExpiresAt req)
               (baseURL +:+ "/api/v1/urls/" +:+ shortCode +:+ "/qr"))
    /\ urls (snd (run db (services.persist baseURL req userID clientIP userAgent
                           shortCode) w))
       = <[shortCode := mkRow (urls_id_seq w) (Create_URL req) userID (now w) t2 0 true
                          (Create_ExpiresAt req) userAgent clientIP]> (urls w)
    /\ redis (snd (run db (services.persist baseURL req userID clientIP userAgent
                            shortCode) w))
       = <[url_key shortCode := (Create_URL req, services.cacheTTL)]> (redis w).
Proof.
  intros Hfree. unfold services.persist. cbn [bind call run db].
  pose proof (read_clock_only w) as H1. pose proof (read_clock_now w) as Ht1.
  destruct (read_clock w) as [t1 w1]. cbn [fst snd] in *. subst t1.
  cbn [bind call run db].
  pose proof (read_clock_only w1) as H2. pose proof (read_clock_now w1) as Ht2.
  destruct (read_clock w1) as [t2 w2]. cbn [fst snd] in *. subst t2.
  destruct H1 as (Hu1 & Hs1 & _ & Hr1 & _ & Hn1).
  destruct H2 as (Hu2 & Hs2 & _ & Hr2 & _ & Hn2).
  cbn [bind call run db]. unfold url_Create. cbn [ShortCode].
  rewrite Hu2, Hu1, Hfree. cbn. rewrite ?Hs2, ?Hs1, ?Hr2, ?Hr1.
  exists (now w1). repeat split. exact Hn1.
Qed.

Lemma CreateURL_success_db (url_Parse : string -> result ParsedURL) (baseURL : string)
    (req : CreateURLRequest) (userID : Z) (clientIP userAgent : string) (w : World)
    (resp : CreateURLResponse) :
  fst (run db (services.CreateURL url_Parse baseURL req userID clientIP userAgent) w)
    = ok resp ->
  let w' := snd (run db (services.CreateURL url_Parse baseURL req userID clientIP
                           userAgent) w) in
  let c := Resp_ShortCode resp in
  let target := normalize (Create_URL req) in
  exists t1 t2 : Z,
    now w <= t1 /\ t1 <= t2
    /\ urls w !! c = None /\ c <> EmptyString
    /\ (Create_CustomCode req <> EmptyString -> c = Create_CustomCode req)
    /\ (Create_CustomCode req = EmptyString -> String.length c = 8%nat)
    /\ urls w' = <[c := mkRow (urls_id_seq w) target userID t1 t2 0 true
                          (Create_ExpiresAt req) userAgent clientIP]> (urls w)
    /\ redis w' = <[url_key c := (target, services.cacheTTL)]> (redis w)
    /\ resp = mkCreateURLResponse (urls_id_seq w) c target (baseURL +:+ "/" +:+ c) true t1
                (Create_ExpiresAt req) (baseURL +:+ "/api/v1/urls/" +:+ c +:+ "/qr")
    /\ (exists p : ParsedURL,
          url_Parse target = ok p /\ Scheme p <> EmptyString /\ Host p <> EmptyString)
    /\ exists user : User, users w !! userID = Some user /\ LinkCount user < LinkLimit user.
Proof.
  rewrite CreateURL_run. cbv zeta.
  pose proof (CreateURLRequest_Validate_None db url_Parse req w) as Hacc.
  pose proof (CreateURLRequest_Validate_clock url_Parse req w) as Hclock.
  destruct (run db (CreateURLRequest_Validate url_Parse req) w) as [[req' verr] w1].
  cbn [fst snd] in *. destruct verr as [err|]; [discriminate|].
  destruct (Hacc eq_refl) as (_ & HURL & Hcode & Hexp & Hparse & _). clear Hacc.
  rewrite HURL in Hparse.
  destruct Hclock as (Hu1 & Hs1 & Hus1 & Hr1 & _ & Hn1).
  cbn [db user_GetByID fst snd]. rewrite Hus1.
  destruct (users w !! userID) as [user|] eqn:Huser; [|discriminate].
  destruct (CanCreateLink user) eqn:Hcan; cbn [negb]; [|discriminate].
  destruct (allocate_db (Create_CustomCode req') w1) as ((Hu2 & Hs2 & _ & Hr2 & Hn2 & _) & Hc & _).
  destruct (run db (services.allocate (Create_CustomCode req')) w1) as [[c|err] w2];
    cbn [fst snd] in *; [|discriminate].
  destruct (Hc c eq_refl) as (Hfree & Hne & Hcustom & Hgen).
  rewrite Hu1 in Hfree.
  destruct (persist_db baseURL req' userID clientIP userAgent c w2) as (t2 & Ht2 & Hres & Hu & Hr);
    [rewrite Hu2, Hu1; exact Hfree|].
  rewrite Hres. intros [= <-]. cbn [Resp_ShortCode].
  exists (now w2), t2. rewrite Hu, Hr, Hu2, Hu1, Hr2, Hr1, Hs2, Hs1, HURL, Hexp.
  rewrite Hcode in Hcustom, Hgen.
  repeat split; try assumption; try lia.
  exists user. split; [reflexivity|]. apply Z.ltb_lt. exact Hcan.
Qed.

(** X14. A [CreateURL] that succeeds: the code it answers with was free and is not
    empty (the custom code when one was asked for, 8 generated characters
    otherwise); table [urls] gains exactly one row under it, with the next id
    of the sequence, the normalised target, the caller as owner, active, no
    clicks, the expiry asked for; the cache holds the normalised target under
    the code; the parser finds a scheme and a host in that target; and the
    caller was under quota. *)
Theorem CreateURL_success (url_Parse : string -> result ParsedURL) (baseURL : string)
    (req : CreateURLRequest) (userID : Z) (clientIP userAgent : string) (w : World)
    (resp : CreateURLResponse) :
  fst (run db (services.CreateURL url_Parse baseURL req userID clientIP userAgent) w)
    = ok resp ->
  let w' := snd (run db (services.CreateURL url_Parse baseURL req userID clientIP
                           userAgent) w) in
  let c := Resp_ShortCode resp in
  let target := normalize (Create_URL req) in
  exists t1 t2 : Z,
    now w <= t1 /\ t1 <= t2
    /\ urls w !! c = None /\ c <> EmptyString
    /\ (Create_CustomCode req <> EmptyString -> c = Create_CustomCode req)
    /\ (Create_CustomCode req = EmptyString -> String.length c = 8%nat)
    /\ urls w' = <[c := mkRow (urls_id_seq w) target userID t1 t2 0 true
                          (Create_ExpiresAt req) userAgent clientIP]> (urls w)
    /\ redis w' = <[url_key c := (target, services.cacheTTL)]> (redis w)
    /\ resp = mkCreateURLResponse (urls_id_seq w) c target (baseURL +:+ "/" +:+ c) true t1
                (Create_ExpiresAt req) (baseURL +:+ "/api/v1/urls/" +:+ c +:+ "/qr")
    /\ (exists p : ParsedURL,
          url_Parse target = ok p /\ Scheme p <> EmptyString /\ Host p <> EmptyString)
    /\ exists user : User, users w !! userID = Some user /\ LinkCount user < LinkLimit user.
Proof.
  exact (CreateURL_success_db url_Parse baseURL req userID clientIP userAgent w resp).
Qed.

Lemma CreateURL_success_witness :
  exists t1 t2 : Z,
    urls (snd (run db (services.CreateURL example.url_Parse example.baseURL
                         scenario.shorten_as 1 "203.0.113.9" "curl/8.0")
                 (scenario.world (scenario.link true None) 2000)))
    = <["my-link" := mkRow 8 "https://example.com" 1 t1 t2 0 true None "curl/8.0"
                       "203.0.113.9"]>
        (urls (scenario.world (scenario.link true None) 2000)).
Proof.
  eassert (Hok : fst (run db (services.CreateURL example.url_Parse example.baseURL
                                scenario.shorten_as 1 "203.0.113.9" "curl/8.0")
                        (scenario.world (scenario.link true None) 2000)) = ok _)
    by (vm_compute; reflexivity).
  destruct (CreateURL_success example.url_Parse example.baseURL scenario.shorten_as 1
              "203.0.113.9" "curl/8.0" (scenario.world (scenario.link true None) 2000)
              _ Hok)
    as (t1 & t2 & _ & _ & _ & _ & _ & _ & Hu & _).
  exists t1, t2. exact Hu.
Defined.

(** X15. Insert, then look up: after a successful [CreateURL], a [GetURL] of the
    code it answered with, at any time not after the expiry asked for and
    whatever the cache has become, returns the link with the normalised
    target, the creator as owner and the id the response carried. *)
Theorem CreateURL_then_GetURL (url_Parse : string -> result ParsedURL) (baseURL : string)
    (req : CreateURLRequest) (userID : Z) (clientIP userAgent : string) (w : World)
    (resp : CreateURLResponse) :
  urls w !! EmptyString = None ->
  fst (run db (services.CreateURL url_Parse baseURL req userID clientIP userAgent) w)
    = ok resp ->
  forall w2 : World,
    urls w2 = urls (snd (run db (services.CreateURL url_Parse baseURL req userID clientIP
                                   userAgent) w)) ->
    (forall t : Z, Create_ExpiresAt req = Some t -> now w2 <= t) ->
    exists u : URL,
      fst (run db (services.GetURL (Resp_ShortCode resp)) w2) = ok u
      /\ ShortCode u = Resp_ShortCode resp
      /\ OriginalURL u = normalize (Create_URL req)
      /\ OriginalURL u = Resp_OriginalURL resp
      /\ ID u = Resp_ID resp /\ UserID u = userID
      /\ IsActive u = true /\ ClickCount u = 0
      /\ ExpiresAt u = Create_ExpiresAt req.
Proof.
  intros Hinv Hok w2 Hw2 Hexp.
  destruct (CreateURL_success_db url_Parse baseURL req userID clientIP userAgent w resp Hok)
    as (t1 & t2 & _ & _ & _ & Hne & _ & _ & Hu & _ & Hresp & _).
  rewrite Hu in Hw2.
  set (c := Resp_ShortCode resp) in *.
  set (r := mkRow (urls_id_seq w) (normalize (Create_URL req)) userID t1 t2 0 true
              (Create_ExpiresAt req) userAgent clientIP) in *.
  assert (Hrow : urls w2 !! c = Some r) by (rewrite Hw2; apply lookup_insert_eq).
  assert (Hinv2 : urls w2 !! EmptyString = None).
  { rewrite Hw2, lookup_insert_ne; [exact Hinv | exact Hne]. }
  pose proof (f_equal fst (lookup_facts.GetURL_servable_run c w2 r Hinv2 Hrow eq_refl Hexp))
    as Hget.
  cbn [fst] in Hget.
  exists (scan c r). split; [exact Hget|].
  rewrite Hresp. cbn. repeat split.
Qed.

Lemma CreateURL_then_GetURL_witness :
  exists u : URL,
    fst (run db (services.GetURL "aaaaaiii")
           (snd (run db (services.CreateURL example.url_Parse example.baseURL
                           scenario.shorten 1 "203.0.113.9" "curl/8.0")
                   (scenario.world (scenario.link true None) 2000)))) = ok u
    /\ OriginalURL u = "https://example.com".
Proof.
  eassert (Hok : fst (run db (services.CreateURL example.url_Parse example.baseURL
                                scenario.shorten 1 "203.0.113.9" "curl/8.0")
                        (scenario.world (scenario.link true None) 2000)) = ok _)
    by (vm_compute; reflexivity).
  destruct (CreateURL_then_GetURL example.url_Parse example.baseURL scenario.shorten 1
              "203.0.113.9" "curl/8.0" (scenario.world (scenario.link true None) 2000)
              _ eq_refl Hok
              (snd (run db (services.CreateURL example.url_Parse example.baseURL
                              scenario.shorten 1 "203.0.113.9" "curl/8.0")
                      (scenario.world (scenario.link true None) 2000))) eq_refl)
    as (u & Hget & _ & Htarget & _); [discriminate|].
  exists u. split; [exact Hget | exact Htarget].
Defined.

(** X16. A custom code that is already stored: a valid request of a user under
    quota is answered with the already-exists error (status 409); the insert
    is never called and neither the tables nor the cache change. *)
Theorem CreateURL_custom_code_taken (url_Parse : string -> result ParsedURL)
    (baseURL : string) (req : CreateURLRequest) (userID : Z)
    (clientIP userAgent : string) (w : World) (user : User) :
  snd (fst (run db (CreateURLRequest_Validate url_Parse req) w)) = None ->
  users w !! userID = Some user ->
  LinkCount user < LinkLimit user ->
  Create_CustomCode req <> EmptyString ->
  is_Some (urls w !! Create_CustomCode req) ->
  let p := services.CreateURL url_Parse baseURL req userID clientIP userAgent in
  fst (run db p w)
    = fail (appError (NewAlreadyExistsError "Custom short code already exists" None))
  /\ StatusCode (NewAlreadyExistsError "Custom short code already exists" None) = 409
  /\ clock_only w (snd (run db p w))
  /\ count is_insert (trace db p w) = 0%nat.
Proof.
  intros Hvalid Huser Hquota Hcustom Htaken p. subst p.
  rewrite CreateURL_run, CreateURL_trace. cbv zeta.
  destruct (Validate_counts db url_Parse req w) as (_ & _ & Hv).
  pose proof (Validate_CustomCode db url_Parse req w) as Hcode.
  pose proof (CreateURLRequest_Validate_clock url_Parse req w) as Hclock.
  set (tv := trace db (CreateURLRequest_Validate url_Parse req) w) in *.
  destruct (run db (CreateURLRequest_Validate url_Parse req) w) as [[req' verr] w1].
  cbn [fst snd] in *. subst verr.
  cbn [db user_GetByID fst snd].
  assert (Hus1 : users w1 = users w) by apply Hclock. rewrite Hus1, Huser.
  rewrite (proj2 (Z.ltb_lt _ _) Hquota : CanCreateLink user = true). cbn [negb].
  rewrite Hcode.
  destruct (allocate_db (Create_CustomCode req) w1) as (_ & _ & Halloc).
  assert (Hu1 : urls w1 = urls w) by apply Hclock.
  pose proof (allocate_no_insert db (Create_CustomCode req) w1) as Hai.
  rewrite (Halloc Hcustom) in * by (rewrite Hu1; exact Htaken).
  cbn [fst snd]. split; [reflexivity|]. split; [reflexivity|]. split; [exact Hclock|].
  rewrite app_nil_r, count_app, count_cons, Hv, Hai. reflexivity.
Qed.

Lemma CreateURL_custom_code_taken_witness :
  fst (run db (services.CreateURL example.url_Parse example.baseURL
                 (mkCreateURLRequest "example.org" scenario.code None) 1
                 "203.0.113.9" "curl/8.0")
         (scenario.world (scenario.link true None) 2000))
  = fail (appError (NewAlreadyExistsError "Custom short code already exists" None)).
Proof.
  refine (proj1 (CreateURL_custom_code_taken example.url_Parse example.baseURL
                   (mkCreateURLRequest "example.org" scenario.code None) 1
                   "203.0.113.9" "curl/8.0"
                   (scenario.world (scenario.link true None) 2000) scenario.alice
                   eq_refl eq_refl eq_refl _ _)).
  - discriminate.
  - eexists. reflexivity.
Defined.

End create_db_facts.

(** ** Validation comes first *)

Module early_exit_facts.

Import strings errors models effects validation effects_facts create_facts.

(** X17. A create request that fails validation is refused with the validation
    error that wraps the validator's message, before any collaborator other
    than the clock is called: no user lookup, no existence check, no random
    byte, no insert, no cache write. *)
Theorem CreateURL_invalid_request_stops_early {W : Type} (h : handler W)
    (url_Parse : string -> result ParsedURL) (baseURL : string)
    (req : CreateURLRequest) (userID : Z) (clientIP userAgent : string) (w : W)
    (err : error) :
  snd (fst (run h (CreateURLRequest_Validate url_Parse req) w)) = Some err ->
  fst (run h (services.CreateURL url_Parse baseURL req userID clientIP userAgent) w)
    = fail (appError (NewValidationError "Invalid request" (Some err)))
  /\ (trace h (services.CreateURL url_Parse baseURL req userID clientIP userAgent) w = []
      \/ exists t : Z,
          trace h (services.CreateURL url_Parse baseURL req userID clientIP userAgent) w
          = [MkCall TimeNow t]).
Proof.
  intros Herr. rewrite CreateURL_run, CreateURL_trace. cbv zeta. rewrite Herr.
  split; [reflexivity|]. rewrite app_nil_r. apply Validate_trace.
Qed.

Lemma CreateURL_invalid_request_stops_early_witness :
  fst (run store.db
         (services.CreateURL example.url_Parse example.baseURL
            (mkCreateURLRequest "example.com" "ab" None) 1 "203.0.113.9" "curl/8.0")
         (scenario.world (scenario.link true None) 2000))
  = fail (appError (NewValidationError "Invalid request"
            (Some (errorString "custom code must be between 3 and 20 characters")))).
Proof.
  refine (proj1 (CreateURL_invalid_request_stops_early store.db example.url_Parse
                   example.baseURL (mkCreateURLRequest "example.com" "ab" None) 1
                   "203.0.113.9" "curl/8.0"
                   (scenario.world (scenario.link true None) 2000) _ eq_refl)).
Defined.

End early_exit_facts.

(** ** Programs over both kinds of events *)

Module clicks_facts.

Import strings errors models effects validation clicks store store2.
Import store_facts lookup_facts.

Lemma run2_bind {W A B : Type} (h : handler2 W) (m : Prog2 A) (f : A -> Prog2 B) (w : W) :
  run2 h (bind2 m f) w = run2 h (f (fst (run2 h m w))) (snd (run2 h m w)).
Proof.
  revert w. induction m as [a|X e k IH]; intros w; cbn; [reflexivity|].
  destruct (h X e w) as [x w']. apply IH.
Qed.

Lemma trace2_bind {W A B : Type} (h : handler2 W) (m : Prog2 A) (f : A -> Prog2 B) (w : W) :
  trace2 h (bind2 m f) w
  = trace2 h m w ++ trace2 h (f (fst (run2 h m w))) (snd (run2 h m w)).
Proof.
  revert w. induction m as [a|X e k IH]; intros w; cbn; [reflexivity|].
  destruct (h X e w) as [x w']. cbn. f_equal. apply IH.
Qed.

(** A program of the first kind runs among the second events as it does
    alone. *)
Lemma run2_lift {W A : Type} (h : handler2 W) (m : Prog A) (w : W) :
  run2 h (lift m) w = run (core_handler h) m w.
Proof.
  revert w. induction m as [a|X e k IH]; intros w; cbn; [reflexivity|].
  unfold core_handler at 1. destruct (h X (Core e) w) as [x w']. apply IH.
Qed.

(** [GetURL] against the second world is [GetURL] against its core; the click
    events, the counters and the date are not touched. *)
Lemma GetURL_db2 (shortCode : string) (w : World2) :
  run2 db2 (lift (services.GetURL shortCode)) w
  = (fst (run db (services.GetURL shortCode) (core w)),
     set_core (snd (run db (services.GetURL shortCode) (core w))) w).
Proof.
  destruct w as [c l n m d]. unfold services.GetURL, set_core.
  destruct (String.eqb shortCode EmptyString); cbn; [reflexivity|].
  destruct (urls c !! shortCode) as [r|]; cbn; [|reflexivity].
  unfold IsExpired. cbn.
  destruct (expires_at r) as [t|]; cbn.
  - destruct (t <? now c); cbn; [reflexivity|].
    destruct (is_active r); reflexivity.
  - destruct (is_active r); reflexivity.
Qed.

Lemma id_stored_lookup (c : World) (shortCode : string) (r : Row) :
  urls c !! shortCode = Some r -> id_stored (id r) c = true.
Proof.
  intros H. unfold id_stored. apply existsb_exists. exists (shortCode, r). split.
  - apply list_elem_of_In, elem_of_map_to_list. exact H.
  - cbn. apply Z.eqb_refl.
Qed.


Lemma run2_call {W X B : Type} (h : handler2 W) (e : Event2 X) (f : X -> Prog2 B) (w : W) :
  run2 h (bind2 (call2 e) f) w = run2 h (f (fst (h X e w))) (snd (h X e w)).
Proof. cbn. destruct (h X e w) as [x w']. reflexivity. Qed.

Lemma db2_TimeNow (w : World2) :
  db2 _ (Core TimeNow) w = (now (core w), set_core (snd (read_clock (core w))) w).
Proof. destruct w as [c l n m d]. reflexivity. Qed.

Lemma db2_CreateClickEvent (ce : ClickEvent) (w : World2) :
  id_stored (URLId ce) (core w) = true ->
  db2 _ (URL_CreateClickEvent ce) w
  = (None,
     mkWorld2 (core w)
       (click_events w ++
        [mkClickEvent (click_events_id_seq w) (URLId ce) (Click_IPAddress ce)
           (Click_UserAgent ce) (Referer ce) (Country ce) (City ce) (ClickedAt ce)])
       (click_events_id_seq w + 1) (counters w) (current_date w)).
Proof. intros H. cbn. unfold url_CreateClickEvent. rewrite H. reflexivity. Qed.

Lemma db2_IncrementClickCount (shortCode : string) (r : Row) (w : World2) :
  urls (core w) !! shortCode = Some r ->
  click_count r <> max_int32 ->
  db2 _ (URL_IncrementClickCount shortCode) w
  = (None,
     set_core (set_urls (<[shortCode := bump (now (core w)) r]> (urls (core w)))
                 (core w)) w).
Proof.
  intros H Hc. cbn. unfold url_IncrementClickCount. rewrite H.
  apply Z.eqb_neq in Hc. rewrite Hc. reflexivity.
Qed.

Lemma RecordClick_tail (shortCode clientIP userAgent referer : string) (w : World2)
    (url : URL) (c1 : World) (r : Row) :
  run db (services.GetURL shortCode) (core w) = (ok url, c1) ->
  urls c1 !! shortCode = Some r ->
  ID url = id r ->
  click_count r <> max_int32 ->
  run2 db2 (click_service.RecordClick shortCode clientIP userAgent referer) w
  = (None,
     let c2 := snd (read_clock c1) in
     let v := default 0 (counters w !! clicks_key shortCode) in
     mkWorld2 (set_urls (<[shortCode := bump (now c2) r]> (urls c2)) c2)
       (click_events w ++
        [mkClickEvent (click_events_id_seq w) (id r) clientIP userAgent referer
           EmptyString EmptyString (now c1)])
       (click_events_id_seq w + 1)
       (if v =? max_int64 then counters w
        else <[clicks_key shortCode := v + 1]> (counters w))
       (current_date w)).
Proof.
  intros Hget Hrow Hid Hcnt.
  unfold click_service.RecordClick.
  rewrite run2_bind, GetURL_db2, Hget. cbn [fst snd].
  rewrite run2_call, db2_TimeNow. cbn [fst snd].
  rewrite run2_call, db2_CreateClickEvent; cbn [fst snd URLId core set_core];
    [|rewrite Hid; apply (id_stored_lookup _ shortCode);
      rewrite read_clock_urls; exact Hrow].
  rewrite run2_call, (db2_IncrementClickCount shortCode r); cbn [fst snd core set_core];
    [| rewrite read_clock_urls; exact Hrow | exact Hcnt].
  rewrite run2_call. rewrite Hid. destruct w as [c0 l n m d].
  unfold set_core. cbn -[read_clock Z.eqb max_int64 default].
  unfold cache_IncrementClickCount. cbn -[read_clock Z.eqb max_int64 default].
  destruct (default 0 (m !! clicks_key shortCode) =? max_int64); reflexivity.
Qed.

(** X18. A click on a servable link whose counter has room: [RecordClick] returns
    no error, appends one click event that carries the link's id and the
    caller's address, agent and referer, raises the link's click count by
    one (the row is otherwise as it was, but for its time of update), and
    raises the cache counter by one when that has room too (a
    failure of the cache counter is not reported). *)
Theorem RecordClick_counts_click (shortCode clientIP userAgent referer : string)
    (w : World2) (r : Row) :
  urls (core w) !! EmptyString = None ->
  urls (core w) !! shortCode = Some r ->
  is_active r = true ->
  (forall t : Z, expires_at r = Some t -> now (core w) <= t) ->
  click_count r <> max_int32 ->
  let w' := snd (run2 db2 (click_service.RecordClick shortCode clientIP userAgent referer) w) in
  fst (run2 db2 (click_service.RecordClick shortCode clientIP userAgent referer) w) = None
  /\ (exists t t' : Z,
        now (core w) <= t <= t'
        /\ click_events w'
           = click_events w ++
             [mkClickEvent (click_events_id_seq w) (id r) clientIP userAgent referer
                EmptyString EmptyString t]
        /\ urls (core w') = <[shortCode := bump t' r]> (urls (core w)))
  /\ (default 0 (counters w !! clicks_key shortCode) <> max_int64 ->
      counters w' !! clicks_key shortCode
      = Some (default 0 (counters w !! clicks_key shortCode) + 1)).
Proof.
  intros Hinv Hrow Hact Hexp Hcnt w'. subst w'.
  pose proof (GetURL_servable_run _ _ _ Hinv Hrow Hact Hexp) as Hget.
  set (c0 := match expires_at r with Some _ => snd (read_clock (core w)) | None => core w end)
    in Hget.
  assert (Hu0 : urls c0 = urls (core w))
    by (subst c0; destruct (expires_at r); [apply read_clock_urls | reflexivity]).
  assert (Hn0 : now (core w) <= now c0)
    by (subst c0; destruct (expires_at r); [apply read_clock_later | lia]).
  rewrite (RecordClick_tail _ _ _ _ _ _ _ r Hget);
    [| cbn; rewrite Hu0; exact Hrow | reflexivity | exact Hcnt].
  cbn -[read_clock]. repeat split.
  - exists (now c0), (now (snd (read_clock (snd (cache_SetURL shortCode (original_url r)
                                                  services.cacheTTL c0))))).
    pose proof (read_clock_later (snd (cache_SetURL shortCode (original_url r)
                                         services.cacheTTL c0))) as Hl.
    cbn -[read_clock] in Hl |- *.
    split; [lia|]. split; [reflexivity|].
    rewrite read_clock_urls. cbn. rewrite Hu0. reflexivity.
  - intros Hv. apply Z.eqb_neq in Hv. rewrite Hv. apply lookup_insert_eq.
Qed.

Lemma GetURL_keeps_urls (shortCode : string) (w : World) :
  urls (snd (run db (services.GetURL shortCode) w)) = urls w.
Proof. apply GetURL_reads_only. Qed.

(** X19. A click on a link that [GetURL] refuses (not stored, expired, not
    active): [RecordClick] returns [GetURL]'s error and records nothing, no
    click event, no count, no cache counter. *)
Theorem RecordClick_unservable_records_nothing
    (shortCode clientIP userAgent referer : string) (w : World2) (err : error) :
  fst (run db (services.GetURL shortCode) (core w)) = fail err ->
  let w' := snd (run2 db2 (click_service.RecordClick shortCode clientIP userAgent referer) w) in
  fst (run2 db2 (click_service.RecordClick shortCode clientIP userAgent referer) w)
    = Some err
  /\ click_events w' = click_events w
  /\ click_events_id_seq w' = click_events_id_seq w
  /\ counters w' = counters w
  /\ urls (core w') = urls (core w).
Proof.
  intros Hget w'. subst w'. unfold click_service.RecordClick.
  rewrite run2_bind, GetURL_db2. cbn [fst snd]. rewrite Hget. cbn [run2 fst snd].
  destruct w as [c l n m d]. cbn. repeat split. apply GetURL_keeps_urls.
Qed.

Section Pages.

Variable frontendURL : string.

Lemma TrimPrefix_slash (s : string) : pages.TrimPrefix ("/" +:+ s) "/" = s.
Proof.
  unfold pages.TrimPrefix, HasPrefix. change ("/" +:+ s) with (String "/" s).
  cbn. destruct (ascii_dec "/" "/") as [_|Hn]; [|congruence].
  destruct s; reflexivity.
Qed.

Lemma RedirectURL_run {W : Type} (h : handler2 W)
    (shortCode path clientIP userAgent referer : string) (w : W) :
  fst (run2 h (pages.RedirectURL frontendURL shortCode path clientIP userAgent referer) w)
  = match fst (run (core_handler h) (services.GetURL shortCode) w) with
    | ok url => pages.Redirect pages.StatusMovedPermanently (OriginalURL url)
    | fail err => pages.ErrorPageHandler frontendURL path err
    end.
Proof.
  unfold pages.RedirectURL. rewrite run2_bind, run2_lift.
  destruct (fst (run (core_handler h) (services.GetURL shortCode) w)) as [url|err];
    [|reflexivity].
  rewrite run2_bind. reflexivity.
Qed.

Lemma RedirectURL_state {W : Type} (h : handler2 W)
    (shortCode path clientIP userAgent referer : string) (w : W) :
  snd (run2 h (pages.RedirectURL frontendURL shortCode path clientIP userAgent referer) w)
  = match fst (run (core_handler h) (services.GetURL shortCode) w) with
    | ok url =>
        snd (run2 h (click_service.RecordClick shortCode clientIP userAgent referer)
               (snd (run (core_handler h) (services.GetURL shortCode) w)))
    | fail err => snd (run (core_handler h) (services.GetURL shortCode) w)
    end.
Proof.
  unfold pages.RedirectURL. rewrite run2_bind, run2_lift.
  destruct (fst (run (core_handler h) (services.GetURL shortCode) w)) as [url|err];
    [|reflexivity].
  rewrite run2_bind. reflexivity.
Qed.

Lemma GetURL_core_db2 (shortCode : string) (w : World2) :
  run (core_handler db2) (services.GetURL shortCode) w
  = (fst (run db (services.GetURL shortCode) (core w)),
     set_core (snd (run db (services.GetURL shortCode) (core w))) w).
Proof. rewrite <- run2_lift. apply GetURL_db2. Qed.

(** X20. A servable link is answered with a permanent redirect to its target,
    whether or not the click could be recorded; when the link is also servable
    at the second lookup and its counter has room, one click event of the
    link is appended and its click count goes up by one. *)
Theorem RedirectURL_serves_and_counts
    (shortCode path clientIP userAgent referer : string) (w : World2) (r : Row) :
  urls (core w) !! EmptyString = None ->
  urls (core w) !! shortCode = Some r ->
  is_active r = true ->
  (forall t : Z, expires_at r = Some t -> now (core w) <= t) ->
  let w' :=
    snd (run2 db2 (pages.RedirectURL frontendURL shortCode path clientIP userAgent referer) w) in
  fst (run2 db2 (pages.RedirectURL frontendURL shortCode path clientIP userAgent referer) w)
    = pages.Redirect 301 (original_url r)
  /\ ((forall t : Z, expires_at r = Some t -> now (snd (read_clock (core w))) <= t) ->
      click_count r <> max_int32 ->
      exists t t' : Z,
        click_events w'
        = click_events w ++
          [mkClickEvent (click_events_id_seq w) (id r) clientIP userAgent referer
             EmptyString EmptyString t]
        /\ urls (core w') = <[shortCode := bump t' r]> (urls (core w))).
Proof.
  intros Hinv Hrow Hact Hexp w'. subst w'.
  pose proof (GetURL_servable_run _ _ _ Hinv Hrow Hact Hexp) as Hget.
  rewrite RedirectURL_run, RedirectURL_state, GetURL_core_db2, Hget. cbn [fst snd].
  split; [reflexivity|]. intros Hexp2 Hcnt.
  set (c1 := snd (cache_SetURL shortCode (original_url r) services.cacheTTL
                    match expires_at r with
                    | Some _ => snd (read_clock (core w))
                    | None => core w
                    end)) in *.
  assert (Hu1 : urls c1 = urls (core w))
    by (subst c1; cbn; destruct (expires_at r); [apply read_clock_urls | reflexivity]).
  assert (Hn1 : forall t : Z, expires_at r = Some t -> now c1 <= t).
  { intros t Ht. subst c1. cbn. rewrite Ht. apply Hexp2. exact Ht. }
  clearbody c1. clear Hget.
  assert (Hget2 : run db (services.GetURL shortCode) (core (set_core c1 w))
                  = (ok (scan shortCode r),
                     snd (cache_SetURL shortCode (original_url r) services.cacheTTL
                            match expires_at r with
                            | Some _ => snd (read_clock c1)
                            | None => c1
                            end))).
  { destruct w as [c l n m d]. cbn [core set_core] in *.
    apply GetURL_servable_run; rewrite ?Hu1; assumption. }
  rewrite (RecordClick_tail _ _ _ _ _ _ _ r Hget2);
    [| cbn -[read_clock]; destruct (expires_at r); rewrite ?read_clock_urls, Hu1; exact Hrow
     | reflexivity | exact Hcnt].
  destruct w as [c l n m d]. cbn -[read_clock].
  destruct (expires_at r); eexists; eexists; (split; [reflexivity|]);
    rewrite read_clock_urls; cbn -[read_clock]; rewrite ?read_clock_urls, Hu1;
    reflexivity.
Qed.

Lemma RedirectURL_failed (shortCode path clientIP userAgent referer : string)
    (w : World2) (err : error) :
  fst (run db (services.GetURL shortCode) (core w)) = fail err ->
  let w' :=
    snd (run2 db2 (pages.RedirectURL frontendURL shortCode path clientIP userAgent referer) w) in
  fst (run2 db2 (pages.RedirectURL frontendURL shortCode path clientIP userAgent referer) w)
    = pages.ErrorPageHandler frontendURL path err
  /\ click_events w' = click_events w
  /\ urls (core w') = urls (core w).
Proof.
  intros Hget w'. subst w'.
  rewrite RedirectURL_run, RedirectURL_state, GetURL_core_db2. cbn [fst snd].
  rewrite Hget. destruct w as [c l n m d]. cbn. repeat split. apply GetURL_keeps_urls.
Qed.

Lemma error_page (shortCode : string) (a : AppError) :
  HasPrefix ("/" +:+ shortCode) "/api/" = false ->
  HasPrefix ("/" +:+ shortCode) "/health" = false ->
  pages.ErrorPageHandler frontendURL ("/" +:+ shortCode) (appError a)
  = pages.Redirect 302
      (frontendURL +:+
       match Code a with
       | ErrCodeInactive => "/error/inactive?code="
       | ErrCodeExpired => "/error/expired?code="
       | ErrCodeNotFound => "/error/not-found?code="
       | _ => "/error/server-error?code="
       end +:+ shortCode).
Proof.
  intros Hapi Hhealth. unfold pages.ErrorPageHandler.
  rewrite Hapi, Hhealth, TrimPrefix_slash. cbn [negb andb GetAppError].
  destruct (Code a); reflexivity.
Qed.

(** X21. The public redirect of a link that cannot be served, for a code that does
    not begin with [api/] or [health]: a 302 to the frontend's page for the
    reason (not found, expired, inactive), and no click is recorded. *)
Theorem RedirectURL_dead_link_pages (shortCode clientIP userAgent referer : string)
    (w : World2) :
  shortCode <> EmptyString ->
  HasPrefix ("/" +:+ shortCode) "/api/" = false ->
  HasPrefix ("/" +:+ shortCode) "/health" = false ->
  let reply :=
    fst (run2 db2 (pages.RedirectURL frontendURL shortCode ("/" +:+ shortCode)
                     clientIP userAgent referer) w) in
  let w' :=
    snd (run2 db2 (pages.RedirectURL frontendURL shortCode ("/" +:+ shortCode)
                     clientIP userAgent referer) w) in
  (urls (core w) !! shortCode = None ->
   reply = pages.Redirect 302 (frontendURL +:+ "/error/not-found?code=" +:+ shortCode)
   /\ click_events w' = click_events w)
  /\ (forall (r : Row) (t : Z),
        urls (core w) !! shortCode = Some r -> expires_at r = Some t -> t < now (core w) ->
        reply = pages.Redirect 302 (frontendURL +:+ "/error/expired?code=" +:+ shortCode)
        /\ click_events w' = click_events w)
  /\ (forall r : Row,
        urls (core w) !! shortCode = Some r -> is_active r = false ->
        (forall t : Z, expires_at r = Some t -> now (core w) <= t) ->
        reply = pages.Redirect 302 (frontendURL +:+ "/error/inactive?code=" +:+ shortCode)
        /\ click_events w' = click_events w).
Proof.
  intros Hne Hapi Hhealth reply w'. subst reply w'.
  pose proof (GetURL_db shortCode (core w) Hne) as Hdb.
  split; [|split].
  - intros Hrow. rewrite Hrow in Hdb.
    destruct (RedirectURL_failed shortCode ("/" +:+ shortCode) clientIP userAgent referer w _
                (f_equal fst Hdb)) as (-> & Hc & _).
    split; [|exact Hc]. rewrite (error_page _ _ Hapi Hhealth). reflexivity.
  - intros r t Hrow Ht Hlt. rewrite Hrow, Ht in Hdb.
    apply Z.ltb_lt in Hlt. rewrite Hlt in Hdb.
    destruct (RedirectURL_failed shortCode ("/" +:+ shortCode) clientIP userAgent referer w _
                (f_equal fst Hdb)) as (-> & Hc & _).
    split; [|exact Hc]. rewrite (error_page _ _ Hapi Hhealth). reflexivity.
  - intros r Hrow Hact Hexp. rewrite Hrow, Hact in Hdb.
    assert (Hdb' : fst (run db (services.GetURL shortCode) (core w))
                   = fail (appError (NewInactiveError "URL is not active" None))).
    { rewrite Hdb. destruct (expires_at r) as [t|]; [|reflexivity].
      specialize (Hexp t eq_refl). apply Z.ltb_ge in Hexp. rewrite Hexp. reflexivity. }
    destruct (RedirectURL_failed shortCode ("/" +:+ shortCode) clientIP userAgent referer w _
                Hdb') as (-> & Hc & _).
    split; [|exact Hc]. rewrite (error_page _ _ Hapi Hhealth). reflexivity.
Qed.

(** X22. A code that begins with [health] is taken for the health route: when its
    link cannot be served the visitor gets the JSON error, not a page. *)
Theorem RedirectURL_health_prefix_gets_JSON {W : Type} (h : handler2 W)
    (shortCode clientIP userAgent referer : string) (w : W) (err : error) :
  HasPrefix ("/" +:+ shortCode) "/health" = true ->
  fst (run (core_handler h) (services.GetURL shortCode) w) = fail err ->
  exists a : AppError,
    err = appError a
    /\ In (StatusCode a) [400; 404; 410; 500]
    /\ fst (run2 h (pages.RedirectURL frontendURL shortCode ("/" +:+ shortCode)
                      clientIP userAgent referer) w)
       = pages.JSON (StatusCode a, handlers.JSONError (ToErrorResponse a)).
Proof.
  intros Hhealth Hget.
  destruct (error_facts.GetURL_errors (core_handler h) _ _ _ Hget) as (a & -> & Ha).
  exists a. split; [reflexivity|]. split; [exact Ha|].
  rewrite RedirectURL_run, Hget. unfold pages.ErrorPageHandler.
  rewrite Hhealth, andb_false_r. reflexivity.
Qed.

End Pages.

Lemma RedirectURL_health_prefix_gets_JSON_witness :
  exists a : AppError,
    In (StatusCode a) [400; 404; 410; 500]
    /\ fst (run2 db2 (pages.RedirectURL "https://sho.rt" "healthy" "/healthy"
                        "198.51.100.4" "curl/8.0" EmptyString)
              (scenario2.world2 (scenario.link true None) 2000))
       = pages.JSON (StatusCode a, handlers.JSONError (ToErrorResponse a)).
Proof.
  destruct (RedirectURL_health_prefix_gets_JSON "https://sho.rt" db2 "healthy"
              "198.51.100.4" "curl/8.0" EmptyString
              (scenario2.world2 (scenario.link true None) 2000)
              (appError (NewNotFoundError "URL not found"
                           (Some (errorString "URL not found"))))
              eq_refl eq_refl) as (a & _ & Ha & Hr).
  exists a. split; [exact Ha | exact Hr].
Defined.

(** ** Listing and statistics *)

(** X23. [GetAllURLs] against the tables never fails and changes nothing: it
    returns the number of all links of the user and a page of at most [limit]
    of them (at most ten when [limit] is not positive), each a stored link of
    that user. *)
Theorem GetAllURLs_page (userID limit offset : Z) (w : World2) :
  exists page : list URL,
    run2 db2 (click_service.GetAllURLs userID limit offset) w
    = (ok (page,
           Z.of_nat (List.length
             (List.filter (fun kr : string * Row => user_id (snd kr) =? userID)
                (map_to_list (urls (core w)))))),
       w)
    /\ (Z.of_nat (List.length page) <= if limit <=? 0 then 10 else limit)
    /\ Forall (fun url : URL =>
                 UserID url = userID
                 /\ exists r : Row,
                      urls (core w) !! ShortCode url = Some r
                      /\ url = scan (ShortCode url) r) page.
Proof.
  set (lim := if limit <=? 0 then 10 else limit).
  set (off := if offset <? 0 then 0 else offset).
  assert (Hlim : 0 < lim) by (subst lim; destruct (Z.leb_spec limit 0); lia).
  assert (Hoff : 0 <= off) by (subst off; destruct (Z.ltb_spec offset 0); lia).
  exists (take (Z.to_nat lim) (drop (Z.to_nat off) (rows_of userID (core w)))).
  split; [|split].
  - unfold click_service.GetAllURLs. fold lim off. cbn [bind2 call2 run2 db2].
    unfold url_GetAllByUser.
    destruct (Z.ltb_spec lim 0) as [?|_]; [lia|].
    destruct (Z.ltb_spec off 0) as [?|_]; [lia|].
    cbn. unfold rows_of at 2.
    rewrite merge_sort_Permutation, length_map. reflexivity.
  - rewrite length_take. lia.
  - apply Forall_take, Forall_drop. unfold rows_of.
    rewrite merge_sort_Permutation. apply Forall_map, Forall_forall.
    intros [c r] Hin. apply list_elem_of_In, filter_In in Hin as [Hin Hu].
    apply list_elem_of_In, elem_of_map_to_list in Hin. cbn in *.
    split; [apply Z.eqb_eq, Hu|]. exists r. split; [exact Hin | reflexivity].
Qed.

Lemma db2_CheckOwnership (shortCode : string) (userID : Z) (w : World2) :
  db2 _ (Core (URL_CheckOwnership shortCode userID)) w
  = (ok (owned_row shortCode userID (core w)), w).
Proof. destruct w as [c l n m d]. reflexivity. Qed.

Lemma id_owned_lookup (c : World) (shortCode : string) (r : Row) :
  urls c !! shortCode = Some r -> id_owned (id r) (user_id r) c = true.
Proof.
  intros H. unfold id_owned. apply existsb_exists. exists (shortCode, r). split.
  - apply list_elem_of_In, elem_of_map_to_list. exact H.
  - cbn. rewrite !Z.eqb_refl. reflexivity.
Qed.

(** What [GetAnalytics] does against the tables. *)
Lemma GetAnalytics_db2 (shortCode : string) (userID days : Z) (w : World2) :
  run2 db2 (click_service.GetAnalytics shortCode userID days) w
  = if owned_row shortCode userID (core w)
    then
      let c1 := snd (run db (services.GetURL shortCode) (core w)) in
      match fst (run db (services.GetURL shortCode) (core w)) with
      | fail err => (fail err, set_core c1 w)
      | ok url =>
          if id_owned (ID url) userID c1
          then (ok (url_GetAnalytics (ID url) days w), set_core c1 w)
          else (fail (appError (NewDatabaseError "Failed to get analytics"
                         (Some (errorString "URL not found or not owned by user")))),
                set_core c1 w)
      end
    else (fail (appError (NewForbiddenError "URL not found or access denied" None)), w).
Proof.
  unfold click_service.GetAnalytics.
  rewrite run2_call, db2_CheckOwnership. cbn [fst snd].
  destruct (owned_row shortCode userID (core w)); cbn [negb]; [|reflexivity].
  rewrite run2_bind, GetURL_db2. cbn [fst snd].
  destruct (fst (run db (services.GetURL shortCode) (core w))) as [url|err];
    [|reflexivity].
  rewrite run2_call. cbn [db2]. unfold url_GetAnalyticsByUser.
  destruct w as [c l n m d]. cbn [core set_core].
  destruct (id_owned (ID url) userID _); reflexivity.
Qed.

(** What [GetURLStats] does against the tables, up to the second lookup. *)
Lemma GetURLStats_refused (shortCode : string) (userID : Z) (w : World2) :
  owned_row shortCode userID (core w) = false ->
  run2 db2 (click_service.GetURLStats shortCode userID) w
  = (fail (appError (NewForbiddenError "URL not found or access denied" None)), w).
Proof.
  intros Hown. unfold click_service.GetURLStats.
  rewrite run2_call, db2_CheckOwnership, Hown. reflexivity.
Qed.

Lemma GetURLStats_unservable (shortCode : string) (userID : Z) (w : World2) (err : error) :
  owned_row shortCode userID (core w) = true ->
  fst (run db (services.GetURL shortCode) (core w)) = fail err ->
  run2 db2 (click_service.GetURLStats shortCode userID) w
  = (fail err, set_core (snd (run db (services.GetURL shortCode) (core w))) w).
Proof.
  intros Hown Hget. unfold click_service.GetURLStats.
  rewrite run2_call, db2_CheckOwnership, Hown. cbn [fst snd negb].
  rewrite run2_bind, GetURL_db2. cbn [fst snd]. rewrite Hget. reflexivity.
Qed.

(** X24. Statistics are for the owner only: anyone else, and anyone asking for a
    code that is not stored, gets the forbidden error from both operations,
    and nothing changes, not even the cache or the clock. *)
Theorem statistics_refused_to_non_owner (shortCode : string) (userID days : Z)
    (w : World2) :
  (forall r : Row, urls (core w) !! shortCode = Some r -> user_id r <> userID) ->
  run2 db2 (click_service.GetAnalytics shortCode userID days) w
  = (fail (appError (NewForbiddenError "URL not found or access denied" None)), w)
  /\ run2 db2 (click_service.GetURLStats shortCode userID) w
     = (fail (appError (NewForbiddenError "URL not found or access denied" None)), w).
Proof.
  intros Hother.
  assert (Hown : owned_row shortCode userID (core w) = false).
  { unfold owned_row. destruct (urls (core w) !! shortCode) as [r|]; [|reflexivity].
    apply Z.eqb_neq. apply Hother. reflexivity. }
  split.
  - rewrite GetAnalytics_db2, Hown. reflexivity.
  - apply GetURLStats_refused. exact Hown.
Qed.

Lemma statistics_refused_to_non_owner_witness :
  fst (run2 db2 (click_service.GetAnalytics scenario.code 2 30)
         (scenario2.world2 (scenario.link true None) 2000))
  = fail (appError (NewForbiddenError "URL not found or access denied" None)).
Proof.
  refine (f_equal fst (proj1 (statistics_refused_to_non_owner scenario.code 2 30
                                (scenario2.world2 (scenario.link true None) 2000) _))).
  intros r Hr. vm_compute in Hr. injection Hr as <-. vm_compute. discriminate.
Defined.

(** X25. The owner of a link that [GetURL] refuses (deactivated or expired) cannot
    read its statistics either: both operations return [GetURL]'s error, and
    no click event and no row changes. *)
Theorem statistics_of_unservable_link (shortCode : string) (days : Z)
    (w : World2) (r : Row) (err : error) :
  urls (core w) !! shortCode = Some r ->
  fst (run db (services.GetURL shortCode) (core w)) = fail err ->
  let w1 := snd (run2 db2 (click_service.GetAnalytics shortCode (user_id r) days) w) in
  let w2 := snd (run2 db2 (click_service.GetURLStats shortCode (user_id r)) w) in
  fst (run2 db2 (click_service.GetAnalytics shortCode (user_id r) days) w) = fail err
  /\ fst (run2 db2 (click_service.GetURLStats shortCode (user_id r)) w) = fail err
  /\ urls (core w1) = urls (core w) /\ click_events w1 = click_events w
  /\ urls (core w2) = urls (core w) /\ click_events w2 = click_events w.
Proof.
  intros Hrow Hget w1 w2. subst w1 w2.
  assert (Hown : owned_row shortCode (user_id r) (core w) = true)
    by (unfold owned_row; rewrite Hrow; apply Z.eqb_refl).
  rewrite GetAnalytics_db2, Hown, (GetURLStats_unservable _ _ _ _ Hown Hget). cbv zeta.
  rewrite Hget. destruct w as [c l n m d]. cbn.
  repeat split; apply GetURL_keeps_urls.
Qed.

Lemma statistics_of_unservable_link_witness :
  fst (run2 db2 (click_service.GetURLStats scenario.code 1)
         (scenario2.world2 (scenario.link false None) 2000))
  = fail (appError (NewInactiveError "URL is not active" None)).
Proof.
  refine (proj1 (proj2 (statistics_of_unservable_link scenario.code 30
                          (scenario2.world2 (scenario.link false None) 2000)
                          (scenario.link false None) _ eq_refl eq_refl))).
Defined.

Lemma filter_length_le {A : Type} (p : A -> bool) (l : list A) :
  (List.length (List.filter p l) <= List.length l)%nat.
Proof. induction l as [|a l IH]; cbn; [lia|]. destruct (p a); cbn; lia. Qed.

Lemma filter_mono_length {A : Type} (p q : A -> bool) (l : list A) :
  (forall a, p a = true -> q a = true) ->
  (List.length (List.filter p l) <= List.length (List.filter q l))%nat.
Proof.
  intros Hpq. induction l as [|a l IH]; cbn; [lia|].
  destruct (p a) eqn:Hp.
  - rewrite (Hpq _ Hp). cbn. lia.
  - destruct (q a); cbn; lia.
Qed.

Lemma remove_dups_length_le {A : Type} `{EqDecision A} (l : list A) :
  (List.length (remove_dups l) <= List.length l)%nat.
Proof.
  induction l as [|a l IH]; cbn; [lia|].
  destruct (decide_rel elem_of a l); cbn; lia.
Qed.

(** The counts of [urlRepository.GetAnalytics] are ordered: unique visitors
    and the clicks of the last week are at most all clicks, today's at most
    the week's. *)
Lemma url_GetAnalytics_ordered (urlID days : Z) (w : World2) :
  let a := url_GetAnalytics urlID days w in
  0 <= UniqueClicks a <= TotalClicks a
  /\ 0 <= ClicksToday a <= ClicksThisWeek a
  /\ ClicksThisWeek a <= TotalClicks a.
Proof.
  cbn. unfold url_GetAnalytics. cbn.
  pose proof (remove_dups_length_le (map Click_IPAddress (clicks_of urlID w))) as H1.
  rewrite length_map in H1.
  pose proof (filter_length_le (fun ce => current_date w - week <=? ClickedAt ce)
                (clicks_of urlID w)) as H2.
  pose proof (filter_mono_length (fun ce => current_date w <=? ClickedAt ce)
                (fun ce => current_date w - week <=? ClickedAt ce)
                (clicks_of urlID w)) as H3.
  assert (0 < week) by (unfold week; lia).
  lapply H3; [lia|]. intros a Ha. apply Z.leb_le in Ha. apply Z.leb_le. lia.
Qed.

(** X26. The owner of a servable link reads the counts over the click events of
    that link and of no other; the number of days asked for makes no
    difference, and no row and no click event changes. *)
Theorem GetAnalytics_by_owner (shortCode : string) (days : Z) (w : World2) (r : Row) :
  urls (core w) !! EmptyString = None ->
  urls (core w) !! shortCode = Some r ->
  is_active r = true ->
  (forall t : Z, expires_at r = Some t -> now (core w) <= t) ->
  let a := url_GetAnalytics (id r) 0 w in
  let w' := snd (run2 db2 (click_service.GetAnalytics shortCode (user_id r) days) w) in
  fst (run2 db2 (click_service.GetAnalytics shortCode (user_id r) days) w) = ok a
  /\ TotalClicks a
     = Z.of_nat (List.length (List.filter (fun ce => URLId ce =? id r) (click_events w)))
  /\ 0 <= UniqueClicks a <= TotalClicks a
  /\ 0 <= ClicksToday a <= ClicksThisWeek a
  /\ ClicksThisWeek a <= TotalClicks a
  /\ urls (core w') = urls (core w) /\ click_events w' = click_events w.
Proof.
  intros Hinv Hrow Hact Hexp a w'. subst w'.
  pose proof (GetURL_servable_run _ _ _ Hinv Hrow Hact Hexp) as Hget.
  assert (Hown : owned_row shortCode (user_id r) (core w) = true)
    by (unfold owned_row; rewrite Hrow; apply Z.eqb_refl).
  rewrite GetAnalytics_db2, Hown. cbv zeta. rewrite Hget. cbn [fst snd scan ID].
  assert (Hu : urls (snd (cache_SetURL shortCode (original_url r) services.cacheTTL
                            match expires_at r with
                            | Some _ => snd (read_clock (core w))
                            | None => core w
                            end)) = urls (core w))
    by (cbn; destruct (expires_at r); [apply read_clock_urls | reflexivity]).
  rewrite (id_owned_lookup _ shortCode r) by (rewrite Hu; exact Hrow).
  cbn [fst snd].
  split; [reflexivity|]. split; [reflexivity|].
  destruct (url_GetAnalytics_ordered (id r) 0 w) as (H1 & H2 & H3).
  destruct w as [c l n m d]. repeat split; try (apply H1 || apply H2 || apply H3).
  exact Hu.
Qed.

Lemma GetAnalytics_by_owner_witness :
  fst (run2 db2 (click_service.GetAnalytics scenario.code 1 30)
         (scenario2.world2 (scenario.link true (Some 2000)) 2000))
  = ok (mkURLAnalytics 2 2 2 2 [] []).
Proof.
  refine (proj1 (GetAnalytics_by_owner scenario.code 30
                   (scenario2.world2 (scenario.link true (Some 2000)) 2000)
                   (scenario.link true (Some 2000)) eq_refl eq_refl eq_refl _)).
  intros t [= <-]. vm_compute. discriminate.
Defined.

(** X27. [GetURLStats] for the owner of a link that stays servable over its two
    lookups: the record of the link, the counts over its click events, and at
    most ten of its click events. *)
Theorem GetURLStats_by_owner (shortCode : string) (w : World2) (r : Row) :
  urls (core w) !! EmptyString = None ->
  urls (core w) !! shortCode = Some r ->
  is_active r = true ->
  (forall t : Z, expires_at r = Some t -> now (snd (read_clock (core w))) <= t) ->
  exists resp : URLStatsResponse,
    fst (run2 db2 (click_service.GetURLStats shortCode (user_id r)) w) = ok resp
    /\ Stats_URL resp = scan shortCode r
    /\ Stats_Analytics resp = url_GetAnalytics (id r) 30 w
    /\ Stats_TotalClicks resp
       = Z.of_nat (List.length (List.filter (fun ce => URLId ce =? id r) (click_events w)))
    /\ (List.length (Stats_RecentClicks resp) <= 10)%nat
    /\ Forall (fun ce => URLId ce = id r /\ In ce (click_events w))
         (Stats_RecentClicks resp).
Proof.
  intros Hinv Hrow Hact Hexp2.
  assert (Hexp : forall t : Z, expires_at r = Some t -> now (core w) <= t).
  { intros t Ht. pose proof (read_clock_later (core w)). specialize (Hexp2 t Ht). lia. }
  pose proof (GetURL_servable_run _ _ _ Hinv Hrow Hact Hexp) as Hget.
  set (c1 := snd (cache_SetURL shortCode (original_url r) services.cacheTTL
                    match expires_at r with
                    | Some _ => snd (read_clock (core w))
                    | None => core w
                    end)) in *.
  assert (Hu1 : urls c1 = urls (core w))
    by (subst c1; cbn; destruct (expires_at r); [apply read_clock_urls | reflexivity]).
  assert (Hn1 : forall t : Z, expires_at r = Some t -> now c1 <= t).
  { intros t Ht. subst c1. cbn. rewrite Ht. apply Hexp2. exact Ht. }
  clearbody c1.
  assert (Hown : owned_row shortCode (user_id r) (core w) = true)
    by (unfold owned_row; rewrite Hrow; apply Z.eqb_refl).
  assert (Hown1 : owned_row shortCode (user_id r) c1 = true)
    by (unfold owned_row; rewrite Hu1, Hrow; apply Z.eqb_refl).
  assert (Hget1 : run db (services.GetURL shortCode) c1
                  = (ok (scan shortCode r),
                     snd (cache_SetURL shortCode (original_url r) services.cacheTTL
                            match expires_at r with
                            | Some _ => snd (read_clock c1)
                            | None => c1
                            end)))
    by (apply GetURL_servable_run; rewrite ?Hu1; assumption).
  set (c2 := snd (cache_SetURL shortCode (original_url r) services.cacheTTL
                    match expires_at r with
                    | Some _ => snd (read_clock c1)
                    | None => c1
                    end)) in *.
  assert (Hu2 : urls c2 = urls (core w))
    by (subst c2; cbn -[read_clock]; destruct (expires_at r);
        rewrite ?read_clock_urls; exact Hu1).
  clearbody c2.
  unfold click_service.GetURLStats.
  rewrite run2_call, db2_CheckOwnership, Hown. cbn [fst snd negb].
  rewrite run2_bind, GetURL_db2, Hget. cbn [fst snd].
  rewrite run2_bind, GetAnalytics_db2.
  destruct w as [c l n m d]. cbn [core set_core] in *.
  rewrite Hown1. cbv zeta. rewrite Hget1. cbn [fst snd scan ID].
  rewrite (id_owned_lookup c2 shortCode r) by (rewrite Hu2; exact Hrow).
  cbn [fst snd]. rewrite run2_call. cbn [db2]. unfold url_GetClickEvents.
  cbn [Z.ltb Z.compare fst snd run2].
  eexists. split; [reflexivity|]. cbn [Stats_URL Stats_Analytics Stats_TotalClicks
                                      Stats_RecentClicks].
  split; [reflexivity|]. split; [reflexivity|]. split; [reflexivity|]. split.
  - rewrite length_take. lia.
  - apply Forall_take. rewrite merge_sort_Permutation. apply Forall_forall.
    intros ce Hin. apply list_elem_of_In, filter_In in Hin as [Hin Hid].
    split; [apply Z.eqb_eq, Hid | exact Hin].
Qed.

Lemma GetURLStats_by_owner_witness :
  exists resp : URLStatsResponse,
    fst (run2 db2 (click_service.GetURLStats scenario.code 1)
           (scenario2.world2 (scenario.link true (Some 2001)) 2000)) = ok resp
    /\ Stats_TotalClicks resp = 2.
Proof.
  destruct (GetURLStats_by_owner scenario.code
              (scenario2.world2 (scenario.link true (Some 2001)) 2000)
              (scenario.link true (Some 2001)) eq_refl eq_refl eq_refl)
    as (resp & Hr & _ & _ & Ht & _).
  - intros t [= <-]. vm_compute. discriminate.
  - exists resp. split; [exact Hr | exact Ht].
Defined.

Lemma read_clock_set_redis (m : gmap string (string * Z)) (c : World) :
  now (snd (read_clock (set_redis m c))) = now (snd (read_clock c)).
Proof. unfold read_clock, set_redis. cbn. destruct (ticks c); reflexivity. Qed.

(** X28. A recorded click shows in the owner's statistics: after [RecordClick] on
    a servable link, [GetAnalytics] reports one more click in total than
    before. *)
Theorem RecordClick_then_GetAnalytics (shortCode clientIP userAgent referer : string)
    (days : Z) (w : World2) (r : Row) :
  urls (core w) !! EmptyString = None ->
  urls (core w) !! shortCode = Some r ->
  is_active r = true ->
  (forall t : Z, expires_at r = Some t ->
                 now (snd (read_clock (snd (read_clock (core w))))) <= t) ->
  click_count r <> max_int32 ->
  let w1 := snd (run2 db2 (click_service.RecordClick shortCode clientIP userAgent referer) w) in
  exists a0 a1 : URLAnalytics,
    fst (run2 db2 (click_service.GetAnalytics shortCode (user_id r) days) w) = ok a0
    /\ fst (run2 db2 (click_service.GetAnalytics shortCode (user_id r) days) w1) = ok a1
    /\ TotalClicks a1 = TotalClicks a0 + 1.
Proof.
  intros Hinv Hrow Hact Hexp3 Hcnt w1. subst w1.
  pose proof (read_clock_later (core w)) as Hl1.
  pose proof (read_clock_later (snd (read_clock (core w)))) as Hl2.
  assert (Hexp : forall t : Z, expires_at r = Some t -> now (core w) <= t).
  { intros t Ht. specialize (Hexp3 t Ht). lia. }
  assert (Hne : shortCode <> EmptyString) by exact (stored_code_nonempty _ _ _ Hinv Hrow).
  pose proof (GetURL_servable_run _ _ _ Hinv Hrow Hact Hexp) as Hget.
  set (c1 := snd (cache_SetURL shortCode (original_url r) services.cacheTTL
                    match expires_at r with
                    | Some _ => snd (read_clock (core w))
                    | None => core w
                    end)) in *.
  assert (Hu1 : urls c1 = urls (core w))
    by (subst c1; cbn; destruct (expires_at r); [apply read_clock_urls | reflexivity]).
  assert (Hn1 : forall t : Z, expires_at r = Some t -> now (snd (read_clock c1)) <= t).
  { intros t Ht. subst c1. rewrite Ht. cbn [cache_SetURL snd].
    rewrite read_clock_set_redis. apply (Hexp3 t Ht). }
  clearbody c1.
  exists (url_GetAnalytics (id r) days w).
  eexists. split; [|split].
  - assert (Hown : owned_row shortCode (user_id r) (core w) = true)
      by (unfold owned_row; rewrite Hrow; apply Z.eqb_refl).
    rewrite GetAnalytics_db2, Hown. cbv zeta. rewrite Hget. cbn [fst snd scan ID].
    rewrite (id_owned_lookup c1 shortCode r) by (rewrite Hu1; exact Hrow).
    reflexivity.
  - rewrite (RecordClick_tail _ _ _ _ _ _ _ r Hget);
      [| rewrite Hu1; exact Hrow | reflexivity | exact Hcnt].
    cbv zeta. cbn [snd].
    set (c3 := set_urls (<[shortCode := bump (now (snd (read_clock c1))) r]>
                           (urls (snd (read_clock c1))))
                 (snd (read_clock c1))).
    assert (Hrow3 : urls c3 !! shortCode = Some (bump (now (snd (read_clock c1))) r))
      by apply lookup_insert_eq.
    assert (Hinv3 : urls c3 !! EmptyString = None).
    { subst c3. cbn -[read_clock]. rewrite lookup_insert_ne by exact Hne.
      rewrite read_clock_urls, Hu1. exact Hinv. }
    assert (Hget3 := GetURL_servable_run shortCode c3 (bump (now (snd (read_clock c1))) r)
                       Hinv3 Hrow3 Hact Hn1).
    rewrite GetAnalytics_db2. cbn [core].
    assert (Hown3 : owned_row shortCode (user_id r) c3 = true)
      by (unfold owned_row; rewrite Hrow3; apply Z.eqb_refl).
    rewrite Hown3. cbv zeta. rewrite Hget3. cbn [fst snd scan ID].
    rewrite (id_owned_lookup _ shortCode (bump (now (snd (read_clock c1))) r));
      [reflexivity|].
    cbn -[read_clock]. destruct (expires_at r); rewrite ?read_clock_urls; exact Hrow3.
  - unfold url_GetAnalytics, clicks_of. cbn [TotalClicks click_events bump id].
    rewrite List.filter_app, length_app. cbn. rewrite Z.eqb_refl. cbn. lia.
Qed.

Section AnyHandler2.

Context {W : Type}.
Variable h : handler2 W.

Ltac app_error :=
  first [ discriminate
        | intros [= <-]; eexists; split; [reflexivity | cbn; auto 10] ].

Lemma RecordClick_errors (shortCode clientIP userAgent referer : string) (w : W)
    (e : error) :
  fst (run2 h (click_service.RecordClick shortCode clientIP userAgent referer) w) = Some e ->
  exists a : AppError, e = appError a /\ In (StatusCode a) [400; 404; 410; 500].
Proof.
  unfold click_service.RecordClick. rewrite run2_bind, run2_lift.
  destruct (fst (run (core_handler h) (services.GetURL shortCode) w)) as [url|err] eqn:Hget.
  - rewrite run2_call.
    destruct (h _ (Core TimeNow) _) as [t w1]. cbn [fst snd]. rewrite run2_call.
    destruct (h _ (URL_CreateClickEvent _) w1) as [[err|] w2]; cbn [fst snd];
      [cbn; app_error|].
    rewrite run2_call.
    destruct (h _ (URL_IncrementClickCount _) w2) as [[err|] w3]; cbn [fst snd];
      [cbn; app_error|].
    rewrite run2_call. cbn. discriminate.
  - cbn. intros [= <-]. exact (error_facts.GetURL_errors (core_handler h) _ _ _ Hget).
Qed.

Lemma GetAllURLs_errors (userID limit offset : Z) (w : W) (e : error) :
  fst (run2 h (click_service.GetAllURLs userID limit offset) w) = fail e ->
  exists a : AppError, e = appError a /\ In (StatusCode a) [500].
Proof.
  unfold click_service.GetAllURLs. cbv zeta. rewrite run2_call.
  destruct (h _ _ w) as [[page|err] w1]; cbn; app_error.
Qed.

Lemma GetAnalytics_errors (shortCode : string) (userID days : Z) (w : W) (e : error) :
  fst (run2 h (click_service.GetAnalytics shortCode userID days) w) = fail e ->
  exists a : AppError, e = appError a /\ In (StatusCode a) [400; 403; 404; 410; 500].
Proof.
  unfold click_service.GetAnalytics. rewrite run2_call.
  destruct (h _ (Core (URL_CheckOwnership _ _)) w) as [[[|]|err] w1];
    cbn [fst snd negb]; [|cbn; app_error..].
  rewrite run2_bind, run2_lift.
  destruct (fst (run (core_handler h) (services.GetURL shortCode) w1)) as [url|err] eqn:Hget.
  - rewrite run2_call.
    destruct (h _ (URL_GetAnalyticsByUser _ _ _) _) as [[a|err] w3]; cbn; app_error.
  - cbn. intros [= <-].
    destruct (error_facts.GetURL_errors (core_handler h) _ _ _ Hget) as (a & -> & Ha).
    exists a. split; [reflexivity|]. cbn in Ha |- *. tauto.
Qed.

Lemma GetURLStats_errors (shortCode : string) (userID : Z) (w : W) (e : error) :
  fst (run2 h (click_service.GetURLStats shortCode userID) w) = fail e ->
  exists a : AppError, e = appError a /\ In (StatusCode a) [400; 403; 404; 410; 500].
Proof.
  unfold click_service.GetURLStats. rewrite run2_call.
  destruct (h _ (Core (URL_CheckOwnership _ _)) w) as [[[|]|err] w1];
    cbn [fst snd negb]; [|cbn; app_error..].
  rewrite run2_bind, run2_lift.
  destruct (fst (run (core_handler h) (services.GetURL shortCode) w1)) as [url|err] eqn:Hget.
  - rewrite run2_bind.
    destruct (fst (run2 h (click_service.GetAnalytics shortCode userID 30) _))
      as [a|err] eqn:Han.
    + rewrite run2_call.
      destruct (h _ (URL_GetClickEvents _ _) _) as [[l|err] w3]; cbn; app_error.
    + cbn. intros [= <-]. exact (GetAnalytics_errors _ _ _ _ _ Han).
  - cbn. intros [= <-].
    destruct (error_facts.GetURL_errors (core_handler h) _ _ _ Hget) as (a & -> & Ha).
    exists a. split; [reflexivity|]. cbn in Ha |- *. tauto.
Qed.

End AnyHandler2.

(** X29. Whoever implements the collaborators and whatever they answer, every
    error of click recording, listing and statistics is an [AppError] with a
    status of its operation's list; a failure of the cache counter is not an
    error of [RecordClick]. *)
Theorem click_service_errors_are_AppErrors (W : Type) (h : handler2 W) (w : W) (e : error) :
  (forall shortCode clientIP userAgent referer,
      fst (run2 h (click_service.RecordClick shortCode clientIP userAgent referer) w)
        = Some e ->
      exists a, e = appError a /\ In (StatusCode a) [400; 404; 410; 500])
  /\ (forall userID limit offset,
        fst (run2 h (click_service.GetAllURLs userID limit offset) w) = fail e ->
        exists a, e = appError a /\ StatusCode a = 500)
  /\ (forall shortCode userID days,
        fst (run2 h (click_service.GetAnalytics shortCode userID days) w) = fail e ->
        exists a, e = appError a /\ In (StatusCode a) [400; 403; 404; 410; 500])
  /\ (forall shortCode userID,
        fst (run2 h (click_service.GetURLStats shortCode userID) w) = fail e ->
        exists a, e = appError a /\ In (StatusCode a) [400; 403; 404; 410; 500]).
Proof.
  split; [|split; [|split]].
  - intros. eapply RecordClick_errors; eassumption.
  - intros userID limit offset He.
    destruct (GetAllURLs_errors h _ _ _ _ _ He) as (a & -> & [Hs|[]]).
    exists a. split; [reflexivity | symmetry; exact Hs].
  - intros. eapply GetAnalytics_errors; eassumption.
  - intros. eapply GetURLStats_errors; eassumption.
Qed.

(** The two writes of [RecordClick] are not one transaction: when the click
    count of a servable link cannot be incremented (the column is at its
    maximum), the operation reports a database error, yet the click event it
    inserted before stays, and the count is as it was. *)
Theorem RecordClick_full_counter_keeps_event
    (shortCode clientIP userAgent referer : string) (w : World2) (r : Row) :
  urls (core w) !! EmptyString = None ->
  urls (core w) !! shortCode = Some r ->
  is_active r = true ->
  (forall t : Z, expires_at r = Some t -> now (core w) <= t) ->
  click_count r = max_int32 ->
  let w' := snd (run2 db2 (click_service.RecordClick shortCode clientIP userAgent referer) w) in
  (exists a : AppError,
      fst (run2 db2 (click_service.RecordClick shortCode clientIP userAgent referer) w)
        = Some (appError a)
      /\ Code a = ErrCodeDatabase /\ StatusCode a = 500)
  /\ (exists t : Z,
        click_events w'
        = click_events w ++
          [mkClickEvent (click_events_id_seq w) (id r) clientIP userAgent referer
             EmptyString EmptyString t])
  /\ urls (core w') = urls (core w)
  /\ counters w' = counters w.
Proof.
  intros Hinv Hrow Hact Hexp Hcnt w'. subst w'.
  pose proof (GetURL_servable_run _ _ _ Hinv Hrow Hact Hexp) as Hget.
  set (c1 := snd (cache_SetURL shortCode (original_url r) services.cacheTTL
                    match expires_at r with
                    | Some _ => snd (read_clock (core w))
                    | None => core w
                    end)) in *.
  assert (Hu1 : urls c1 = urls (core w))
    by (subst c1; cbn; destruct (expires_at r); [apply read_clock_urls | reflexivity]).
  clearbody c1.
  unfold click_service.RecordClick.
  rewrite run2_bind, GetURL_db2, Hget. cbn [fst snd].
  rewrite run2_call, db2_TimeNow. cbn [fst snd].
  rewrite run2_call, db2_CreateClickEvent; cbn [fst snd URLId core set_core];
    [|apply (id_stored_lookup _ shortCode);
      rewrite read_clock_urls, Hu1; exact Hrow].
  rewrite run2_call. cbn [db2]. unfold url_IncrementClickCount. cbn [core].
  rewrite read_clock_urls, Hu1, Hrow, Hcnt, Z.eqb_refl. cbn [fst snd run2].
  destruct w as [c l n m d]. cbn -[read_clock]. split; [|split; [|split]].
  - eexists. split; [reflexivity|]. split; reflexivity.
  - eexists. reflexivity.
  - rewrite read_clock_urls. exact Hu1.
  - reflexivity.
Qed.

Lemma RecordClick_full_counter_keeps_event_witness :
  List.length
    (click_events
       (snd (run2 db2 (click_service.RecordClick scenario.code "198.51.100.9" "curl/8.0"
                         EmptyString)
               (scenario2.world2
                  (mkRow 7 "https://example.com" 1 1000 1000 2147483647 true None
                     "curl/8.0" "192.0.2.1") 2000)))) = 3%nat.
Proof.
  destruct (RecordClick_full_counter_keeps_event scenario.code "198.51.100.9" "curl/8.0"
              EmptyString
              (scenario2.world2
                 (mkRow 7 "https://example.com" 1 1000 1000 2147483647 true None
                    "curl/8.0" "192.0.2.1") 2000)
              (mkRow 7 "https://example.com" 1 1000 1000 2147483647 true None
                 "curl/8.0" "192.0.2.1") eq_refl eq_refl eq_refl)
    as (_ & (t & ->) & _).
  - intros t. discriminate.
  - reflexivity.
  - reflexivity.
Defined.

Lemma RecordClick_counts_click_witness :
  fst (run2 db2 (click_service.RecordClick scenario.code "198.51.100.9" "curl/8.0"
                   EmptyString)
         (scenario2.world2 (scenario.link true (Some 2000)) 2000)) = None.
Proof.
  refine (proj1 (RecordClick_counts_click scenario.code "198.51.100.9" "curl/8.0"
                   EmptyString (scenario2.world2 (scenario.link true (Some 2000)) 2000)
                   (scenario.link true (Some 2000)) eq_refl eq_refl eq_refl _ _)).
  - intros t [= <-]. vm_compute. discriminate.
  - vm_compute. discriminate.
Defined.

Lemma RecordClick_unservable_records_nothing_witness :
  click_events
    (snd (run2 db2 (click_service.RecordClick scenario.code "198.51.100.9" "curl/8.0"
                      EmptyString)
            (scenario2.world2 (scenario.link true (Some 1999)) 2000)))
  = click_events (scenario2.world2 (scenario.link true (Some 1999)) 2000).
Proof.
  refine (proj1 (proj2 (RecordClick_unservable_records_nothing scenario.code
                          "198.51.100.9" "curl/8.0" EmptyString
                          (scenario2.world2 (scenario.link true (Some 1999)) 2000)
                          (appError (NewExpiredError "URL has expired" None)) eq_refl))).
Defined.

Lemma RedirectURL_serves_and_counts_witness :
  fst (run2 db2 (pages.RedirectURL "https://sho.rt" scenario.code "/abc12345"
                   "198.51.100.9" "curl/8.0" EmptyString)
         (scenario2.world2 (scenario.link true (Some 2000)) 2000))
  = pages.Redirect 301 "https://example.com".
Proof.
  refine (proj1 (RedirectURL_serves_and_counts "https://sho.rt" scenario.code "/abc12345"
                   "198.51.100.9" "curl/8.0" EmptyString
                   (scenario2.world2 (scenario.link true (Some 2000)) 2000)
                   (scenario.link true (Some 2000)) eq_refl eq_refl eq_refl _)).
  intros t [= <-]. vm_compute. discriminate.
Defined.

Lemma RedirectURL_dead_link_pages_witness :
  fst (run2 db2 (pages.RedirectURL "https://sho.rt" scenario.code "/abc12345"
                   "198.51.100.9" "curl/8.0" EmptyString)
         (scenario2.world2 (scenario.link false None) 2000))
  = pages.Redirect 302 "https://sho.rt/error/inactive?code=abc12345".
Proof.
  refine (proj1 (proj2 (proj2 (RedirectURL_dead_link_pages "https://sho.rt" scenario.code
                                 "198.51.100.9" "curl/8.0" EmptyString
                                 (scenario2.world2 (scenario.link false None) 2000)
                                 _ eq_refl eq_refl))
                   (scenario.link false None) eq_refl eq_refl _)).
  - discriminate.
  - intros t. discriminate.
Defined.

Lemma RecordClick_then_GetAnalytics_witness :
  exists a0 a1 : URLAnalytics,
    fst (run2 db2 (click_service.GetAnalytics scenario.code 1 30)
           (scenario2.world2 (scenario.link true (Some 2003)) 2000)) = ok a0
    /\ fst (run2 db2 (click_service.GetAnalytics scenario.code 1 30)
              (snd (run2 db2 (click_service.RecordClick scenario.code "198.51.100.9"
                                "curl/8.0" EmptyString)
                      (scenario2.world2 (scenario.link true (Some 2003)) 2000)))) = ok a1
    /\ TotalClicks a1 = TotalClicks a0 + 1.
Proof.
  refine (RecordClick_then_GetAnalytics scenario.code "198.51.100.9" "curl/8.0" EmptyString
            30 (scenario2.world2 (scenario.link true (Some 2003)) 2000)
            (scenario.link true (Some 2003)) eq_refl eq_refl eq_refl _ _).
  - intros t [= <-]. vm_compute. discriminate.
  - vm_compute. discriminate.
Defined.

End clicks_facts.

(** ** The stored record against its own check *)

Module record_facts.

Import strings errors models effects validation store record.

(** The record check and the request validators apply one criterion to the
    target: the parser succeeds and finds a scheme and a host. *)
Lemma IsValidURL_check_url (url_Parse : string -> result ParsedURL) (u : URL) :
  IsValidURL url_Parse u = true <-> check_url url_Parse (OriginalURL u) = None.
Proof.
  unfold IsValidURL, check_url.
  destruct (url_Parse (OriginalURL u)) as [p|err]; [|split; discriminate].
  destruct (String.eqb (Scheme p) EmptyString), (String.eqb (Host p) EmptyString);
    cbn; split; (reflexivity || discriminate).
Qed.

(** X30. Every record [CreateURL] stores passes [URL.Validate]: its short code and
    its target are not empty and the parser finds a scheme and a host in the
    target. *)
Theorem CreateURL_stores_valid_record (url_Parse : string -> result ParsedURL)
    (baseURL : string) (req : CreateURLRequest) (userID : Z)
    (clientIP userAgent : string) (w : World) (resp : CreateURLResponse) :
  fst (run db (services.CreateURL url_Parse baseURL req userID clientIP userAgent) w)
    = ok resp ->
  exists r : Row,
    urls (snd (run db (services.CreateURL url_Parse baseURL req userID clientIP
                         userAgent) w)) !! Resp_ShortCode resp = Some r
    /\ URL_Validate url_Parse (scan (Resp_ShortCode resp) r) = None
    /\ IsValidURL url_Parse (scan (Resp_ShortCode resp) r) = true.
Proof.
  intros Hok.
  destruct (create_db_facts.CreateURL_success_db url_Parse baseURL req userID clientIP
              userAgent w resp Hok)
    as (t1 & t2 & _ & _ & _ & Hne & _ & _ & Hu & _ & _ & (p & Hp & Hs & Hh) & _).
  eexists. split; [rewrite Hu; apply lookup_insert_eq|].
  assert (Hv : IsValidURL url_Parse
                 (scan (Resp_ShortCode resp)
                    (mkRow (urls_id_seq w) (normalize (Create_URL req)) userID t1 t2 0 true
                       (Create_ExpiresAt req) userAgent clientIP)) = true).
  { unfold IsValidURL. cbn [scan OriginalURL original_url]. rewrite Hp.
    apply String.eqb_neq in Hs, Hh. rewrite Hs, Hh. reflexivity. }
  split; [|exact Hv].
  unfold URL_Validate. rewrite Hv. cbn [scan ShortCode OriginalURL original_url negb].
  apply String.eqb_neq in Hne. rewrite Hne.
  pose proof (update_facts.normalize_nonempty (Create_URL req)) as Hn.
  apply String.eqb_neq in Hn. rewrite Hn. reflexivity.
Qed.

Lemma CreateURL_stores_valid_record_witness :
  exists r : Row,
    urls (snd (run db (services.CreateURL example.url_Parse example.baseURL
                         scenario.shorten_as 1 "192.0.2.7" "curl/8.0")
                 (scenario.world (scenario.link true None) 2000))) !! "my-link" = Some r
    /\ URL_Validate example.url_Parse (scan "my-link" r) = None.
Proof.
  eassert (Hok : fst (run db (services.CreateURL example.url_Parse example.baseURL
                                scenario.shorten_as 1 "192.0.2.7" "curl/8.0")
                        (scenario.world (scenario.link true None) 2000)) = ok _)
    by (vm_compute; reflexivity).
  destruct (CreateURL_stores_valid_record _ _ _ _ _ _ _ _ Hok) as (r & Hr & Hv & _).
  exists r. split; [exact Hr | exact Hv].
Defined.

End record_facts.
